(** * Docker4Iran: probing, scoring, ranking and selection

    A shallow embedding of the two selector scripts of the repository,
    [src/dns_selector.py] (class [DNSSelector]) and [src/mirror_selector.py]
    (class [InteractiveRegistrySelector]), and the properties of their
    probing / scoring / ranking / selection engine.

    Layout: the Python runtime the scripts rely on ([Py]), then the two
    scripts ([DnsSelector], [MirrorSelector]), then the lemmas. *)

From Stdlib Require Import List String Ascii ZArith QArith Bool Lia Lqa.
From Stdlib Require Import Permutation Sorted.
Import ListNotations.

Set Implicit Arguments.

(* ================================================================== *)
(** * The Python runtime used by the scripts *)
(* ================================================================== *)

Module Py.

(** ** Floats

    Every float of the two scripts is either a literal [float('inf')], a
    difference of two [time.time()] readings, or built from those by [sum],
    [+], [* 1.5] and [/ len(...)].  Such a value is a finite number or
    [+inf]; finite values are kept as exact rationals (rounding of binary64
    arithmetic is not modelled, and neither are NaN and [-inf], which none
    of these operations produces from such operands). *)
Inductive pyfloat : Type :=
| Fin (q : Q)
| Inf.

(** [float('inf')]: the sentinel of a failed measurement. *)
Definition float_inf : pyfloat := Inf.

(** [math.isfinite]. *)
Definition is_finite (x : pyfloat) : bool :=
  match x with Fin _ => true | Inf => false end.

(** [x == y] on floats. *)
Definition feq (x y : pyfloat) : bool :=
  match x, y with
  | Fin a, Fin b => Qeq_bool a b
  | Inf, Inf => true
  | _, _ => false
  end.

(** [x < y] on floats. *)
Definition flt (x y : pyfloat) : bool :=
  match x, y with
  | Fin a, Fin b => negb (Qle_bool b a)
  | Fin _, Inf => true
  | Inf, _ => false
  end.

(** [x <= y] on floats. *)
Definition fle (x y : pyfloat) : bool :=
  match x, y with
  | Fin a, Fin b => Qle_bool a b
  | _, Inf => true
  | Inf, Fin _ => false
  end.

(** [x >= y]. *)
Definition fge (x y : pyfloat) : bool := fle y x.

(** [x + y]. *)
Definition fadd (x y : pyfloat) : pyfloat :=
  match x, y with
  | Fin a, Fin b => Fin (a + b)
  | _, _ => Inf
  end.

(** [x * c] for a literal [c > 0] (the scripts only multiply by [1.5] and
    by [100]). *)
Definition fmul_const (x : pyfloat) (c : Q) : pyfloat :=
  match x with
  | Fin a => Fin (a * c)
  | Inf => Inf
  end.

(** [sum(l)]: left to right, from the integer [0]. *)
Definition fsum (l : list pyfloat) : pyfloat :=
  fold_left fadd l (Fin 0).

(** ** Exceptions

    The exception classes that matter to a handler of the scripts.
    [KeyboardInterrupt] and [SystemExit] derive from [BaseException] only;
    all the others derive from [Exception]; [TimeoutExpired] derives from
    [SubprocessError]. *)
Inductive exn : Type :=
| KeyError
| ValueError
| EOFError
| ZeroDivisionError
| IndexError
| OSError
| SubprocessError
| TimeoutExpired
| RequestException
| KeyboardInterrupt
| SystemExit.

(** [isinstance(e, Exception)]. *)
Definition isinstance_Exception (e : exn) : bool :=
  match e with
  | KeyboardInterrupt | SystemExit => false
  | _ => true
  end.

(** [isinstance(e, (subprocess.TimeoutExpired, subprocess.SubprocessError))]. *)
Definition isinstance_SubprocessError (e : exn) : bool :=
  match e with
  | SubprocessError | TimeoutExpired => true
  | _ => false
  end.

(** [isinstance(e, ValueError)]. *)
Definition isinstance_ValueError (e : exn) : bool :=
  match e with
  | ValueError => true
  | _ => false
  end.

(** [isinstance(e, KeyboardInterrupt)]. *)
Definition isinstance_KeyboardInterrupt (e : exn) : bool :=
  match e with
  | KeyboardInterrupt => true
  | _ => false
  end.

(** The outcome of evaluating an expression: a value, or a raised exception. *)
Inductive result (A : Type) : Type :=
| Ok (a : A)
| Raise (e : exn).

Arguments Ok {A} a.
Arguments Raise {A} e.

Definition result_map {A B : Type} (f : A -> B) (r : result A) : result B :=
  match r with
  | Ok a => Ok (f a)
  | Raise e => Raise e
  end.

(** [a / b] on two ints (true division: the quotient is a float). *)
Definition int_truediv (a b : nat) : result pyfloat :=
  match b with
  | O => Raise ZeroDivisionError
  | S _ => Ok (Fin (inject_Z (Z.of_nat a) / inject_Z (Z.of_nat b)))
  end.

(** [x / n] for a float [x] and an int [n]. *)
Definition float_truediv (x : pyfloat) (n : nat) : result pyfloat :=
  match n with
  | O => Raise ZeroDivisionError
  | S _ =>
      match x with
      | Fin a => Ok (Fin (a / inject_Z (Z.of_nat n)))
      | Inf => Ok Inf
      end
  end.

(** ** Calls to the outside world

    A script talks to the network through blocking calls.  [io R A] is a
    computation that issues requests of type [R]: it is run on the list of
    the requests issued so far and returns its outcome with that list
    extended by its own requests, in order. *)
Definition io (R A : Type) : Type := list R -> result A * list R.

Definition ret {R A : Type} (a : A) : io R A := fun h => (Ok a, h).

Definition raise {R A : Type} (e : exn) : io R A := fun h => (Raise e, h).

Definition bind {R A B : Type} (m : io R A) (k : A -> io R B) : io R B :=
  fun h =>
    match m h with
    | (Ok a, h') => k a h'
    | (Raise e, h') => (Raise e, h')
    end.

(** A pure expression that may raise, used inside a computation. *)
Definition lift {R A : Type} (r : result A) : io R A := fun h => (r, h).

(** [try: body except C1: h1 except C2: h2 ...]: when the body raises, the
    first clause whose class the exception is an instance of runs; with no
    such clause the exception goes on to the caller. *)
Fixpoint dispatch {R A : Type} (clauses : list ((exn -> bool) * io R A))
    (e : exn) : io R A :=
  match clauses with
  | [] => raise e
  | (isinstance, handler) :: rest =>
      if isinstance e then handler else dispatch rest e
  end.

Definition try_except {R A : Type} (body : io R A)
    (clauses : list ((exn -> bool) * io R A)) : io R A :=
  fun h =>
    match body h with
    | (Ok a, h') => (Ok a, h')
    | (Raise e, h') => dispatch clauses e h'
    end.

Declare Scope io_scope.
Delimit Scope io_scope with io.

Notation "x <- m ;; k" := (bind m (fun x => k))
  (at level 61, m at next level, right associativity) : io_scope.
Notation "' p <- m ;; k" := (bind m (fun x => match x with p => k end))
  (at level 61, p pattern, m at next level, right associativity) : io_scope.

(** ** Rich comparison

    [list.sort] and tuple comparison only use [==] and [<]. *)
Class PyOrd (A : Type) : Type := {
  py_eq : A -> A -> bool;
  py_lt : A -> A -> bool
}.

#[global]
Instance bool_PyOrd : PyOrd bool := {
  py_eq := Bool.eqb;
  py_lt := fun a b => negb a && b
}.

#[global]
Instance float_PyOrd : PyOrd pyfloat := {
  py_eq := feq;
  py_lt := flt
}.

(** Tuples compare lexicographically: the first position where the two
    differ (by [==]) decides (by [<]).  A triple [(a, b, c)] is the nested
    pair [((a, b), c)], the order is the same. *)
#[global]
Instance tuple_PyOrd (A B : Type) `{PyOrd A} `{PyOrd B} : PyOrd (A * B) := {
  py_eq := fun x y => py_eq (fst x) (fst y) && py_eq (snd x) (snd y);
  py_lt := fun x y =>
    if py_eq (fst x) (fst y) then py_lt (snd x) (snd y)
    else py_lt (fst x) (fst y)
}.

(** ** [list.sort(key=...)]

    The sort is stable: elements whose keys are not ordered by [<] keep
    their order.  [insert_sorted key x l] puts [x], which stood before every
    element of [l], behind the elements of smaller key only. *)
Fixpoint insert_sorted {A K : Type} `{PyOrd K} (key : A -> K) (x : A)
    (l : list A) : list A :=
  match l with
  | [] => [x]
  | y :: l' =>
      if py_lt (key y) (key x) then y :: insert_sorted key x l'
      else x :: y :: l'
  end.

Definition list_sort {A K : Type} `{PyOrd K} (key : A -> K) (l : list A)
    : list A :=
  fold_right (insert_sorted key) [] l.

(** ** Strings

    A Python [str] is a sequence of Unicode code points.  The values of the
    configuration (names, addresses, the output of [nslookup]) only meet
    operations that act on text as they act on its bytes ([rstrip('/')],
    [startswith], [in], [+], [==]); they are kept as [string].  What the
    operator types and what a file holds meets [strip], [lower] and [int],
    which go by the Unicode character database: such a text is a [ustring],
    the list of its code points.  The tables are those of Unicode 14.0.0,
    the version CPython 3.11 carries. *)
Definition ustring : Type := list N.

(** An ASCII literal of the scripts, as a [str]. *)
Definition literal (s : string) : ustring :=
  map N_of_ascii (list_ascii_of_string s).

Coercion literal : string >-> ustring.

Arguments literal s : simpl never.

(** [s == t] on two [str]. *)
Fixpoint ustring_eqb (s t : ustring) : bool :=
  match s, t with
  | [], [] => true
  | c :: s', d :: t' => (c =? d)%N && ustring_eqb s' t'
  | _, _ => false
  end.

(** [c] lies in one of the ranges, bounds included. *)
Definition in_ranges (ranges : list (N * N)) (c : N) : bool :=
  existsb (fun r => (fst r <=? c)%N && (c <=? snd r)%N) ranges.

(** The code points for which [str.isspace()] holds. *)
Definition whitespace : list N :=
  [
    0x9; 0xA; 0xB; 0xC; 0xD; 0x1C; 0x1D; 0x1E; 0x1F; 0x20; 0x85; 0xA0; 0x1680;
    0x2000; 0x2001; 0x2002; 0x2003; 0x2004; 0x2005; 0x2006; 0x2007; 0x2008;
    0x2009; 0x200A; 0x2028; 0x2029; 0x202F; 0x205F; 0x3000
  ]%N.

(** The characters [str.strip()] removes. *)
Definition is_space (c : N) : bool := existsb (N.eqb c) whitespace.

Fixpoint lstrip (s : ustring) : ustring :=
  match s with
  | [] => []
  | c :: s' => if is_space c then lstrip s' else s
  end.

Fixpoint rstrip (s : ustring) : ustring :=
  match s with
  | [] => []
  | c :: s' =>
      match rstrip s' with
      | [] => if is_space c then [] else [c]
      | r => c :: r
      end
  end.

(** [s.strip()]. *)
Definition strip (s : ustring) : ustring := rstrip (lstrip s).

(** Removes the trailing characters that satisfy [p]. *)
Fixpoint rstrip_if (p : ascii -> bool) (s : string) : string :=
  match s with
  | EmptyString => EmptyString
  | String c s' =>
      match rstrip_if p s' with
      | EmptyString => if p c then EmptyString else String c EmptyString
      | r => String c r
      end
  end.

(** [s.rstrip('/')]. *)
Definition rstrip_slash (s : string) : string :=
  rstrip_if (Ascii.eqb "/"%char) s.

(** The lowercase mapping of [str.lower()], but for U+0130 and U+03A3:
    [(first, last, step, delta)] stands for the code points [first],
    [first + step], ..., [last], each mapped to itself plus [delta]. *)
Definition lowercase : list (Z * Z * Z * Z) :=
  [
    (0x41, 0x5A, 1, 32); (0xC0, 0xD6, 1, 32); (0xD8, 0xDE, 1, 32);
    (0x100, 0x12E, 2, 1); (0x132, 0x136, 2, 1); (0x139, 0x147, 2, 1);
    (0x14A, 0x176, 2, 1); (0x178, 0x178, 1, -121); (0x179, 0x17D, 2, 1);
    (0x181, 0x181, 1, 210); (0x182, 0x184, 2, 1); (0x186, 0x186, 1, 206);
    (0x187, 0x187, 1, 1); (0x189, 0x18A, 1, 205); (0x18B, 0x18B, 1, 1);
    (0x18E, 0x18E, 1, 79); (0x18F, 0x18F, 1, 202); (0x190, 0x190, 1, 203);
    (0x191, 0x191, 1, 1); (0x193, 0x193, 1, 205); (0x194, 0x194, 1, 207);
    (0x196, 0x196, 1, 211); (0x197, 0x197, 1, 209); (0x198, 0x198, 1, 1);
    (0x19C, 0x19C, 1, 211); (0x19D, 0x19D, 1, 213); (0x19F, 0x19F, 1, 214);
    (0x1A0, 0x1A4, 2, 1); (0x1A6, 0x1A6, 1, 218); (0x1A7, 0x1A7, 1, 1);
    (0x1A9, 0x1A9, 1, 218); (0x1AC, 0x1AC, 1, 1); (0x1AE, 0x1AE, 1, 218);
    (0x1AF, 0x1AF, 1, 1); (0x1B1, 0x1B2, 1, 217); (0x1B3, 0x1B5, 2, 1);
    (0x1B7, 0x1B7, 1, 219); (0x1B8, 0x1B8, 1, 1); (0x1BC, 0x1BC, 1, 1);
    (0x1C4, 0x1C4, 1, 2); (0x1C5, 0x1C5, 1, 1); (0x1C7, 0x1C7, 1, 2);
    (0x1C8, 0x1C8, 1, 1); (0x1CA, 0x1CA, 1, 2); (0x1CB, 0x1DB, 2, 1);
    (0x1DE, 0x1EE, 2, 1); (0x1F1, 0x1F1, 1, 2); (0x1F2, 0x1F4, 2, 1);
    (0x1F6, 0x1F6, 1, -97); (0x1F7, 0x1F7, 1, -56); (0x1F8, 0x21E, 2, 1);
    (0x220, 0x220, 1, -130); (0x222, 0x232, 2, 1); (0x23A, 0x23A, 1, 10795);
    (0x23B, 0x23B, 1, 1); (0x23D, 0x23D, 1, -163); (0x23E, 0x23E, 1, 10792);
    (0x241, 0x241, 1, 1); (0x243, 0x243, 1, -195); (0x244, 0x244, 1, 69);
    (0x245, 0x245, 1, 71); (0x246, 0x24E, 2, 1); (0x370, 0x372, 2, 1);
    (0x376, 0x376, 1, 1); (0x37F, 0x37F, 1, 116); (0x386, 0x386, 1, 38);
    (0x388, 0x38A, 1, 37); (0x38C, 0x38C, 1, 64); (0x38E, 0x38F, 1, 63);
    (0x391, 0x3A1, 1, 32); (0x3A4, 0x3AB, 1, 32); (0x3CF, 0x3CF, 1, 8);
    (0x3D8, 0x3EE, 2, 1); (0x3F4, 0x3F4, 1, -60); (0x3F7, 0x3F7, 1, 1);
    (0x3F9, 0x3F9, 1, -7); (0x3FA, 0x3FA, 1, 1); (0x3FD, 0x3FF, 1, -130);
    (0x400, 0x40F, 1, 80); (0x410, 0x42F, 1, 32); (0x460, 0x480, 2, 1);
    (0x48A, 0x4BE, 2, 1); (0x4C0, 0x4C0, 1, 15); (0x4C1, 0x4CD, 2, 1);
    (0x4D0, 0x52E, 2, 1); (0x531, 0x556, 1, 48); (0x10A0, 0x10C5, 1, 7264);
    (0x10C7, 0x10C7, 1, 7264); (0x10CD, 0x10CD, 1, 7264);
    (0x13A0, 0x13EF, 1, 38864); (0x13F0, 0x13F5, 1, 8);
    (0x1C90, 0x1CBA, 1, -3008); (0x1CBD, 0x1CBF, 1, -3008);
    (0x1E00, 0x1E94, 2, 1); (0x1E9E, 0x1E9E, 1, -7615);
    (0x1EA0, 0x1EFE, 2, 1); (0x1F08, 0x1F0F, 1, -8); (0x1F18, 0x1F1D, 1, -8);
    (0x1F28, 0x1F2F, 1, -8); (0x1F38, 0x1F3F, 1, -8); (0x1F48, 0x1F4D, 1, -8);
    (0x1F59, 0x1F5F, 2, -8); (0x1F68, 0x1F6F, 1, -8); (0x1F88, 0x1F8F, 1, -8);
    (0x1F98, 0x1F9F, 1, -8); (0x1FA8, 0x1FAF, 1, -8); (0x1FB8, 0x1FB9, 1, -8);
    (0x1FBA, 0x1FBB, 1, -74); (0x1FBC, 0x1FBC, 1, -9);
    (0x1FC8, 0x1FCB, 1, -86); (0x1FCC, 0x1FCC, 1, -9);
    (0x1FD8, 0x1FD9, 1, -8); (0x1FDA, 0x1FDB, 1, -100);
    (0x1FE8, 0x1FE9, 1, -8); (0x1FEA, 0x1FEB, 1, -112);
    (0x1FEC, 0x1FEC, 1, -7); (0x1FF8, 0x1FF9, 1, -128);
    (0x1FFA, 0x1FFB, 1, -126); (0x1FFC, 0x1FFC, 1, -9);
    (0x2126, 0x2126, 1, -7517); (0x212A, 0x212A, 1, -8383);
    (0x212B, 0x212B, 1, -8262); (0x2132, 0x2132, 1, 28);
    (0x2160, 0x216F, 1, 16); (0x2183, 0x2183, 1, 1); (0x24B6, 0x24CF, 1, 26);
    (0x2C00, 0x2C2F, 1, 48); (0x2C60, 0x2C60, 1, 1);
    (0x2C62, 0x2C62, 1, -10743); (0x2C63, 0x2C63, 1, -3814);
    (0x2C64, 0x2C64, 1, -10727); (0x2C67, 0x2C6B, 2, 1);
    (0x2C6D, 0x2C6D, 1, -10780); (0x2C6E, 0x2C6E, 1, -10749);
    (0x2C6F, 0x2C6F, 1, -10783); (0x2C70, 0x2C70, 1, -10782);
    (0x2C72, 0x2C72, 1, 1); (0x2C75, 0x2C75, 1, 1);
    (0x2C7E, 0x2C7F, 1, -10815); (0x2C80, 0x2CE2, 2, 1);
    (0x2CEB, 0x2CED, 2, 1); (0x2CF2, 0x2CF2, 1, 1); (0xA640, 0xA66C, 2, 1);
    (0xA680, 0xA69A, 2, 1); (0xA722, 0xA72E, 2, 1); (0xA732, 0xA76E, 2, 1);
    (0xA779, 0xA77B, 2, 1); (0xA77D, 0xA77D, 1, -35332);
    (0xA77E, 0xA786, 2, 1); (0xA78B, 0xA78B, 1, 1);
    (0xA78D, 0xA78D, 1, -42280); (0xA790, 0xA792, 2, 1);
    (0xA796, 0xA7A8, 2, 1); (0xA7AA, 0xA7AA, 1, -42308);
    (0xA7AB, 0xA7AB, 1, -42319); (0xA7AC, 0xA7AC, 1, -42315);
    (0xA7AD, 0xA7AD, 1, -42305); (0xA7AE, 0xA7AE, 1, -42308);
    (0xA7B0, 0xA7B0, 1, -42258); (0xA7B1, 0xA7B1, 1, -42282);
    (0xA7B2, 0xA7B2, 1, -42261); (0xA7B3, 0xA7B3, 1, 928);
    (0xA7B4, 0xA7C2, 2, 1); (0xA7C4, 0xA7C4, 1, -48);
    (0xA7C5, 0xA7C5, 1, -42307); (0xA7C6, 0xA7C6, 1, -35384);
    (0xA7C7, 0xA7C9, 2, 1); (0xA7D0, 0xA7D0, 1, 1); (0xA7D6, 0xA7D8, 2, 1);
    (0xA7F5, 0xA7F5, 1, 1); (0xFF21, 0xFF3A, 1, 32);
    (0x10400, 0x10427, 1, 40); (0x104B0, 0x104D3, 1, 40);
    (0x10570, 0x1057A, 1, 39); (0x1057C, 0x1058A, 1, 39);
    (0x1058C, 0x10592, 1, 39); (0x10594, 0x10595, 1, 39);
    (0x10C80, 0x10CB2, 1, 64); (0x118A0, 0x118BF, 1, 32);
    (0x16E40, 0x16E5F, 1, 32); (0x1E900, 0x1E921, 1, 34)
  ]%Z.

(** The code points with the property [Case_Ignorable]. *)
Definition case_ignorable : list (N * N) :=
  [
    (0x27, 0x27); (0x2E, 0x2E); (0x3A, 0x3A); (0x5E, 0x5E); (0x60, 0x60);
    (0xA8, 0xA8); (0xAD, 0xAD); (0xAF, 0xAF); (0xB4, 0xB4); (0xB7, 0xB8);
    (0x2B0, 0x36F); (0x374, 0x375); (0x37A, 0x37A); (0x384, 0x385);
    (0x387, 0x387); (0x483, 0x489); (0x559, 0x559); (0x55F, 0x55F);
    (0x591, 0x5BD); (0x5BF, 0x5BF); (0x5C1, 0x5C2); (0x5C4, 0x5C5);
    (0x5C7, 0x5C7); (0x5F4, 0x5F4); (0x600, 0x605); (0x610, 0x61A);
    (0x61C, 0x61C); (0x640, 0x640); (0x64B, 0x65F); (0x670, 0x670);
    (0x6D6, 0x6DD); (0x6DF, 0x6E8); (0x6EA, 0x6ED); (0x70F, 0x70F);
    (0x711, 0x711); (0x730, 0x74A); (0x7A6, 0x7B0); (0x7EB, 0x7F5);
    (0x7FA, 0x7FA); (0x7FD, 0x7FD); (0x816, 0x82D); (0x859, 0x85B);
    (0x888, 0x888); (0x890, 0x891); (0x898, 0x89F); (0x8C9, 0x902);
    (0x93A, 0x93A); (0x93C, 0x93C); (0x941, 0x948); (0x94D, 0x94D);
    (0x951, 0x957); (0x962, 0x963); (0x971, 0x971); (0x981, 0x981);
    (0x9BC, 0x9BC); (0x9C1, 0x9C4); (0x9CD, 0x9CD); (0x9E2, 0x9E3);
    (0x9FE, 0x9FE); (0xA01, 0xA02); (0xA3C, 0xA3C); (0xA41, 0xA42);
    (0xA47, 0xA48); (0xA4B, 0xA4D); (0xA51, 0xA51); (0xA70, 0xA71);
    (0xA75, 0xA75); (0xA81, 0xA82); (0xABC, 0xABC); (0xAC1, 0xAC5);
    (0xAC7, 0xAC8); (0xACD, 0xACD); (0xAE2, 0xAE3); (0xAFA, 0xAFF);
    (0xB01, 0xB01); (0xB3C, 0xB3C); (0xB3F, 0xB3F); (0xB41, 0xB44);
    (0xB4D, 0xB4D); (0xB55, 0xB56); (0xB62, 0xB63); (0xB82, 0xB82);
    (0xBC0, 0xBC0); (0xBCD, 0xBCD); (0xC00, 0xC00); (0xC04, 0xC04);
    (0xC3C, 0xC3C); (0xC3E, 0xC40); (0xC46, 0xC48); (0xC4A, 0xC4D);
    (0xC55, 0xC56); (0xC62, 0xC63); (0xC81, 0xC81); (0xCBC, 0xCBC);
    (0xCBF, 0xCBF); (0xCC6, 0xCC6); (0xCCC, 0xCCD); (0xCE2, 0xCE3);
    (0xD00, 0xD01); (0xD3B, 0xD3C); (0xD41, 0xD44); (0xD4D, 0xD4D);
    (0xD62, 0xD63); (0xD81, 0xD81); (0xDCA, 0xDCA); (0xDD2, 0xDD4);
    (0xDD6, 0xDD6); (0xE31, 0xE31); (0xE34, 0xE3A); (0xE46, 0xE4E);
    (0xEB1, 0xEB1); (0xEB4, 0xEBC); (0xEC6, 0xEC6); (0xEC8, 0xECD);
    (0xF18, 0xF19); (0xF35, 0xF35); (0xF37, 0xF37); (0xF39, 0xF39);
    (0xF71, 0xF7E); (0xF80, 0xF84); (0xF86, 0xF87); (0xF8D, 0xF97);
    (0xF99, 0xFBC); (0xFC6, 0xFC6); (0x102D, 0x1030); (0x1032, 0x1037);
    (0x1039, 0x103A); (0x103D, 0x103E); (0x1058, 0x1059); (0x105E, 0x1060);
    (0x1071, 0x1074); (0x1082, 0x1082); (0x1085, 0x1086); (0x108D, 0x108D);
    (0x109D, 0x109D); (0x10FC, 0x10FC); (0x135D, 0x135F); (0x1712, 0x1714);
    (0x1732, 0x1733); (0x1752, 0x1753); (0x1772, 0x1773); (0x17B4, 0x17B5);
    (0x17B7, 0x17BD); (0x17C6, 0x17C6); (0x17C9, 0x17D3); (0x17D7, 0x17D7);
    (0x17DD, 0x17DD); (0x180B, 0x180F); (0x1843, 0x1843); (0x1885, 0x1886);
    (0x18A9, 0x18A9); (0x1920, 0x1922); (0x1927, 0x1928); (0x1932, 0x1932);
    (0x1939, 0x193B); (0x1A17, 0x1A18); (0x1A1B, 0x1A1B); (0x1A56, 0x1A56);
    (0x1A58, 0x1A5E); (0x1A60, 0x1A60); (0x1A62, 0x1A62); (0x1A65, 0x1A6C);
    (0x1A73, 0x1A7C); (0x1A7F, 0x1A7F); (0x1AA7, 0x1AA7); (0x1AB0, 0x1ACE);
    (0x1B00, 0x1B03); (0x1B34, 0x1B34); (0x1B36, 0x1B3A); (0x1B3C, 0x1B3C);
    (0x1B42, 0x1B42); (0x1B6B, 0x1B73); (0x1B80, 0x1B81); (0x1BA2, 0x1BA5);
    (0x1BA8, 0x1BA9); (0x1BAB, 0x1BAD); (0x1BE6, 0x1BE6); (0x1BE8, 0x1BE9);
    (0x1BED, 0x1BED); (0x1BEF, 0x1BF1); (0x1C2C, 0x1C33); (0x1C36, 0x1C37);
    (0x1C78, 0x1C7D); (0x1CD0, 0x1CD2); (0x1CD4, 0x1CE0); (0x1CE2, 0x1CE8);
    (0x1CED, 0x1CED); (0x1CF4, 0x1CF4); (0x1CF8, 0x1CF9); (0x1D2C, 0x1D6A);
    (0x1D78, 0x1D78); (0x1D9B, 0x1DFF); (0x1FBD, 0x1FBD); (0x1FBF, 0x1FC1);
    (0x1FCD, 0x1FCF); (0x1FDD, 0x1FDF); (0x1FED, 0x1FEF); (0x1FFD, 0x1FFE);
    (0x200B, 0x200F); (0x2018, 0x2019); (0x2024, 0x2024); (0x2027, 0x2027);
    (0x202A, 0x202E); (0x2060, 0x2064); (0x2066, 0x206F); (0x2071, 0x2071);
    (0x207F, 0x207F); (0x2090, 0x209C); (0x20D0, 0x20F0); (0x2C7C, 0x2C7D);
    (0x2CEF, 0x2CF1); (0x2D6F, 0x2D6F); (0x2D7F, 0x2D7F); (0x2DE0, 0x2DFF);
    (0x2E2F, 0x2E2F); (0x3005, 0x3005); (0x302A, 0x302D); (0x3031, 0x3035);
    (0x303B, 0x303B); (0x3099, 0x309E); (0x30FC, 0x30FE); (0xA015, 0xA015);
    (0xA4F8, 0xA4FD); (0xA60C, 0xA60C); (0xA66F, 0xA672); (0xA674, 0xA67D);
    (0xA67F, 0xA67F); (0xA69C, 0xA69F); (0xA6F0, 0xA6F1); (0xA700, 0xA721);
    (0xA770, 0xA770); (0xA788, 0xA78A); (0xA7F2, 0xA7F4); (0xA7F8, 0xA7F9);
    (0xA802, 0xA802); (0xA806, 0xA806); (0xA80B, 0xA80B); (0xA825, 0xA826);
    (0xA82C, 0xA82C); (0xA8C4, 0xA8C5); (0xA8E0, 0xA8F1); (0xA8FF, 0xA8FF);
    (0xA926, 0xA92D); (0xA947, 0xA951); (0xA980, 0xA982); (0xA9B3, 0xA9B3);
    (0xA9B6, 0xA9B9); (0xA9BC, 0xA9BD); (0xA9CF, 0xA9CF); (0xA9E5, 0xA9E6);
    (0xAA29, 0xAA2E); (0xAA31, 0xAA32); (0xAA35, 0xAA36); (0xAA43, 0xAA43);
    (0xAA4C, 0xAA4C); (0xAA70, 0xAA70); (0xAA7C, 0xAA7C); (0xAAB0, 0xAAB0);
    (0xAAB2, 0xAAB4); (0xAAB7, 0xAAB8); (0xAABE, 0xAABF); (0xAAC1, 0xAAC1);
    (0xAADD, 0xAADD); (0xAAEC, 0xAAED); (0xAAF3, 0xAAF4); (0xAAF6, 0xAAF6);
    (0xAB5B, 0xAB5F); (0xAB69, 0xAB6B); (0xABE5, 0xABE5); (0xABE8, 0xABE8);
    (0xABED, 0xABED); (0xFB1E, 0xFB1E); (0xFBB2, 0xFBC2); (0xFE00, 0xFE0F);
    (0xFE13, 0xFE13); (0xFE20, 0xFE2F); (0xFE52, 0xFE52); (0xFE55, 0xFE55);
    (0xFEFF, 0xFEFF); (0xFF07, 0xFF07); (0xFF0E, 0xFF0E); (0xFF1A, 0xFF1A);
    (0xFF3E, 0xFF3E); (0xFF40, 0xFF40); (0xFF70, 0xFF70); (0xFF9E, 0xFF9F);
    (0xFFE3, 0xFFE3); (0xFFF9, 0xFFFB); (0x101FD, 0x101FD);
    (0x102E0, 0x102E0); (0x10376, 0x1037A); (0x10780, 0x10785);
    (0x10787, 0x107B0); (0x107B2, 0x107BA); (0x10A01, 0x10A03);
    (0x10A05, 0x10A06); (0x10A0C, 0x10A0F); (0x10A38, 0x10A3A);
    (0x10A3F, 0x10A3F); (0x10AE5, 0x10AE6); (0x10D24, 0x10D27);
    (0x10EAB, 0x10EAC); (0x10F46, 0x10F50); (0x10F82, 0x10F85);
    (0x11001, 0x11001); (0x11038, 0x11046); (0x11070, 0x11070);
    (0x11073, 0x11074); (0x1107F, 0x11081); (0x110B3, 0x110B6);
    (0x110B9, 0x110BA); (0x110BD, 0x110BD); (0x110C2, 0x110C2);
    (0x110CD, 0x110CD); (0x11100, 0x11102); (0x11127, 0x1112B);
    (0x1112D, 0x11134); (0x11173, 0x11173); (0x11180, 0x11181);
    (0x111B6, 0x111BE); (0x111C9, 0x111CC); (0x111CF, 0x111CF);
    (0x1122F, 0x11231); (0x11234, 0x11234); (0x11236, 0x11237);
    (0x1123E, 0x1123E); (0x112DF, 0x112DF); (0x112E3, 0x112EA);
    (0x11300, 0x11301); (0x1133B, 0x1133C); (0x11340, 0x11340);
    (0x11366, 0x1136C); (0x11370, 0x11374); (0x11438, 0x1143F);
    (0x11442, 0x11444); (0x11446, 0x11446); (0x1145E, 0x1145E);
    (0x114B3, 0x114B8); (0x114BA, 0x114BA); (0x114BF, 0x114C0);
    (0x114C2, 0x114C3); (0x115B2, 0x115B5); (0x115BC, 0x115BD);
    (0x115BF, 0x115C0); (0x115DC, 0x115DD); (0x11633, 0x1163A);
    (0x1163D, 0x1163D); (0x1163F, 0x11640); (0x116AB, 0x116AB);
    (0x116AD, 0x116AD); (0x116B0, 0x116B5); (0x116B7, 0x116B7);
    (0x1171D, 0x1171F); (0x11722, 0x11725); (0x11727, 0x1172B);
    (0x1182F, 0x11837); (0x11839, 0x1183A); (0x1193B, 0x1193C);
    (0x1193E, 0x1193E); (0x11943, 0x11943); (0x119D4, 0x119D7);
    (0x119DA, 0x119DB); (0x119E0, 0x119E0); (0x11A01, 0x11A0A);
    (0x11A33, 0x11A38); (0x11A3B, 0x11A3E); (0x11A47, 0x11A47);
    (0x11A51, 0x11A56); (0x11A59, 0x11A5B); (0x11A8A, 0x11A96);
    (0x11A98, 0x11A99); (0x11C30, 0x11C36); (0x11C38, 0x11C3D);
    (0x11C3F, 0x11C3F); (0x11C92, 0x11CA7); (0x11CAA, 0x11CB0);
    (0x11CB2, 0x11CB3); (0x11CB5, 0x11CB6); (0x11D31, 0x11D36);
    (0x11D3A, 0x11D3A); (0x11D3C, 0x11D3D); (0x11D3F, 0x11D45);
    (0x11D47, 0x11D47); (0x11D90, 0x11D91); (0x11D95, 0x11D95);
    (0x11D97, 0x11D97); (0x11EF3, 0x11EF4); (0x13430, 0x13438);
    (0x16AF0, 0x16AF4); (0x16B30, 0x16B36); (0x16B40, 0x16B43);
    (0x16F4F, 0x16F4F); (0x16F8F, 0x16F9F); (0x16FE0, 0x16FE1);
    (0x16FE3, 0x16FE4); (0x1AFF0, 0x1AFF3); (0x1AFF5, 0x1AFFB);
    (0x1AFFD, 0x1AFFE); (0x1BC9D, 0x1BC9E); (0x1BCA0, 0x1BCA3);
    (0x1CF00, 0x1CF2D); (0x1CF30, 0x1CF46); (0x1D167, 0x1D169);
    (0x1D173, 0x1D182); (0x1D185, 0x1D18B); (0x1D1AA, 0x1D1AD);
    (0x1D242, 0x1D244); (0x1DA00, 0x1DA36); (0x1DA3B, 0x1DA6C);
    (0x1DA75, 0x1DA75); (0x1DA84, 0x1DA84); (0x1DA9B, 0x1DA9F);
    (0x1DAA1, 0x1DAAF); (0x1E000, 0x1E006); (0x1E008, 0x1E018);
    (0x1E01B, 0x1E021); (0x1E023, 0x1E024); (0x1E026, 0x1E02A);
    (0x1E130, 0x1E13D); (0x1E2AE, 0x1E2AE); (0x1E2EC, 0x1E2EF);
    (0x1E8D0, 0x1E8D6); (0x1E944, 0x1E94B); (0x1F3FB, 0x1F3FF);
    (0xE0001, 0xE0001); (0xE0020, 0xE007F); (0xE0100, 0xE01EF)
  ]%N.

(** The code points with the property [Cased] and without
    [Case_Ignorable]. *)
Definition cased : list (N * N) :=
  [
    (0x41, 0x5A); (0x61, 0x7A); (0xAA, 0xAA); (0xB5, 0xB5); (0xBA, 0xBA);
    (0xC0, 0xD6); (0xD8, 0xF6); (0xF8, 0x1BA); (0x1BC, 0x1BF); (0x1C4, 0x293);
    (0x295, 0x2AF); (0x370, 0x373); (0x376, 0x377); (0x37B, 0x37D);
    (0x37F, 0x37F); (0x386, 0x386); (0x388, 0x38A); (0x38C, 0x38C);
    (0x38E, 0x3A1); (0x3A3, 0x3F5); (0x3F7, 0x481); (0x48A, 0x52F);
    (0x531, 0x556); (0x560, 0x588); (0x10A0, 0x10C5); (0x10C7, 0x10C7);
    (0x10CD, 0x10CD); (0x10D0, 0x10FA); (0x10FD, 0x10FF); (0x13A0, 0x13F5);
    (0x13F8, 0x13FD); (0x1C80, 0x1C88); (0x1C90, 0x1CBA); (0x1CBD, 0x1CBF);
    (0x1D00, 0x1D2B); (0x1D6B, 0x1D77); (0x1D79, 0x1D9A); (0x1E00, 0x1F15);
    (0x1F18, 0x1F1D); (0x1F20, 0x1F45); (0x1F48, 0x1F4D); (0x1F50, 0x1F57);
    (0x1F59, 0x1F59); (0x1F5B, 0x1F5B); (0x1F5D, 0x1F5D); (0x1F5F, 0x1F7D);
    (0x1F80, 0x1FB4); (0x1FB6, 0x1FBC); (0x1FBE, 0x1FBE); (0x1FC2, 0x1FC4);
    (0x1FC6, 0x1FCC); (0x1FD0, 0x1FD3); (0x1FD6, 0x1FDB); (0x1FE0, 0x1FEC);
    (0x1FF2, 0x1FF4); (0x1FF6, 0x1FFC); (0x2102, 0x2102); (0x2107, 0x2107);
    (0x210A, 0x2113); (0x2115, 0x2115); (0x2119, 0x211D); (0x2124, 0x2124);
    (0x2126, 0x2126); (0x2128, 0x2128); (0x212A, 0x212D); (0x212F, 0x2134);
    (0x2139, 0x2139); (0x213C, 0x213F); (0x2145, 0x2149); (0x214E, 0x214E);
    (0x2160, 0x217F); (0x2183, 0x2184); (0x24B6, 0x24E9); (0x2C00, 0x2C7B);
    (0x2C7E, 0x2CE4); (0x2CEB, 0x2CEE); (0x2CF2, 0x2CF3); (0x2D00, 0x2D25);
    (0x2D27, 0x2D27); (0x2D2D, 0x2D2D); (0xA640, 0xA66D); (0xA680, 0xA69B);
    (0xA722, 0xA76F); (0xA771, 0xA787); (0xA78B, 0xA78E); (0xA790, 0xA7CA);
    (0xA7D0, 0xA7D1); (0xA7D3, 0xA7D3); (0xA7D5, 0xA7D9); (0xA7F5, 0xA7F6);
    (0xA7FA, 0xA7FA); (0xAB30, 0xAB5A); (0xAB60, 0xAB68); (0xAB70, 0xABBF);
    (0xFB00, 0xFB06); (0xFB13, 0xFB17); (0xFF21, 0xFF3A); (0xFF41, 0xFF5A);
    (0x10400, 0x1044F); (0x104B0, 0x104D3); (0x104D8, 0x104FB);
    (0x10570, 0x1057A); (0x1057C, 0x1058A); (0x1058C, 0x10592);
    (0x10594, 0x10595); (0x10597, 0x105A1); (0x105A3, 0x105B1);
    (0x105B3, 0x105B9); (0x105BB, 0x105BC); (0x10C80, 0x10CB2);
    (0x10CC0, 0x10CF2); (0x118A0, 0x118DF); (0x16E40, 0x16E7F);
    (0x1D400, 0x1D454); (0x1D456, 0x1D49C); (0x1D49E, 0x1D49F);
    (0x1D4A2, 0x1D4A2); (0x1D4A5, 0x1D4A6); (0x1D4A9, 0x1D4AC);
    (0x1D4AE, 0x1D4B9); (0x1D4BB, 0x1D4BB); (0x1D4BD, 0x1D4C3);
    (0x1D4C5, 0x1D505); (0x1D507, 0x1D50A); (0x1D50D, 0x1D514);
    (0x1D516, 0x1D51C); (0x1D51E, 0x1D539); (0x1D53B, 0x1D53E);
    (0x1D540, 0x1D544); (0x1D546, 0x1D546); (0x1D54A, 0x1D550);
    (0x1D552, 0x1D6A5); (0x1D6A8, 0x1D6C0); (0x1D6C2, 0x1D6DA);
    (0x1D6DC, 0x1D6FA); (0x1D6FC, 0x1D714); (0x1D716, 0x1D734);
    (0x1D736, 0x1D74E); (0x1D750, 0x1D76E); (0x1D770, 0x1D788);
    (0x1D78A, 0x1D7A8); (0x1D7AA, 0x1D7C2); (0x1D7C4, 0x1D7CB);
    (0x1DF00, 0x1DF09); (0x1DF0B, 0x1DF1E); (0x1E900, 0x1E943);
    (0x1F130, 0x1F149); (0x1F150, 0x1F169); (0x1F170, 0x1F189)
  ]%N.

(** The lowercase of one character other than U+03A3: one code point, or
    two for U+0130. *)
Definition to_lower (c : N) : ustring :=
  if (c =? 0x130)%N then [0x69; 0x307]%N
  else
    let z := Z.of_N c in
    match
      find
        (fun g =>
           match g with
           | (first, last, step, _) =>
               ((first <=? z) && (z <=? last)
                && ((z - first) mod step =? 0))%Z
           end)
        lowercase
    with
    | Some (_, _, _, delta) => [Z.to_N (z + delta)]
    | None => [c]
    end.

(** A cased letter stands before, whatever case-ignorable characters lie
    between; [before] holds the characters before, the nearest first. *)
Fixpoint after_cased (before : ustring) : bool :=
  match before with
  | [] => false
  | c :: before' =>
      if in_ranges case_ignorable c then after_cased before'
      else in_ranges cased c
  end.

(** A cased letter follows, whatever case-ignorable characters lie
    between. *)
Fixpoint before_cased (rest : ustring) : bool :=
  match rest with
  | [] => false
  | c :: rest' =>
      if in_ranges case_ignorable c then before_cased rest'
      else in_ranges cased c
  end.

(** [str.lower()] on what is left of a string: a capital sigma (U+03A3)
    that ends a word becomes the final sigma (U+03C2), any other the small
    sigma (U+03C3). *)
Fixpoint lower_from (before s : ustring) : ustring :=
  match s with
  | [] => []
  | c :: rest =>
      (if (c =? 0x3A3)%N then
         [if after_cased before && negb (before_cased rest) then 0x3C2%N
          else 0x3C3%N]
       else to_lower c)
      ++ lower_from (c :: before) rest
  end.

(** [s.lower()]. *)
Definition lower (s : ustring) : ustring := lower_from [] s.

(** [s.startswith(p)]. *)
Definition startswith (s p : string) : bool := String.prefix p s.

(** [sub in s]. *)
Fixpoint contains (sub s : string) : bool :=
  String.prefix sub s ||
  match s with
  | EmptyString => false
  | String _ s' => contains sub s'
  end.

(** The code points of the digit zero of every script; the nine code
    points after each are its digits one to nine. *)
Definition decimal_zeros : list N :=
  [
    0x30; 0x660; 0x6F0; 0x7C0; 0x966; 0x9E6; 0xA66; 0xAE6; 0xB66; 0xBE6;
    0xC66; 0xCE6; 0xD66; 0xDE6; 0xE50; 0xED0; 0xF20; 0x1040; 0x1090; 0x17E0;
    0x1810; 0x1946; 0x19D0; 0x1A80; 0x1A90; 0x1B50; 0x1BB0; 0x1C40; 0x1C50;
    0xA620; 0xA8D0; 0xA900; 0xA9D0; 0xA9F0; 0xAA50; 0xABF0; 0xFF10; 0x104A0;
    0x10D30; 0x11066; 0x110F0; 0x11136; 0x111D0; 0x112F0; 0x11450; 0x114D0;
    0x11650; 0x116C0; 0x11730; 0x118E0; 0x11950; 0x11C50; 0x11D50; 0x11DA0;
    0x16A60; 0x16AC0; 0x16B50; 0x1D7CE; 0x1D7D8; 0x1D7E2; 0x1D7EC; 0x1D7F6;
    0x1E140; 0x1E2F0; 0x1E950; 0x1FBF0
  ]%N.

(** The value of a decimal digit. *)
Definition digit_of (c : N) : option Z :=
  match find (fun z => (z <=? c)%N && (c <? z + 10)%N) decimal_zeros with
  | Some z => Some (Z.of_N (c - z))
  | None => None
  end.

(** Decimal digits, single underscores allowed between two digits. *)
Fixpoint parse_digits (s : ustring) (acc : Z) (after_digit : bool)
    : option Z :=
  match s with
  | [] => if after_digit then Some acc else None
  | c :: s' =>
      if (c =? 0x5F)%N then
        if after_digit then parse_digits s' acc false else None
      else
        match digit_of c with
        | Some d => parse_digits s' (10 * acc + d)%Z true
        | None => None
        end
  end.

(** The blanks [int] skips at both ends of its argument: those of
    [strip], but for the separators U+001C to U+001F. *)
Definition int_space (c : N) : bool :=
  is_space c && negb ((0x1C <=? c)%N && (c <=? 0x1F)%N).

Fixpoint skip_left (s : ustring) : ustring :=
  match s with
  | [] => []
  | c :: s' => if int_space c then skip_left s' else s
  end.

Fixpoint skip_right (s : ustring) : ustring :=
  match s with
  | [] => []
  | c :: s' =>
      match skip_right s' with
      | [] => if int_space c then [] else [c]
      | r => c :: r
      end
  end.

(** [sys.get_int_max_str_digits()], at its default. *)
Definition int_max_str_digits : nat := 4300.

(** [int(s)] on a [str]: blanks at both ends, an optional ASCII sign, then
    decimal digits of any script; anything else raises [ValueError], and
    so does a numeral of more digits than [int_max_str_digits]. *)
Definition py_int (s : ustring) : result Z :=
  let numeral := skip_right (skip_left s) in
  let digits :=
    match numeral with
    | 0x2B%N :: r => r
    | 0x2D%N :: r => r
    | r => r
    end in
  let parsed :=
    match numeral with
    | 0x2D%N :: _ => option_map Z.opp (parse_digits digits 0%Z false)
    | _ => parse_digits digits 0%Z false
    end in
  match parsed with
  | Some n =>
      if (int_max_str_digits
          <? List.length (filter (fun c => negb (c =? 0x5F)%N) digits))%nat
      then Raise ValueError
      else Ok n
  | None => Raise ValueError
  end.

(** ** Standard input

    What [input()] meets at the prompt: a line typed by the operator, or an
    interrupt (Ctrl-C).  The input is a finite list of such events; when it
    is used up, [input()] raises [EOFError]. *)
Inductive stdin_event : Type :=
| Line (s : ustring)
| Interrupt.

Definition input (stdin : list stdin_event)
    : result ustring * list stdin_event :=
  match stdin with
  | [] => (Raise EOFError, [])
  | Line s :: rest => (Ok s, rest)
  | Interrupt :: rest => (Raise KeyboardInterrupt, rest)
  end.

End Py.

(* ================================================================== *)
(** * [src/dns_selector.py]: class [DNSSelector] *)
(* ================================================================== *)

Module DnsSelector.
Import Py.
Local Open Scope string_scope.
Local Open Scope list_scope.
Local Open Scope io_scope.

(** ** Data *)

(** One entry of [dns_servers] in [conf/dns.json]: a dict with the key
    ['primary'] and, optionally, ['secondary']. *)
Record server_info : Type := {
  info_primary : option string;
  info_secondary : option string
}.

(** The attributes of [self] (lines 17-30). *)
Record DNSSelector : Type := {
  dns_servers : list (string * server_info);
  test_domains : list string;
  docker_domains : list string
}.

(** [__init__], given the loaded [dns_servers]. *)
Definition init (servers : list (string * server_info)) : DNSSelector := {|
  dns_servers := servers;
  test_domains := ["google.com"; "github.com"; "docker.com"; "ubuntu.com"];
  docker_domains :=
    ["download.docker.com"; "registry-1.docker.io"; "auth.docker.io"]
|}.

(** One run of [nslookup domain dns_server] with a timeout (line 51). *)
Record request : Type := {
  req_domain : string;
  req_server : string;
  req_timeout : Z
}.

(** The [CompletedProcess] of [subprocess.run]. *)
Record completed_process : Type := {
  returncode : Z;
  stdout : string
}.

(** What the outside world shows during one probe: the clock before the
    call, the outcome of [subprocess.run], the clock after it. *)
Record observation : Type := {
  start_time : Q;
  run : result completed_process;
  end_time : Q
}.

(** The outside world: its answer to a request may depend on every request
    issued before. *)
Definition network : Type := list request -> request -> observation.

(** Lines 48-59: [time.time()], [subprocess.run(...)], [time.time()]. *)
Definition timed_run (net : network) (req : request)
    : io request (Q * completed_process * Q) :=
  fun h =>
    let obs := net h req in
    (result_map (fun r => (start_time obs, r, end_time obs)) (run obs),
     h ++ [req]).

(** One entry of ['docker_details'] (lines 87-91); [detail_time] is [None]
    where the dict holds the string ['timeout']. *)
Record detail : Type := {
  detail_domain : string;
  detail_success : bool;
  detail_time : option pyfloat
}.

(** The dict returned by [_test_docker_connectivity] (lines 74-81). *)
Module Docker.
Record docker_results : Type := {
  docker_success_count : nat;
  docker_total_time : pyfloat;
  docker_avg_time : pyfloat;
  docker_success_rate : pyfloat;
  docker_working : bool;
  docker_details : list detail
}.
End Docker.

(** The dict returned by [_test_dns_server]: the keys of lines 113-122 and,
    after [results.update(docker_results)], those of the Docker battery. *)
Record dns_result : Type := {
  name : string;
  primary : string;
  secondary : string;
  success_count : nat;
  total_time : pyfloat;
  avg_time : pyfloat;
  success_rate : pyfloat;
  working : bool;
  docker_success_count : nat;
  docker_total_time : pyfloat;
  docker_avg_time : pyfloat;
  docker_success_rate : pyfloat;
  docker_working : bool;
  docker_details : list detail
}.

(** ** Probe (lines 45-70) *)

Definition _test_dns_resolution (net : network) (dns_server domain : string)
    (timeout : Z) : io request (bool * pyfloat) :=
  try_except
    ('(start_time, result, end_time) <-
       timed_run net
         {| req_domain := domain; req_server := dns_server;
            req_timeout := timeout |} ;;
     let response_time := Fin (end_time - start_time) in
     if (returncode result =? 0)%Z
        && negb (contains "NXDOMAIN" (stdout result))
     then ret (true, response_time)
     else ret (false, float_inf))
    [ (isinstance_SubprocessError, ret (false, float_inf));
      (isinstance_Exception, ret (false, float_inf)) ].

(** ** Endpoint tester *)

(** The loop of lines 85-96, on the domains still to test; [acc] holds
    ['docker_success_count'], [successful_docker_tests] and
    ['docker_details']. *)
Fixpoint docker_loop (net : network) (dns_server : string) (timeout : Z)
    (domains : list string) (acc : nat * list pyfloat * list detail)
    : io request (nat * list pyfloat * list detail) :=
  match domains with
  | [] => ret acc
  | domain :: rest =>
      '(success, response_time) <-
        _test_dns_resolution net dns_server domain timeout ;;
      let '(count, successful, details) := acc in
      let d := {| detail_domain := domain;
                  detail_success := success;
                  detail_time :=
                    if success then Some response_time else None |} in
      docker_loop net dns_server timeout rest
        (if success then S count else count,
         if success then successful ++ [response_time] else successful,
         details ++ [d])
  end.

(** Lines 72-104. *)
Definition _test_docker_connectivity (self : DNSSelector) (net : network)
    (dns_server : string) (timeout : Z) : io request Docker.docker_results :=
  '(count, successful_docker_tests, details) <-
    docker_loop net dns_server timeout (docker_domains self) (O, [], []) ;;
  match successful_docker_tests with
  | [] =>
      ret {| Docker.docker_success_count := count;
             Docker.docker_total_time := Fin 0;
             Docker.docker_avg_time := float_inf;
             Docker.docker_success_rate := Fin 0;
             Docker.docker_working := false;
             Docker.docker_details := details |}
  | _ :: _ =>
      let total := fsum successful_docker_tests in
      avg <- lift (float_truediv total (List.length successful_docker_tests)) ;;
      ratio <- lift (int_truediv count (List.length (docker_domains self))) ;;
      let rate := fmul_const ratio 100 in
      ret {| Docker.docker_success_count := count;
             Docker.docker_total_time := total;
             Docker.docker_avg_time := avg;
             Docker.docker_success_rate := rate;
             Docker.docker_working := fge rate (Fin 66);
             Docker.docker_details := details |}
  end.

(** The loop of lines 127-131; [acc] holds ['success_count'] and
    [successful_tests]. *)
Fixpoint general_loop (net : network) (primary_dns : string)
    (domains : list string) (acc : nat * list pyfloat)
    : io request (nat * list pyfloat) :=
  match domains with
  | [] => ret acc
  | domain :: rest =>
      '(success, response_time) <-
        _test_dns_resolution net primary_dns domain 3 ;;
      let '(count, successful) := acc in
      general_loop net primary_dns rest
        (if success then S count else count,
         if success then successful ++ [response_time] else successful)
  end.

(** [server_info['primary']]. *)
Definition get_primary (info : server_info) : result string :=
  match info_primary info with
  | Some p => Ok p
  | None => Raise KeyError
  end.

(** [server_info.get('secondary', '')]. *)
Definition get_secondary (info : server_info) : string :=
  match info_secondary info with
  | Some s => s
  | None => ""
  end.

(** Lines 106-143.  The progress line printed at line 111 is left out. *)
Definition _test_dns_server (self : DNSSelector) (net : network)
    (server_name : string) (info : server_info) : io request dns_result :=
  primary_dns <- lift (get_primary info) ;;
  let secondary_dns := get_secondary info in
  '(count, successful_tests) <-
    general_loop net primary_dns (test_domains self) (O, []) ;;
  '(total, avg, rate, ok) <-
    match successful_tests with
    | [] => ret (Fin 0, float_inf, Fin 0, false)
    | _ :: _ =>
        let total := fsum successful_tests in
        avg <- lift (float_truediv total (List.length successful_tests)) ;;
        ratio <- lift (int_truediv count (List.length (test_domains self))) ;;
        let rate := fmul_const ratio 100 in
        ret (total, avg, rate, fge rate (Fin 50))
    end ;;
  docker_results <- _test_docker_connectivity self net primary_dns 5 ;;
  ret {| name := server_name;
         primary := primary_dns;
         secondary := secondary_dns;
         success_count := count;
         total_time := total;
         avg_time := avg;
         success_rate := rate;
         working := ok;
         docker_success_count := Docker.docker_success_count docker_results;
         docker_total_time := Docker.docker_total_time docker_results;
         docker_avg_time := Docker.docker_avg_time docker_results;
         docker_success_rate := Docker.docker_success_rate docker_results;
         docker_working := Docker.docker_working docker_results;
         docker_details := Docker.docker_details docker_results |}.

(** ** Scheduler (lines 145-176) *)

(** [executor.submit(self._test_dns_server, name, info)]: the tester runs in
    a worker thread, against the network as that thread meets it
    ([nets name]).  The future holds what the call returned or raised. *)
Definition submit (self : DNSSelector) (nets : string -> network)
    (entry : string * server_info) : string * result dns_result :=
  (fst entry,
   fst (_test_dns_server self (nets (fst entry)) (fst entry) (snd entry) [])).

(** [as_completed(future_to_server)]: the futures in the order in which they
    finish; [completion] lists them by their position at submission. *)
Definition as_completed {A : Type} (futures : list A) (completion : list nat)
    : list A :=
  flat_map
    (fun i => match nth_error futures i with Some f => [f] | None => [] end)
    completion.

(** What the scheduler itself writes to the console, one constructor per
    message (the layout is left out): the head of lines 147-149 with the
    two counts of line 148, and for each finished future the line of the
    loop: line 168 for a dict with [working], line 170 for one without,
    line 174 for a tester that raised, with the name of its server and the
    exception.  The progress lines of the testers (line 111) are written by
    the worker threads in between and are not part of it. *)
Inductive feedback : Type :=
| Testing (servers domains : nat)
| Passed (r : dns_result)
| NotWorking (r : dns_result)
| TestFailed (server_name : string) (e : exn).

(** The loop of lines 161-174 on the futures still to come; [results] is
    the list built so far.  [future.result()] raises what the tester raised:
    an [Exception] is reported (line 174) and the loop goes on, anything
    else leaves the function.  The second component holds the lines
    printed, in order. *)
Fixpoint collect (done : list (string * result dns_result))
    (results : list dns_result) : result (list dns_result) * list feedback :=
  match done with
  | [] => (Ok results, [])
  | (server_name, Ok r) :: rest =>
      let (returned, printed) := collect rest (results ++ [r]) in
      (returned, (if working r then Passed r else NotWorking r) :: printed)
  | (server_name, Raise e) :: rest =>
      if isinstance_Exception e
      then let (returned, printed) := collect rest results in
           (returned, TestFailed server_name e :: printed)
      else (Raise e, [])
  end.

(** Lines 145-176; [max_workers] only bounds how many testers run at once
    and shows in [completion] alone.  The first component is what the call
    returns or raises, the second what it printed. *)
Definition test_all_dns_servers (self : DNSSelector)
    (nets : string -> network) (completion : list nat)
    : result (list dns_result) * list feedback :=
  let future_to_server := map (submit self nets) (dns_servers self) in
  let (returned, printed) :=
    collect (as_completed future_to_server completion) [] in
  (returned,
   Testing (List.length (dns_servers self)) (List.length (test_domains self))
   :: printed).

(** ** Ranking and selection (lines 178-260) *)

(** The key of line 195:
    [(not docker_working, docker_avg_time, avg_time)]. *)
Definition sort_key (x : dns_result) : bool * pyfloat * pyfloat :=
  (negb (docker_working x), docker_avg_time x, avg_time x).

(** [working_servers] as the selection uses it: filtered (line 187), then
    sorted in place (line 195). *)
Definition working_servers (results : list dns_result) : list dns_result :=
  list_sort sort_key (filter working results).

(** Line 188. *)
Definition docker_working_servers (results : list dns_result)
    : list dns_result :=
  filter docker_working results.

(** What the selection prints, one constructor per message (the layout of
    the text is left out). *)
Inductive line : Type :=
| NoWorkingServers
| TableRow (i : nat) (server : dns_result)
| DockerDetails (server : dns_result)
| Recommended (best_docker : dns_result)
| Prompt (n : nat)
| Cancelled
| Selected (selected : dns_result)
| OutOfRange (n : nat)
| NotANumber.

(** [enumerate(l, i)]. *)
Fixpoint enumerate {A : Type} (l : list A) (i : nat) : list (nat * A) :=
  match l with
  | [] => []
  | x :: l' => (i, x) :: enumerate l' (S i)
  end.

(** Lines 197-228: the table, the details of the first three servers and
    the recommendation. *)
Definition report (ranked docker_ranked : list dns_result) : list line :=
  map (fun row => TableRow (fst row) (snd row)) (enumerate ranked 1)
  ++ flat_map
       (fun server =>
          match docker_details server with
          | [] => []
          | _ :: _ => [DockerDetails server]
          end)
       (firstn 3 ranked)
  ++ match docker_ranked with
     | [] => []
     | best_docker :: _ => [Recommended best_docker]
     end.

(** The loop of lines 233-260, on the input still to come.  Each turn reads
    one event: a line (handled by lines 235-257), an interrupt (lines
    258-260), or the end of the input, where [input()] raises [EOFError],
    which no clause of the [try] catches. *)
Fixpoint selection_loop (ranked : list dns_result)
    (stdin : list stdin_event)
    : result (option (string * string)) * list line :=
  let n := List.length ranked in
  match stdin with
  | [] => (Raise EOFError, [Prompt n])
  | Interrupt :: _ => (Ok None, [Prompt n; Cancelled])
  | Line s :: rest =>
      let choice := lower (strip s) in
      if ustring_eqb choice "q" then (Ok None, [Prompt n; Cancelled])
      else
        match py_int choice with
        | Ok choice_num =>
            if ((1 <=? choice_num) && (choice_num <=? Z.of_nat n))%Z then
              match nth_error ranked (Z.to_nat (choice_num - 1)) with
              | Some selected =>
                  (Ok (Some (primary selected, secondary selected)),
                   [Prompt n; Selected selected])
              | None => (Raise IndexError, [Prompt n])
              end
            else
              let (r, out) := selection_loop ranked rest in
              (r, Prompt n :: OutOfRange n :: out)
        | Raise e =>
            if isinstance_ValueError e then
              let (r, out) := selection_loop ranked rest in
              (r, Prompt n :: NotANumber :: out)
            else if isinstance_KeyboardInterrupt e then
              (Ok None, [Prompt n; Cancelled])
            else (Raise e, [Prompt n])
        end
  end.

(** Lines 186-260: the selection, given what the scheduler collected. *)
Definition choose (results : list dns_result) (stdin : list stdin_event)
    : result (option (string * string)) * list line :=
  match filter working results with
  | [] => (Ok None, [NoWorkingServers])
  | _ :: _ =>
      let ranked := working_servers results in
      let (r, out) := selection_loop ranked stdin in
      (r, report ranked (docker_working_servers results) ++ out)
  end.

(** Lines 178-260.  The lines given are those of the selection; the ones
    the scheduler prints before them are those of [test_all_dns_servers]. *)
Definition select_dns_interactive (self : DNSSelector)
    (nets : string -> network) (completion : list nat)
    (stdin : list stdin_event)
    : result (option (string * string)) * list line :=
  match fst (test_all_dns_servers self nets completion) with
  | Ok results => choose results stdin
  | Raise e => (Raise e, [])
  end.

End DnsSelector.

(* ================================================================== *)
(** * [src/mirror_selector.py]: class [InteractiveRegistrySelector] *)
(* ================================================================== *)

Module MirrorSelector.
Import Py.
Local Open Scope string_scope.
Local Open Scope list_scope.
Local Open Scope io_scope.

(** ** Data *)

(** One entry of [self.registry_mirrors], as built at lines 53-57. *)
Record registry : Type := {
  reg_name : string;
  reg_mirror : string;
  reg_insecure : bool
}.

(** One [requests.get(url, headers=..., timeout=..., verify=False)];
    [req_accept] is the [Accept] header, when one is sent. *)
Record request : Type := {
  req_url : string;
  req_accept : option string;
  req_timeout : Z
}.

(** The part of a [Response] the script reads. *)
Record response : Type := {
  status_code : Z
}.

(** What the outside world shows during one probe: the clock before the
    call, the outcome of [requests.get], the clock after it. *)
Record observation : Type := {
  start_time : Q;
  get : result response;
  end_time : Q
}.

(** The outside world: its answer to a request may depend on every request
    issued before. *)
Definition network : Type := list request -> request -> observation.

(** [time.time()], [requests.get(...)], [time.time()] (lines 79-81 and
    102-110). *)
Definition timed_get (net : network) (req : request)
    : io request (Q * response * Q) :=
  fun h =>
    let obs := net h req in
    (result_map (fun r => (start_time obs, r, end_time obs)) (get obs),
     h ++ [req]).

(** The dict returned by [_test_single_registry] (lines 129-139). *)
Record registry_result : Type := {
  name : string;
  mirror : string;
  insecure : bool;
  connectivity_success : bool;
  connectivity_time : pyfloat;
  hub_success : bool;
  hub_time : pyfloat;
  total_score : pyfloat;
  status : string
}.

(** ** Probes *)

(** Lines 74-76 and 98-100. *)
Definition test_url (mirror : string) : string :=
  let url := rstrip_slash mirror in
  if negb (startswith url "http") then String.append "https://" url
  else url.

(** [response.status_code in [200, 401, 404]]. *)
Definition accepted (r : response) : bool :=
  existsb (Z.eqb (status_code r)) [200; 401; 404]%Z.

(** Lines 70-92. *)
Definition _test_registry_connectivity (net : network) (mirror : string)
    (timeout : Z) : io request (bool * pyfloat) :=
  try_except
    ('(start_time, response, end_time) <-
       timed_get net
         {| req_url := String.append (test_url mirror) "/v2/";
            req_accept := None;
            req_timeout := timeout |} ;;
     let response_time := Fin (end_time - start_time) in
     if accepted response then ret (true, response_time)
     else ret (false, float_inf))
    [ (isinstance_Exception, ret (false, float_inf)) ].

(** Lines 94-120. *)
Definition _test_docker_hub_connectivity (net : network) (mirror : string)
    (timeout : Z) : io request (bool * pyfloat) :=
  try_except
    ('(start_time, response, end_time) <-
       timed_get net
         {| req_url :=
              String.append (test_url mirror)
                "/v2/library/hello-world/manifests/latest";
            req_accept :=
              Some "application/vnd.docker.distribution.manifest.v2+json";
            req_timeout := timeout |} ;;
     let response_time := Fin (end_time - start_time) in
     if accepted response then ret (true, response_time)
     else ret (false, float_inf))
    [ (isinstance_Exception, ret (false, float_inf)) ].

(** ** Endpoint tester (lines 122-166; the progress lines are left out) *)

Definition _test_single_registry (net : network) (reg : registry)
    : io request registry_result :=
  let mirror := reg_mirror reg in
  let name := reg_name reg in
  '(conn_success, conn_time) <- _test_registry_connectivity net mirror 10 ;;
  if conn_success then
    '(hub_success, hub_time) <- _test_docker_hub_connectivity net mirror 15 ;;
    if hub_success then
      ret {| name := name; mirror := mirror; insecure := reg_insecure reg;
             connectivity_success := conn_success;
             connectivity_time := conn_time;
             hub_success := hub_success;
             hub_time := hub_time;
             total_score := fadd conn_time (fmul_const hub_time 1.5);
             status := "Working" |}
    else
      ret {| name := name; mirror := mirror; insecure := reg_insecure reg;
             connectivity_success := conn_success;
             connectivity_time := conn_time;
             hub_success := hub_success;
             hub_time := hub_time;
             total_score := float_inf;
             status := "Hub Access Failed" |}
  else
    ret {| name := name; mirror := mirror; insecure := reg_insecure reg;
           connectivity_success := conn_success;
           connectivity_time := conn_time;
           hub_success := false;
           hub_time := float_inf;
           total_score := float_inf;
           status := "Connection Failed" |}.

(** Lines 168-181: the mirrors are tested one after the other. *)
Fixpoint test_registries (net : network) (mirrors : list registry)
    : io request (list registry_result) :=
  match mirrors with
  | [] => ret []
  | reg :: rest =>
      result <- _test_single_registry net reg ;;
      results <- test_registries net rest ;;
      ret (result :: results)
  end.

Definition test_all_registries (net : network)
    (registry_mirrors : list registry)
    : result (list registry_result) :=
  fst (test_registries net registry_mirrors []).

(** ** Ranking and selection (lines 235-336) *)

(** [r['status'] == 'Working']. *)
Definition is_working (r : registry_result) : bool :=
  String.eqb (status r) "Working".

(** Lines 242-243. *)
Definition working_results (results : list registry_result)
    : list registry_result :=
  list_sort total_score (filter is_working results).

(** Line 269. *)
Definition failed_results (results : list registry_result)
    : list registry_result :=
  filter (fun r => negb (is_working r)) results.

(** What the selection prints, one constructor per message (the layout of
    the text is left out). *)
Inductive line : Type :=
| NoWorkingMirrors
| SummaryRow (name mirror : string) (connectivity hub : bool)
| TableRow (i : nat) (result : registry_result)
| FailedHeader
| FailedRow (name mirror status : string)
| Fastest (best_mirror : registry_result)
| Menu (n : nat)
| Cancelled
| Skipped
| Chosen (selected : registry_result)
| SelectionCancelled
| InvalidChoice (n : nat)
| InvalidInput.

(** [enumerate(l, i)]. *)
Fixpoint enumerate {A : Type} (l : list A) (i : nat) : list (nat * A) :=
  match l with
  | [] => []
  | x :: l' => (i, x) :: enumerate l' (S i)
  end.

(** Lines 258-273 and 297-302: the table of the working mirrors, the failed
    mirrors with their status, and the fastest one.  The block of lines
    275-295 only prints the current configuration, inside a [try] whose
    bare [except] catches everything; it is left out. *)
Definition report (ranked failed : list registry_result) : list line :=
  map (fun row => TableRow (fst row) (snd row)) (enumerate ranked 1)
  ++ match failed with
     | [] => []
     | _ :: _ =>
         FailedHeader
         :: map (fun r => FailedRow (name r) (mirror r) (status r)) failed
     end
  ++ match ranked with
     | [] => []
     | best_mirror :: _ => [Fastest best_mirror]
     end.

(** [confirm in ['y', 'yes']]. *)
Definition confirmed (confirm : ustring) : bool :=
  existsb (ustring_eqb confirm) ["y" : ustring; "yes" : ustring].

(** The loop of lines 305-336, on the input still to come.  Both calls of
    [input()] stand outside every handler that could catch what they raise
    ([EOFError] at the end of the input, [KeyboardInterrupt]): the only
    clause (line 335) is for [ValueError]. *)
Fixpoint choice_loop (ranked : list registry_result)
    (stdin : list stdin_event)
    : result (option registry_result) * list line :=
  let n := List.length ranked in
  match stdin with
  | [] => (Raise EOFError, [Menu n])
  | Interrupt :: _ => (Raise KeyboardInterrupt, [Menu n])
  | Line s :: rest =>
      let choice := lower (strip s) in
      if ustring_eqb choice "q" then (Ok None, [Menu n; Cancelled])
      else if ustring_eqb choice "0" then (Ok None, [Menu n; Skipped])
      else
        match py_int choice with
        | Ok choice_num =>
            if ((1 <=? choice_num) && (choice_num <=? Z.of_nat n))%Z then
              match nth_error ranked (Z.to_nat (choice_num - 1)) with
              | Some selected =>
                  match rest with
                  | [] => (Raise EOFError, [Menu n; Chosen selected])
                  | Interrupt :: _ =>
                      (Raise KeyboardInterrupt, [Menu n; Chosen selected])
                  | Line c :: rest' =>
                      if confirmed (lower (strip c)) then
                        (Ok (Some selected), [Menu n; Chosen selected])
                      else
                        let (r, out) := choice_loop ranked rest' in
                        (r,
                         Menu n :: Chosen selected :: SelectionCancelled
                         :: out)
                  end
              | None => (Raise IndexError, [Menu n])
              end
            else
              let (r, out) := choice_loop ranked rest in
              (r, Menu n :: InvalidChoice n :: out)
        | Raise e =>
            if isinstance_ValueError e then
              let (r, out) := choice_loop ranked rest in
              (r, Menu n :: InvalidInput :: out)
            else (Raise e, [Menu n])
        end
  end.

(** Lines 235-336. *)
Definition display_results_and_choose (results : list registry_result)
    (stdin : list stdin_event)
    : result (option registry_result) * list line :=
  match working_results results with
  | [] =>
      (Ok None,
       NoWorkingMirrors
       :: map
            (fun r =>
               SummaryRow (name r) (mirror r) (connectivity_success r)
                 (hub_success r))
            results)
  | _ :: _ =>
      let (r, out) := choice_loop (working_results results) stdin in
      (r, report (working_results results) (failed_results results) ++ out)
  end.

End MirrorSelector.

(* ================================================================== *)
(** * The operating system, as the two scripts call it *)

Module Sys.
Import Py.
Local Open Scope string_scope.
Local Open Scope list_scope.

(** ** JSON values, as [json.load] builds them

    A dict is the list of its items in insertion order; a number is kept
    as the literal it was read from (the scripts never compute with
    one). *)
#[warnings="-register-all"]
Inductive json : Type :=
| JNull
| JBool (b : bool)
| JNumber (literal : string)
| JString (s : string)
| JList (items : list json)
| JDict (entries : list (string * json)).

(** [d.get(k)]. *)
Fixpoint dict_get (entries : list (string * json)) (k : string)
    : option json :=
  match entries with
  | [] => None
  | (k', v) :: rest => if String.eqb k' k then Some v else dict_get rest k
  end.

(** [d[k] = v]: an existing key keeps its place, a new key goes to the
    end. *)
Fixpoint dict_set (entries : list (string * json)) (k : string) (v : json)
    : list (string * json) :=
  match entries with
  | [] => [(k, v)]
  | (k', v') :: rest =>
      if String.eqb k' k then (k, v) :: rest
      else (k', v') :: dict_set rest k v
  end.

(** [x == s] for a value [x] and a str [s]. *)
Definition eq_str (x : json) (s : string) : bool :=
  match x with
  | JString t => String.eqb t s
  | _ => false
  end.

(** ** Exceptions

    The classes of [Py.exn], and four more that the code of this part
    meets: [CalledProcessError] (raised by [subprocess.run(check=True)] on
    a non-zero exit status), [JSONDecodeError], [TypeError] and
    [AttributeError].  The four derive from [Exception]. *)
Inductive exc : Type :=
| Builtin (e : exn)
| CalledProcessError
| JSONDecodeError
| TypeError
| AttributeError.

(** [isinstance(e, Exception)]. *)
Definition isinstance_Exception (e : exc) : bool :=
  match e with
  | Builtin e => Py.isinstance_Exception e
  | _ => true
  end.

(** [isinstance(e, subprocess.CalledProcessError)]. *)
Definition isinstance_CalledProcessError (e : exc) : bool :=
  match e with
  | CalledProcessError => true
  | _ => false
  end.

(** [isinstance(e, json.JSONDecodeError)]. *)
Definition isinstance_JSONDecodeError (e : exc) : bool :=
  match e with
  | JSONDecodeError => true
  | _ => false
  end.

(** [isinstance(e, KeyboardInterrupt)]. *)
Definition isinstance_KeyboardInterrupt (e : exc) : bool :=
  match e with
  | Builtin e => Py.isinstance_KeyboardInterrupt e
  | _ => false
  end.

(** A bare [except:]. *)
Definition isinstance_BaseException (e : exc) : bool := true.

Inductive outcome (A : Type) : Type :=
| Returns (a : A)
| Raises (e : exc).

Arguments Returns {A} a.
Arguments Raises {A} e.

(** What a [Py.result] is to a caller of this part. *)
Definition of_result {A : Type} (r : result A) : outcome A :=
  match r with
  | Ok a => Returns a
  | Raise e => Raises (Builtin e)
  end.

(** ** Calls

    The calls the scripts make to the system, each with what it passes. *)
Inductive action : Type :=
| Run (argv : list string)
| PathExists (path : string)
| LoadJson (path : string)
| WriteText (path content : string)
| DumpJson (path : string) (value : json)
| Sleep (seconds : Z).

(** The system: what each call gives, which may depend on every call made
    before.  [subprocess_run] gives the exit status of the finished
    process. *)
Record system : Type := {
  subprocess_run : list action -> list string -> outcome Z;
  path_exists : list action -> string -> outcome bool;
  json_load : list action -> string -> outcome json;
  write_text : list action -> string -> string -> outcome unit;
  json_dump : list action -> string -> json -> outcome unit;
  time_sleep : list action -> Z -> outcome unit
}.

(** A computation that calls the system: run on the calls made so far, it
    returns its outcome and that list extended by its own calls. *)
Definition sysio (A : Type) : Type := list action -> outcome A * list action.

Definition ret {A : Type} (a : A) : sysio A := fun h => (Returns a, h).

Definition raise {A : Type} (e : exc) : sysio A := fun h => (Raises e, h).

Definition bind {A B : Type} (m : sysio A) (k : A -> sysio B) : sysio B :=
  fun h =>
    match m h with
    | (Returns a, h') => k a h'
    | (Raises e, h') => (Raises e, h')
    end.

Definition lift {A : Type} (r : outcome A) : sysio A := fun h => (r, h).

Fixpoint dispatch {A : Type} (clauses : list ((exc -> bool) * sysio A))
    (e : exc) : sysio A :=
  match clauses with
  | [] => raise e
  | (isinstance, handler) :: rest =>
      if isinstance e then handler else dispatch rest e
  end.

(** [try: body except C1: h1 except C2: h2 ...]. *)
Definition try_except {A : Type} (body : sysio A)
    (clauses : list ((exc -> bool) * sysio A)) : sysio A :=
  fun h =>
    match body h with
    | (Returns a, h') => (Returns a, h')
    | (Raises e, h') => dispatch clauses e h'
    end.

Declare Scope sys_scope.
Delimit Scope sys_scope with sys.

Notation "x <- m ;; k" := (bind m (fun x => k))
  (at level 61, m at next level, right associativity) : sys_scope.

Local Open Scope sys_scope.

(** [subprocess.run(argv, ...)] without [check]. *)
Definition run (sys : system) (argv : list string) : sysio Z :=
  fun h => (subprocess_run sys h argv, h ++ [Run argv]).

(** [subprocess.run(argv, check=True, ...)]. *)
Definition run_checked (sys : system) (argv : list string) : sysio Z :=
  returncode <- run sys argv ;;
  if (returncode =? 0)%Z then ret returncode else raise CalledProcessError.

(** [os.path.exists(path)]. *)
Definition exists_ (sys : system) (path : string) : sysio bool :=
  fun h => (path_exists sys h path, h ++ [PathExists path]).

(** [with open(path, 'r') as f: json.load(f)]. *)
Definition load (sys : system) (path : string) : sysio json :=
  fun h => (json_load sys h path, h ++ [LoadJson path]).

(** [with open(path, 'w') as f: f.write(content)]. *)
Definition write (sys : system) (path content : string) : sysio unit :=
  fun h => (write_text sys h path content, h ++ [WriteText path content]).

(** [with open(path, 'w') as f: json.dump(value, f, indent=2)]. *)
Definition dump (sys : system) (path : string) (value : json) : sysio unit :=
  fun h => (json_dump sys h path value, h ++ [DumpJson path value]).

(** [time.sleep(seconds)]. *)
Definition sleep (sys : system) (seconds : Z) : sysio unit :=
  fun h => (time_sleep sys h seconds, h ++ [Sleep seconds]).

(** [x in ['y', 'yes']]. *)
Definition yes (x : ustring) : bool :=
  existsb (ustring_eqb x) ["y" : ustring; "yes" : ustring].

(** The newline character. *)
Definition nl : string := String (ascii_of_nat 10) EmptyString.

End Sys.

(* ================================================================== *)
(** * [src/dns_selector.py]: applying the selection *)

Module DnsApply.
Import Py Sys.
Local Open Scope string_scope.
Local Open Scope list_scope.
Local Open Scope sys_scope.

(** Lines 265-267; [if secondary_dns:] holds of a non-empty string. *)
Definition resolv_conf_content (primary_dns secondary_dns : string)
    : string :=
  ("nameserver " ++ primary_dns ++ nl)
  ++ (if String.eqb secondary_dns "" then ""
      else "nameserver " ++ secondary_dns ++ nl).

(** Lines 262-291; the messages are left out. *)
Definition apply_dns_settings (sys : system)
    (primary_dns secondary_dns : string) : sysio bool :=
  try_except
    (let resolv_conf_content :=
       resolv_conf_content primary_dns secondary_dns in
     _ <- run_checked sys
            ["sudo"; "cp"; "/etc/resolv.conf"; "/etc/resolv.conf.backup"] ;;
     _ <- write sys "/tmp/resolv.conf.new" resolv_conf_content ;;
     _ <- run_checked sys
            ["sudo"; "cp"; "/tmp/resolv.conf.new"; "/etc/resolv.conf"] ;;
     _ <- run_checked sys ["rm"; "/tmp/resolv.conf.new"] ;;
     ret true)
    [ (isinstance_CalledProcessError, ret false);
      (isinstance_Exception, ret false) ].

(** The calls of [input()] behind a transcript of the selection: one per
    prompt. *)
Definition prompts (out : list DnsSelector.line) : nat :=
  List.length
    (filter
       (fun l => match l with DnsSelector.Prompt _ => true | _ => false end)
       out).

(** Lines 293-332; the messages are left out.  [started] is the outcome of
    lines 298-303 (the selector built from its configuration file); the
    confirmation of line 313 is read from what the selection left of the
    input. *)
Definition main (started : outcome DnsSelector.DNSSelector)
    (nets : string -> DnsSelector.network) (completion : list nat)
    (stdin : list stdin_event) (sys : system) : sysio Z :=
  selector <- lift started ;;
  let (dns_result, out) :=
    DnsSelector.select_dns_interactive selector nets completion stdin in
  dns_result <- lift (of_result dns_result) ;;
  match dns_result with
  | Some (primary_dns, secondary_dns) =>
      response <- lift (of_result (fst (input (skipn (prompts out) stdin)))) ;;
      let response := strip (lower response) in
      if yes response then
        applied <- apply_dns_settings sys primary_dns secondary_dns ;;
        if applied then ret 0%Z else ret 1%Z
      else ret 0%Z
  | None => ret 1%Z
  end.

End DnsApply.

(* ================================================================== *)
(** * [src/mirror_selector.py]: configuring the daemon *)

Module MirrorConfigure.
Import Py Sys.
Local Open Scope string_scope.
Local Open Scope list_scope.
Local Open Scope sys_scope.

(** [daemon_config[key] = value] (lines 197 and 202): only a dict takes
    an item under a str key. *)
Definition setitem (daemon_config : json) (key : string) (value : json)
    : outcome json :=
  match daemon_config with
  | JDict entries => Returns (JDict (dict_set entries key value))
  | _ => Raises TypeError
  end.

(** [mirror not in registries] (line 203): by [==] on the items of a list,
    as a substring of a str, among the keys of a dict. *)
Definition not_in (mirror : string) (registries : json) : outcome bool :=
  match registries with
  | JList items => Returns (negb (existsb (fun x => eq_str x mirror) items))
  | JString s => Returns (negb (contains mirror s))
  | JDict entries =>
      Returns (negb (existsb (fun kv => String.eqb (fst kv) mirror) entries))
  | _ => Raises TypeError
  end.

(** [registries.append(mirror)] (line 204): only a list has [append]. *)
Definition append (registries : json) (mirror : string) : outcome json :=
  match registries with
  | JList items => Returns (JList (items ++ [JString mirror]))
  | _ => Raises AttributeError
  end.

(** Lines 200-204, on a dict. *)
Definition add_insecure (entries : list (string * json)) (mirror : string)
    : outcome json :=
  let entries :=
    match dict_get entries "insecure-registries" with
    | None => dict_set entries "insecure-registries" (JList [])
    | Some _ => entries
    end in
  match dict_get entries "insecure-registries" with
  | None => Raises (Builtin KeyError)
  | Some registries =>
      match not_in mirror registries with
      | Raises e => Raises e
      | Returns false => Returns (JDict entries)
      | Returns true =>
          match append registries mirror with
          | Raises e => Raises e
          | Returns registries' =>
              Returns (JDict (dict_set entries "insecure-registries"
                                registries'))
          end
      end
  end.

(** Lines 196-204: the new content of [daemon.json]. *)
Definition update (daemon_config : json)
    (selected_mirror : MirrorSelector.registry_result) : outcome json :=
  let mirror := MirrorSelector.mirror selected_mirror in
  match setitem daemon_config "registry-mirrors" (JList [JString mirror]) with
  | Raises e => Raises e
  | Returns daemon_config =>
      if MirrorSelector.insecure selected_mirror then
        match daemon_config with
        | JDict entries => add_insecure entries mirror
        | _ => Raises TypeError
        end
      else Returns daemon_config
  end.

(** Lines 183-233; the messages are left out. *)
Definition _configure_docker_daemon (sys : system)
    (daemon_json_path : string)
    (selected_mirror : MirrorSelector.registry_result) : sysio bool :=
  try_except
    (present <- exists_ sys daemon_json_path ;;
     daemon_config <-
       (if present : bool then
          try_except (load sys daemon_json_path)
            [ (isinstance_JSONDecodeError, ret (JDict [])) ]
        else ret (JDict [])) ;;
     daemon_config <- lift (update daemon_config selected_mirror) ;;
     _ <- dump sys daemon_json_path daemon_config ;;
     returncode <- run sys ["systemctl"; "restart"; "docker"] ;;
     if negb (returncode =? 0)%Z then ret false
     else
       _ <- sleep sys 5 ;;
       returncode <- run sys ["docker"; "info"] ;;
       if negb (returncode =? 0)%Z then ret false else ret true)
    [ (isinstance_Exception, ret false) ].

(** Lines 275-295 of [display_results_and_choose], reached when some mirror
    works: [docker info] is run and its output printed, inside a [try]
    whose bare [except:] catches whatever is raised. *)
Definition current_configuration (sys : system)
    (results : list MirrorSelector.registry_result) : sysio unit :=
  match MirrorSelector.working_results results with
  | [] => ret tt
  | _ :: _ =>
      try_except (_ <- run sys ["docker"; "info"] ;; ret tt)
        [ (isinstance_BaseException, ret tt) ]
  end.

(** Lines 338-379; the messages are left out. *)
Definition run_selection (sys : system) (net : MirrorSelector.network)
    (registry_mirrors : list MirrorSelector.registry)
    (daemon_json_path : string) (stdin : list stdin_event) : sysio bool :=
  running <-
    try_except
      (_ <- run_checked sys ["docker"; "--version"] ;;
       _ <- run_checked sys ["docker"; "info"] ;;
       ret true)
      [ (isinstance_CalledProcessError, ret false) ] ;;
  if negb running then ret false
  else
    results <-
      lift (of_result
              (MirrorSelector.test_all_registries net registry_mirrors)) ;;
    _ <- current_configuration sys results ;;
    selected_mirror <-
      lift (of_result
              (fst (MirrorSelector.display_results_and_choose results
                      stdin))) ;;
    match selected_mirror with
    | None => ret false
    | Some selected_mirror =>
        configured <-
          _configure_docker_daemon sys daemon_json_path selected_mirror ;;
        if configured then
          returncode <- run sys ["docker"; "pull"; "hello-world:latest"] ;;
          _ <- (if (returncode =? 0)%Z then
                  _ <- run sys ["docker"; "rmi"; "hello-world:latest"] ;;
                  ret tt
                else ret tt) ;;
          ret true
        else ret false
    end.

(** Lines 381-402; the messages are left out.  [geteuid] is what
    [os.geteuid()] gives; [started] is the outcome of line 393 (the
    selector built from its configuration file), of which the list of
    mirrors is used; [daemon_json_path] is set at line 23. *)
Definition main (geteuid : Z)
    (started : outcome (list MirrorSelector.registry))
    (net : MirrorSelector.network) (stdin : list stdin_event)
    (sys : system) : sysio Z :=
  if negb (geteuid =? 0)%Z then ret 1%Z
  else
    try_except
      (registry_mirrors <- lift started ;;
       success <-
         run_selection sys net registry_mirrors "/etc/docker/daemon.json"
           stdin ;;
       if success then ret 0%Z else ret 1%Z)
      [ (isinstance_KeyboardInterrupt, ret 1%Z);
        (isinstance_Exception, ret 1%Z) ].

End MirrorConfigure.

(* ================================================================== *)
(** * [src/mirror_selector.py]: the blocks of the registry file *)

Module RegistryFile.
Import Py.
Local Open Scope string_scope.
Local Open Scope list_scope.

(** The newline character. *)
Definition nl : N := 0xA%N.

(** [content.split('\n')]. *)
Fixpoint split_lines (content : ustring) : list ustring :=
  match content with
  | [] => [[]]
  | c :: rest =>
      if (c =? nl)%N then [] :: split_lines rest
      else
        match split_lines rest with
        | line :: lines => (c :: line) :: lines
        | [] => [[c]]
        end
  end.

(** [if s:] on a [str]. *)
Definition truthy (s : ustring) : bool :=
  match s with
  | [] => false
  | _ :: _ => true
  end.

(** [line.startswith('#') or not line] (line 38), on the stripped line. *)
Definition separates (line : ustring) : bool :=
  match line with
  | c :: _ => (c =? 0x23)%N
  | [] => false
  end
  || negb (truthy line).

(** The loop of lines 36-43 on the lines still to come. *)
Fixpoint blocks_loop (lines : list ustring) (json_blocks : list ustring)
    (current_block : ustring) : list ustring * ustring :=
  match lines with
  | [] => (json_blocks, current_block)
  | line :: rest =>
      let line := strip line in
      if separates line then
        if truthy (strip current_block) then
          blocks_loop rest (json_blocks ++ [current_block]) []
        else blocks_loop rest json_blocks current_block
      else blocks_loop rest json_blocks (current_block ++ line ++ [nl])
  end.

(** Lines 32-46 of [_load_registry_config]: the blocks of the file that
    are handed to [json.loads], in order. *)
Definition json_blocks (content : ustring) : list ustring :=
  let (json_blocks, current_block) :=
    blocks_loop (split_lines content) [] [] in
  if truthy (strip current_block) then json_blocks ++ [current_block]
  else json_blocks.

End RegistryFile.

(* ================================================================== *)
(** * Concrete runs *)
(* ================================================================== *)

Module Scenario.
Import Py.
Local Open Scope string_scope.
Local Open Scope list_scope.

(** A resolver side where every lookup answers in a quarter of a second. *)
Definition answering : DnsSelector.network :=
  fun _ _ =>
    {| DnsSelector.start_time := 0;
       DnsSelector.run :=
         Ok {| DnsSelector.returncode := 0;
               DnsSelector.stdout := "Address: 93.184.216.34" |};
       DnsSelector.end_time := 1 # 4 |}.

(** A resolver side where every lookup runs into its timeout. *)
Definition silent : DnsSelector.network :=
  fun _ req =>
    {| DnsSelector.start_time := 0;
       DnsSelector.run := Raise TimeoutExpired;
       DnsSelector.end_time := inject_Z (DnsSelector.req_timeout req) |}.

(** A resolver side where every lookup answers, but the clock of the host
    is set back while it runs: it reads 5 before the call and 3 after. *)
Definition clock_set_back : DnsSelector.network :=
  fun _ _ =>
    {| DnsSelector.start_time := 5;
       DnsSelector.run :=
         Ok {| DnsSelector.returncode := 0;
               DnsSelector.stdout := "Address: 93.184.216.34" |};
       DnsSelector.end_time := 3 |}.

(** A mirror that answers [/v2/] in 0.2s and the manifest in 0.4s. *)
Definition mirror_m : MirrorSelector.registry :=
  {| MirrorSelector.reg_name := "Registry_1";
     MirrorSelector.reg_mirror := "https://m.example";
     MirrorSelector.reg_insecure := false |}.

(** A mirror that answers [/v2/] in 0.1s (with 401) and whose manifest
    cannot be fetched. *)
Definition mirror_n : MirrorSelector.registry :=
  {| MirrorSelector.reg_name := "Registry_2";
     MirrorSelector.reg_mirror := "n.example/";
     MirrorSelector.reg_insecure := false |}.

(** A response with the given status, [elapsed] seconds after the
    request. *)
Definition answer (status_code : Z) (elapsed : Q)
    : MirrorSelector.observation :=
  {| MirrorSelector.start_time := 0;
     MirrorSelector.get :=
       Ok {| MirrorSelector.status_code := status_code |};
     MirrorSelector.end_time := elapsed |}.

(** The registry side of [mirror_m] and [mirror_n]; any other request
    fails to connect. *)
Definition two_mirrors : MirrorSelector.network :=
  fun _ req =>
    let url := MirrorSelector.req_url req in
    if String.eqb url "https://m.example/v2/" then answer 200 (2 # 10)
    else if String.eqb url
              "https://m.example/v2/library/hello-world/manifests/latest"
    then answer 200 (4 # 10)
    else if String.eqb url "https://n.example/v2/" then answer 401 (1 # 10)
    else
      {| MirrorSelector.start_time := 0;
         MirrorSelector.get := Raise RequestException;
         MirrorSelector.end_time := 15 |}.

(** A registry side where the operator presses Ctrl-C during every
    request. *)
Definition interrupted : MirrorSelector.network :=
  fun _ _ =>
    {| MirrorSelector.start_time := 0;
       MirrorSelector.get := Raise KeyboardInterrupt;
       MirrorSelector.end_time := 1 |}.

(** Three collected results: [server_a] answered every general lookup (0.1s
    on average) and passes the Docker threshold; [server_b] answered 40% of
    the general lookups; [server_c] answered 60% of them (0.3s on average)
    and fails the Docker threshold. *)
Definition server_a : DnsSelector.dns_result :=
  {| DnsSelector.name := "A";
     DnsSelector.primary := "10.0.0.1";
     DnsSelector.secondary := "10.0.1.1";
     DnsSelector.success_count := 5;
     DnsSelector.total_time := Fin (5 # 10);
     DnsSelector.avg_time := Fin (1 # 10);
     DnsSelector.success_rate := Fin 100;
     DnsSelector.working := true;
     DnsSelector.docker_success_count := 3;
     DnsSelector.docker_total_time := Fin (6 # 10);
     DnsSelector.docker_avg_time := Fin (2 # 10);
     DnsSelector.docker_success_rate := Fin 100;
     DnsSelector.docker_working := true;
     DnsSelector.docker_details := [] |}.

(** See [server_a]. *)
Definition server_b : DnsSelector.dns_result :=
  {| DnsSelector.name := "B";
     DnsSelector.primary := "10.0.0.2";
     DnsSelector.secondary := "";
     DnsSelector.success_count := 2;
     DnsSelector.total_time := Fin (1 # 10);
     DnsSelector.avg_time := Fin (5 # 100);
     DnsSelector.success_rate := Fin 40;
     DnsSelector.working := false;
     DnsSelector.docker_success_count := 3;
     DnsSelector.docker_total_time := Fin (3 # 10);
     DnsSelector.docker_avg_time := Fin (1 # 10);
     DnsSelector.docker_success_rate := Fin 100;
     DnsSelector.docker_working := true;
     DnsSelector.docker_details := [] |}.

(** See [server_a]. *)
Definition server_c : DnsSelector.dns_result :=
  {| DnsSelector.name := "C";
     DnsSelector.primary := "10.0.0.3";
     DnsSelector.secondary := "";
     DnsSelector.success_count := 3;
     DnsSelector.total_time := Fin (9 # 10);
     DnsSelector.avg_time := Fin (3 # 10);
     DnsSelector.success_rate := Fin 60;
     DnsSelector.working := true;
     DnsSelector.docker_success_count := 0;
     DnsSelector.docker_total_time := Fin 0;
     DnsSelector.docker_avg_time := Inf;
     DnsSelector.docker_success_rate := Fin 0;
     DnsSelector.docker_working := false;
     DnsSelector.docker_details := [] |}.

(** A configuration of two servers without secondary address. *)
Definition twins : DnsSelector.DNSSelector :=
  DnsSelector.init
    [ ("alpha",
       {| DnsSelector.info_primary := Some "10.0.0.1";
          DnsSelector.info_secondary := None |});
      ("beta",
       {| DnsSelector.info_primary := Some "10.0.0.2";
          DnsSelector.info_secondary := None |}) ].

(** A configuration whose only entry lacks the key ['primary']. *)
Definition no_primary : DnsSelector.DNSSelector :=
  DnsSelector.init
    [ ("broken",
       {| DnsSelector.info_primary := None;
          DnsSelector.info_secondary := Some "10.0.0.9" |}) ].

End Scenario.

(* ================================================================== *)
(** * Concrete systems *)

Module Host.
Import Py Sys.
Local Open Scope string_scope.
Local Open Scope list_scope.

(** A system where every call goes through; no [daemon.json] exists. *)
Definition obliging : system :=
  {| subprocess_run := fun _ _ => Returns 0%Z;
     path_exists := fun _ _ => Returns false;
     json_load := fun _ _ => Raises (Builtin OSError);
     write_text := fun _ _ _ => Returns tt;
     json_dump := fun _ _ _ => Returns tt;
     time_sleep := fun _ _ => Returns tt |}.

(** A system without the [docker] executable: running it raises
    [FileNotFoundError], an [OSError]. *)
Definition without_docker : system :=
  {| subprocess_run :=
       fun _ argv =>
         match argv with
         | "docker" :: _ => Raises (Builtin OSError)
         | _ => Returns 0%Z
         end;
     path_exists := fun _ _ => Returns false;
     json_load := fun _ _ => Raises (Builtin OSError);
     write_text := fun _ _ _ => Returns tt;
     json_dump := fun _ _ _ => Returns tt;
     time_sleep := fun _ _ => Returns tt |}.

(** A system whose [daemon.json] holds [config], and where every call goes
    through. *)
Definition configured (config : json) : system :=
  {| subprocess_run := fun _ _ => Returns 0%Z;
     path_exists := fun _ _ => Returns true;
     json_load := fun _ _ => Returns config;
     write_text := fun _ _ _ => Returns tt;
     json_dump := fun _ _ _ => Returns tt;
     time_sleep := fun _ _ => Returns tt |}.

(** A system without [sudo] rights: a command run through [sudo] exits
    with status 1; every other call goes through. *)
Definition without_sudo : system :=
  {| subprocess_run :=
       fun _ argv =>
         match argv with
         | "sudo" :: _ => Returns 1%Z
         | _ => Returns 0%Z
         end;
     path_exists := fun _ _ => Returns false;
     json_load := fun _ _ => Raises (Builtin OSError);
     write_text := fun _ _ _ => Returns tt;
     json_dump := fun _ _ _ => Returns tt;
     time_sleep := fun _ _ => Returns tt |}.

End Host.

(* ================================================================== *)
(** * Comparison laws *)
(* ================================================================== *)

Module OrderLaws.
Import Py.

(** The laws [==] and [<] obey on the values the scripts sort by: [==] is an
    equivalence, [<] a strict order compatible with it, and two values are
    always comparable. *)
Class PyOrdLaws (A : Type) `{PyOrd A} : Prop := {
  py_eq_refl : forall a : A, py_eq a a = true;
  py_eq_sym : forall a b : A, py_eq a b = true -> py_eq b a = true;
  py_eq_trans : forall a b c : A,
    py_eq a b = true -> py_eq b c = true -> py_eq a c = true;
  py_lt_not_eq : forall a b : A, py_lt a b = true -> py_eq a b = false;
  py_lt_trans : forall a b c : A,
    py_lt a b = true -> py_lt b c = true -> py_lt a c = true;
  py_lt_eq_l : forall a b c : A, py_eq a b = true -> py_lt a c = py_lt b c;
  py_lt_eq_r : forall a b c : A, py_eq a b = true -> py_lt c a = py_lt c b;
  py_lt_total : forall a b : A,
    py_eq a b = false -> py_lt a b = false -> py_lt b a = true
}.

Arguments PyOrdLaws A {_}.

Lemma Qle_bool_false (a b : Q) : Qle_bool a b = false -> (b < a)%Q.
Proof.
  intros E. apply Qnot_le_lt. intros L.
  apply Qle_bool_iff in L. congruence.
Qed.

(** Turns the boolean comparisons of rationals in the context into
    propositions. *)
Ltac q_props :=
  repeat match goal with
  | H : Qle_bool _ _ = true |- _ => apply Qle_bool_iff in H
  | H : Qle_bool _ _ = false |- _ => apply Qle_bool_false in H
  | H : Qeq_bool _ _ = true |- _ => apply Qeq_bool_iff in H
  | H : Qeq_bool _ _ = false |- _ => apply Qeq_bool_neq in H
  end.

(** Decides a goal on boolean comparisons of rationals by cases. *)
Ltac q_cases :=
  repeat match goal with
  | |- context [Qle_bool ?a ?b] => destruct (Qle_bool a b) eqn:?
  | |- context [Qeq_bool ?a ?b] => destruct (Qeq_bool a b) eqn:?
  | H : context [Qle_bool ?a ?b] |- _ =>
      lazymatch type of H with
      | Qle_bool a b = _ => fail
      | _ => destruct (Qle_bool a b) eqn:?
      end
  | H : context [Qeq_bool ?a ?b] |- _ =>
      lazymatch type of H with
      | Qeq_bool a b = _ => fail
      | _ => destruct (Qeq_bool a b) eqn:?
      end
  end;
  simpl in *; try reflexivity; try discriminate; q_props;
  try (exfalso; lra);
  try (exfalso;
       match goal with H : ~ (_ == _)%Q |- _ => apply H; lra end).

#[global]
Instance float_laws : PyOrdLaws pyfloat.
Proof.
  split; simpl.
  - intros [a|]; simpl; [apply Qeq_bool_refl | reflexivity].
  - intros [a|] [b|]; simpl; intros; q_cases.
  - intros [a|] [b|] [c|]; simpl; intros; q_cases.
  - intros [a|] [b|]; simpl; intros; q_cases.
  - intros [a|] [b|] [c|]; simpl; intros; q_cases.
  - intros [a|] [b|] [c|]; simpl; intros; q_cases.
  - intros [a|] [b|] [c|]; simpl; intros; q_cases.
  - intros [a|] [b|]; simpl; intros; q_cases.
Qed.

#[global]
Instance bool_laws : PyOrdLaws bool.
Proof.
  split; simpl; intros;
    repeat match goal with b : bool |- _ => destruct b end;
    simpl in *; congruence.
Qed.

#[global]
Instance tuple_laws (A B : Type) `{PyOrdLaws A} `{PyOrdLaws B}
  : PyOrdLaws (A * B).
Proof.
  split; simpl.
  - intros [a b]; simpl. now rewrite !py_eq_refl.
  - intros [a b] [c d]; simpl. rewrite !andb_true_iff.
    intros [? ?]; split; now apply py_eq_sym.
  - intros [a b] [c d] [e f]; simpl. rewrite !andb_true_iff.
    intros [? ?] [? ?]; split; eapply py_eq_trans; eauto.
  - intros [a b] [c d]; simpl.
    destruct (py_eq a c) eqn:E; [|reflexivity].
    intros L. now rewrite (py_lt_not_eq _ _ L).
  - intros [a b] [c d] [e f]; simpl.
    destruct (py_eq a c) eqn:E1, (py_eq c e) eqn:E2.
    + rewrite (py_eq_trans _ _ _ E1 E2). apply py_lt_trans.
    + intros _ L. rewrite (py_lt_eq_l _ _ e E1).
      destruct (py_eq a e) eqn:E3; [|exact L].
      apply py_eq_sym in E1.
      now rewrite (py_eq_trans _ _ _ E1 E3) in E2.
    + intros L _. rewrite (py_lt_eq_r _ _ a (py_eq_sym _ _ E2)).
      destruct (py_eq a e) eqn:E3; [|exact L].
      apply py_eq_sym in E2.
      now rewrite (py_eq_trans _ _ _ E3 E2) in E1.
    + intros L1 L2. pose proof (py_lt_trans _ _ _ L1 L2) as L.
      now rewrite (py_lt_not_eq _ _ L).
  - intros [a b] [c d] [e f]; simpl. rewrite andb_true_iff.
    intros [E1 E2].
    rewrite (py_lt_eq_l _ _ e E1), (py_lt_eq_l _ _ f E2).
    destruct (py_eq a e) eqn:E3.
    + now rewrite (py_eq_trans _ _ _ (py_eq_sym _ _ E1) E3).
    + destruct (py_eq c e) eqn:E4; [|reflexivity].
      now rewrite (py_eq_trans _ _ _ E1 E4) in E3.
  - intros [a b] [c d] [e f]; simpl. rewrite andb_true_iff.
    intros [E1 E2].
    rewrite (py_lt_eq_r _ _ e E1), (py_lt_eq_r _ _ f E2).
    destruct (py_eq e a) eqn:E3.
    + now rewrite (py_eq_trans _ _ _ E3 E1).
    + destruct (py_eq e c) eqn:E4; [|reflexivity].
      now rewrite (py_eq_trans _ _ _ E4 (py_eq_sym _ _ E1)) in E3.
  - intros [a b] [c d]; simpl.
    destruct (py_eq a c) eqn:E1; simpl.
    + rewrite (py_eq_sym _ _ E1). apply py_lt_total.
    + intros _ L. destruct (py_eq c a) eqn:E2.
      * now rewrite (py_eq_sym _ _ E2) in E1.
      * now apply py_lt_total.
Qed.

End OrderLaws.
(* ================================================================== *)
(** * Facts on [list.sort(key=...)] *)
(* ================================================================== *)

Module SortFacts.
Import Py OrderLaws.

Section Sorting.
Context {A K : Type} `{PyOrdLaws K} (key : A -> K).

(** [a] may stand before [b] in a sorted list: [key b < key a] is false. *)
Definition key_le (a b : A) : Prop := py_lt (key b) (key a) = false.

(** The two keys are equal by [==]. *)
Definition key_eq (a b : A) : Prop := py_eq (key a) (key b) = true.

(** No two elements of the list have keys that are equal by [==]. *)
Fixpoint distinct_keys (l : list A) : Prop :=
  match l with
  | [] => True
  | x :: l' =>
      Forall (fun y => py_eq (key x) (key y) = false) l' /\ distinct_keys l'
  end.

Lemma py_lt_irrefl (a : K) : py_lt a a = false.
Proof.
  destruct (py_lt a a) eqn:E; [|reflexivity].
  apply py_lt_not_eq in E. now rewrite py_eq_refl in E.
Qed.

Lemma py_lt_asym (a b : K) : py_lt a b = true -> py_lt b a = false.
Proof.
  intros L. destruct (py_lt b a) eqn:E; [|reflexivity].
  pose proof (py_lt_trans _ _ _ L E) as C.
  now rewrite py_lt_irrefl in C.
Qed.

Lemma py_eq_false_sym (a b : K) : py_eq a b = false -> py_eq b a = false.
Proof.
  intros E. destruct (py_eq b a) eqn:E'; [|reflexivity].
  apply py_eq_sym in E'. congruence.
Qed.

(** [a <= b < c] gives [a < c]. *)
Lemma py_le_lt_trans (a b c : K) :
  py_lt b a = false -> py_lt b c = true -> py_lt a c = true.
Proof.
  intros L1 L2. destruct (py_eq a b) eqn:E.
  - now rewrite (py_lt_eq_l _ _ c E).
  - eapply py_lt_trans; [|exact L2].
    apply py_lt_total; [now apply py_eq_false_sym|exact L1].
Qed.

Lemma key_le_trans (a b c : A) : key_le a b -> key_le b c -> key_le a c.
Proof.
  unfold key_le. intros L1 L2.
  destruct (py_lt (key c) (key a)) eqn:E; [|reflexivity].
  pose proof (py_le_lt_trans _ _ _ L2 E) as L.
  apply py_lt_asym in L. destruct (py_eq (key a) (key b)) eqn:Eab.
  - rewrite (py_lt_eq_r _ _ (key c) Eab) in E.
    now rewrite E in L2.
  - pose proof (py_lt_total _ _ (py_eq_false_sym _ _ Eab) L1) as Lab.
    pose proof (py_lt_trans _ _ _ E Lab). congruence.
Qed.

(** *** The sorted list holds the same elements *)

Lemma insert_sorted_perm (x : A) (l : list A) :
  Permutation (insert_sorted key x l) (x :: l).
Proof.
  induction l as [|y l IH]; simpl.
  - apply Permutation_refl.
  - destruct (py_lt (key y) (key x)).
    + eapply perm_trans; [apply perm_skip, IH | apply perm_swap].
    + apply Permutation_refl.
Qed.

Lemma list_sort_perm (l : list A) : Permutation (list_sort key l) l.
Proof.
  induction l as [|x l IH]; simpl.
  - constructor.
  - eapply perm_trans; [apply insert_sorted_perm|]. now apply perm_skip.
Qed.

Lemma list_sort_In (x : A) (l : list A) : In x (list_sort key l) <-> In x l.
Proof.
  split; apply Permutation_in;
    [|apply Permutation_sym]; apply list_sort_perm.
Qed.

Lemma list_sort_nil (l : list A) : list_sort key l = [] <-> l = [].
Proof.
  split; intros E.
  - apply Permutation_nil. rewrite <- E. apply list_sort_perm.
  - now subst.
Qed.

(** *** The sorted list is in ascending order of the keys *)

Lemma insert_sorted_sorted (x : A) (l : list A) :
  StronglySorted key_le l -> StronglySorted key_le (insert_sorted key x l).
Proof.
  induction 1 as [|y l S IH F]; simpl.
  - repeat constructor.
  - destruct (py_lt (key y) (key x)) eqn:E.
    + constructor; [exact IH|].
      apply (Permutation_Forall (Permutation_sym (insert_sorted_perm x l))).
      constructor; [|exact F]. now apply py_lt_asym.
    + constructor; [now constructor|].
      constructor; [exact E|].
      eapply Forall_impl; [|exact F].
      intros z. now apply key_le_trans.
Qed.

Lemma list_sort_sorted (l : list A) : StronglySorted key_le (list_sort key l).
Proof.
  induction l as [|x l IH]; simpl.
  - constructor.
  - now apply insert_sorted_sorted.
Qed.

(** *** Elements of equal keys keep their order (the sort is stable) *)

Lemma insert_sorted_filter (k : K) (x : A) (l : list A) :
  filter (fun y => py_eq (key y) k) (insert_sorted key x l)
  = filter (fun y => py_eq (key y) k) (x :: l).
Proof.
  induction l as [|z l IH]; [reflexivity|].
  simpl. destruct (py_lt (key z) (key x)) eqn:L; [|reflexivity].
  simpl. rewrite IH. simpl.
  destruct (py_eq (key z) k) eqn:Ez, (py_eq (key x) k) eqn:Ex;
    try reflexivity.
  apply py_lt_not_eq in L.
  rewrite (py_eq_trans _ _ _ Ez (py_eq_sym _ _ Ex)) in L. discriminate.
Qed.

Lemma list_sort_stable (k : K) (l : list A) :
  filter (fun y => py_eq (key y) k) (list_sort key l)
  = filter (fun y => py_eq (key y) k) l.
Proof.
  induction l as [|x l IH]; [reflexivity|].
  simpl list_sort. rewrite insert_sorted_filter. simpl. now rewrite IH.
Qed.

(** *** The order of the input only shows between elements of equal keys *)

Lemma insert_sorted_comm (x y : A) (l : list A) :
  py_eq (key x) (key y) = false ->
  insert_sorted key x (insert_sorted key y l)
  = insert_sorted key y (insert_sorted key x l).
Proof.
  intros D. pose proof (py_eq_false_sym _ _ D) as D'.
  induction l as [|z l IH]; simpl.
  - destruct (py_lt (key y) (key x)) eqn:L.
    + now rewrite (py_lt_asym _ _ L).
    + now rewrite (py_lt_total _ _ D' L).
  - destruct (py_lt (key z) (key y)) eqn:Ly,
             (py_lt (key z) (key x)) eqn:Lx; simpl; rewrite ?Ly, ?Lx.
    + now rewrite IH.
    + now rewrite (py_le_lt_trans _ _ _ Lx Ly).
    + now rewrite (py_le_lt_trans _ _ _ Ly Lx).
    + destruct (py_lt (key y) (key x)) eqn:L.
      * rewrite (py_lt_asym _ _ L). simpl. now rewrite ?Lx, ?Ly.
      * rewrite (py_lt_total _ _ D' L). simpl. now rewrite ?Lx, ?Ly.
Qed.

Lemma distinct_keys_perm (l l' : list A) :
  Permutation l l' -> distinct_keys l -> distinct_keys l'.
Proof.
  induction 1 as [|x l l' P IH|x y l|l l' l'' P1 IH1 P2 IH2]; simpl.
  - trivial.
  - intros [F D]. split; [now apply (Permutation_Forall P)|now apply IH].
  - intros [Fy [Fx D]]. inversion Fy as [|? ? Eyx Fy']; subst.
    repeat split; try assumption.
    constructor; [now apply py_eq_false_sym|assumption].
  - auto.
Qed.

Lemma list_sort_perm_eq (l l' : list A) :
  Permutation l l' -> distinct_keys l -> list_sort key l = list_sort key l'.
Proof.
  induction 1 as [|x l l' P IH|x y l|l l' l'' P1 IH1 P2 IH2]; simpl.
  - reflexivity.
  - intros [_ D]. now rewrite IH.
  - intros [Fy _]. inversion Fy as [|? ? Eyx _]; subst.
    apply insert_sorted_comm. exact Eyx.
  - intros D. rewrite IH1 by assumption.
    apply IH2. now apply (distinct_keys_perm P1).
Qed.

(** Whatever the keys, two orders of the same elements sort to lists with
    the same sequence of keys. *)
Lemma insert_sorted_keys (x : A) (l l' : list A) :
  Forall2 key_eq l l' ->
  Forall2 key_eq (insert_sorted key x l) (insert_sorted key x l').
Proof.
  induction 1 as [|z z' l l' E F IH]; simpl.
  - repeat constructor. apply py_eq_refl.
  - unfold key_eq in E. rewrite (py_lt_eq_l _ _ (key x) E).
    destruct (py_lt (key z') (key x)).
    + now constructor.
    + repeat constructor; try assumption. apply py_eq_refl.
Qed.

Lemma Forall2_key_eq_refl (l : list A) : Forall2 key_eq l l.
Proof.
  induction l; constructor; [apply py_eq_refl|assumption].
Qed.

Lemma Forall2_key_eq_trans (l1 l2 l3 : list A) :
  Forall2 key_eq l1 l2 -> Forall2 key_eq l2 l3 -> Forall2 key_eq l1 l3.
Proof.
  intros F. revert l3.
  induction F as [|a b l1 l2 E F IH]; intros l3 G; inversion G; subst.
  - constructor.
  - constructor; [|now apply IH].
    unfold key_eq in *. eapply py_eq_trans; eassumption.
Qed.

Lemma insert_sorted_comm_keys (x y : A) (l : list A) :
  Forall2 key_eq
    (insert_sorted key x (insert_sorted key y l))
    (insert_sorted key y (insert_sorted key x l)).
Proof.
  destruct (py_eq (key x) (key y)) eqn:D.
  2: { rewrite insert_sorted_comm by assumption. apply Forall2_key_eq_refl. }
  assert (Lxy : py_lt (key x) (key y) = false).
  { destruct (py_lt (key x) (key y)) eqn:L; [|reflexivity].
    apply py_lt_not_eq in L. congruence. }
  assert (Lyx : py_lt (key y) (key x) = false).
  { destruct (py_lt (key y) (key x)) eqn:L; [|reflexivity].
    apply py_lt_not_eq in L. apply py_eq_sym in D. congruence. }
  induction l as [|z l IH]; simpl.
  - rewrite Lxy, Lyx. repeat constructor; try exact D.
    now apply py_eq_sym.
  - rewrite (py_lt_eq_r _ _ (key z) D).
    destruct (py_lt (key z) (key y)) eqn:Ly; simpl.
    + rewrite (py_lt_eq_r _ _ (key z) D), Ly.
      constructor; [apply py_eq_refl|exact IH].
    + rewrite Lxy, Lyx. repeat constructor; try exact D.
      * now apply py_eq_sym.
      * apply py_eq_refl.
      * apply Forall2_key_eq_refl.
Qed.

Lemma list_sort_perm_keys (l l' : list A) :
  Permutation l l' -> Forall2 key_eq (list_sort key l) (list_sort key l').
Proof.
  induction 1 as [|x l l' P IH|x y l|l l' l'' P1 IH1 P2 IH2]; simpl.
  - constructor.
  - now apply insert_sorted_keys.
  - apply insert_sorted_comm_keys.
  - eapply Forall2_key_eq_trans; eassumption.
Qed.

End Sorting.

End SortFacts.
(* ================================================================== *)
(** * Equality of [str] values *)
(* ================================================================== *)

Module UstringFacts.
Import Py.

Lemma ustring_eqb_eq (s t : ustring) : ustring_eqb s t = true <-> s = t.
Proof.
  revert t. induction s as [|c s IH]; intros [|d t]; simpl;
    try (split; [discriminate|discriminate]); [now split|].
  rewrite andb_true_iff, N.eqb_eq, IH. split.
  - now intros [-> ->].
  - intros E. now inversion E.
Qed.


Lemma ustring_eqb_refl (s : ustring) : ustring_eqb s s = true.
Proof. now apply ustring_eqb_eq. Qed.

End UstringFacts.

(* ================================================================== *)
(** * Facts on computations *)
(* ================================================================== *)

Module IoFacts.
Import Py.

Lemma bind_Ok {R A B : Type} (m : io R A) (k : A -> io R B) h b h' :
  bind m k h = (Ok b, h') ->
  exists a h1, m h = (Ok a, h1) /\ k a h1 = (Ok b, h').
Proof.
  unfold bind. destruct (m h) as [[a|e] h1]; intros E.
  - now exists a, h1.
  - discriminate.
Qed.

Lemma bind_Raise {R A B : Type} (m : io R A) (k : A -> io R B) h e h' :
  bind m k h = (Raise e, h') ->
  m h = (Raise e, h') \/ exists a h1, m h = (Ok a, h1) /\ k a h1 = (Raise e, h').
Proof.
  unfold bind. destruct (m h) as [[a|e1] h1]; intros E.
  - right. now exists a, h1.
  - left. now inversion E.
Qed.

Lemma lift_Ok {R A : Type} (r : result A) (h : list R) a h' :
  lift r h = (Ok a, h') -> r = Ok a /\ h' = h.
Proof. unfold lift. intros E. now inversion E. Qed.

Lemma ret_Ok {R A : Type} (x : A) (h : list R) a h' :
  ret x h = (Ok a, h') -> a = x /\ h' = h.
Proof. unfold ret. intros E. now inversion E. Qed.

Lemma float_truediv_Ok (x : pyfloat) (n : nat) :
  n <> O -> exists y, float_truediv x n = Ok y /\ (x = Inf -> y = Inf).
Proof.
  destruct n as [|n]; [congruence|]. intros _.
  destruct x; simpl; eauto. eexists; split; [reflexivity|discriminate].
Qed.

Lemma int_truediv_Ok (a b : nat) :
  b <> O -> int_truediv a b = Ok (Fin (inject_Z (Z.of_nat a) / inject_Z (Z.of_nat b))).
Proof. destruct b; [congruence|reflexivity]. Qed.

(** A probe result is a success with a finite time or a failure with the
    sentinel. *)
Definition probe_shape (p : bool * pyfloat) : Prop :=
  (fst p = true /\ is_finite (snd p) = true)
  \/ (fst p = false /\ snd p = float_inf).

(** The two results a probe may return: a success with a finite elapsed
    time that is not negative, or a failure with the sentinel. *)
Inductive well_formed_probe : result (bool * pyfloat) -> Prop :=
| probe_succeeded (q : Q) :
    (0 <= q)%Q -> well_formed_probe (Ok (true, Fin q))
| probe_failed : well_formed_probe (Ok (false, float_inf)).

(** The contract of a probe, read on its result [r].  [raised e]: the
    call behind the probe raised [e]; [failed]: the call timed out or
    otherwise raised, or was answered with an error; [elapsed]: the
    difference of the two clock readings.  The result is never a success
    with the sentinel nor a failure with a finite time.  The probe raises
    exactly what the call raised that is not an [Exception]; it returns
    [(True, elapsed)] exactly when the call did not fail, and
    [(False, inf)] exactly when the call failed without raising anything
    but an [Exception].  So the result is one of the two well-formed ones
    exactly when the call raised nothing but an [Exception] and either
    failed or ended with the clock not behind where it started. *)
Definition contract (raised : exn -> Prop) (failed : Prop) (elapsed : Q)
    (r : result (bool * pyfloat)) : Prop :=
  (forall p, r = Ok p -> probe_shape p)
  /\ (forall e, r = Raise e <-> raised e /\ isinstance_Exception e = false)
  /\ (r = Ok (true, Fin elapsed) <-> ~ failed)
  /\ (r = Ok (false, float_inf)
      <-> failed /\ forall e, raised e -> isinstance_Exception e = true)
  /\ (well_formed_probe r
      <-> (forall e, raised e -> isinstance_Exception e = true)
          /\ (failed \/ (0 <= elapsed)%Q)).

End IoFacts.

(* ================================================================== *)
(** * The DNS probe and endpoint tester *)
(* ================================================================== *)

Module DnsFacts.
Import Py IoFacts DnsSelector.
Local Open Scope string_scope.
Local Open Scope list_scope.

(** The request a probe of [domain] through [dns_server] issues. *)
Definition probe_request (dns_server : string) (timeout : Z) (domain : string)
    : request :=
  {| req_domain := domain; req_server := dns_server; req_timeout := timeout |}.

(** Lines 62: the resolution is taken as successful. *)
Definition resolved (r : completed_process) : bool :=
  (returncode r =? 0)%Z && negb (contains "NXDOMAIN" (stdout r)).

(** What the probe makes of an observation. *)
Definition probe_outcome (obs : observation) : result (bool * pyfloat) :=
  match run obs with
  | Ok r =>
      if resolved r then Ok (true, Fin (end_time obs - start_time obs))
      else Ok (false, float_inf)
  | Raise e =>
      if isinstance_Exception e then Ok (false, float_inf) else Raise e
  end.

Lemma _test_dns_resolution_eq net dns_server domain timeout h :
  _test_dns_resolution net dns_server domain timeout h
  = (probe_outcome (net h (probe_request dns_server timeout domain)),
     h ++ [probe_request dns_server timeout domain]).
Proof.
  unfold _test_dns_resolution, try_except, bind, timed_run, probe_outcome.
  fold (probe_request dns_server timeout domain).
  destruct (run (net h (probe_request dns_server timeout domain)))
    as [r|e]; simpl.
  - unfold resolved. now destruct (_ && _).
  - now destruct e.
Qed.

Lemma probe_outcome_shape obs p : probe_outcome obs = Ok p -> probe_shape p.
Proof.
  unfold probe_outcome, probe_shape.
  destruct (run obs) as [r|e].
  - destruct (resolved r); intros E; inversion E; simpl; auto.
  - destruct (isinstance_Exception e); intros E; inversion E; simpl; auto.
Qed.

Lemma probe_outcome_Raise obs e :
  probe_outcome obs = Raise e ->
  isinstance_Exception e = false /\ run obs = Raise e.
Proof.
  unfold probe_outcome. destruct (run obs) as [r|e'].
  - destruct (resolved r); discriminate.
  - destruct (isinstance_Exception e') eqn:E; [discriminate|].
    intros H. now inversion H; subst.
Qed.

(** The exception is what [subprocess.run] raised during some probe. *)
Definition raised_by (net : network) (e : exn) : Prop :=
  isinstance_Exception e = false
  /\ exists h req, run (net h req) = Raise e.

(** [subprocess.run] returns or raises an [Exception], whatever the
    request. *)
Definition polite (net : network) : Prop :=
  forall h req e, run (net h req) = Raise e -> isinstance_Exception e = true.

Lemma polite_not_raised net e : polite net -> ~ raised_by net e.
Proof.
  intros P [N [h [req R]]]. apply P in R. congruence.
Qed.

(** The failure of a lookup, in the words of the specification: the
    lookup did not complete within its timeout or otherwise raised, ended
    with a status other than 0, or answered that the name does not
    exist. *)
Definition failure (obs : observation) : Prop :=
  match run obs with
  | Ok r => returncode r <> 0%Z \/ contains "NXDOMAIN" (stdout r) = true
  | Raise _ => True
  end.

Lemma resolved_spec r :
  resolved r = true
  <-> ~ (returncode r <> 0%Z \/ contains "NXDOMAIN" (stdout r) = true).
Proof.
  unfold resolved. rewrite andb_true_iff, negb_true_iff, Z.eqb_eq.
  destruct (contains "NXDOMAIN" (stdout r)).
  - split; [intros [_ X]; discriminate|intros N; exfalso; apply N; now right].
  - split.
    + intros [E _] [N|N]; [now apply N|discriminate].
    + intros N. split; [|reflexivity].
      destruct (Z.eq_dec (returncode r) 0) as [E|E]; [exact E|].
      exfalso. apply N. now left.
Qed.

Lemma probe_outcome_contract obs :
  contract (fun e => run obs = Raise e) (failure obs)
    (end_time obs - start_time obs) (probe_outcome obs).
Proof.
  unfold contract, failure.
  split; [intros p; apply probe_outcome_shape|].
  unfold probe_outcome. pose proof resolved_spec as RS.
  destruct (run obs) as [r|e].
  - specialize (RS r). destruct (resolved r) eqn:R.
    + assert (N : ~ (returncode r <> 0%Z
                     \/ contains "NXDOMAIN" (stdout r) = true))
        by now apply RS.
      split; [|split; [|split]].
      * intros e. split; [discriminate|intros [X _]; discriminate].
      * tauto.
      * split; [discriminate|tauto].
      * split.
        -- intros W. inversion W; subst. split; [discriminate|now right].
        -- intros [_ [F|P]]; [tauto|now constructor].
    + assert (F : returncode r <> 0%Z
                  \/ contains "NXDOMAIN" (stdout r) = true).
      { destruct (Z.eq_dec (returncode r) 0) as [E|E]; [|now left].
        destruct (contains "NXDOMAIN" (stdout r)) eqn:C; [now right|].
        exfalso. assert (X : false = true); [|discriminate].
        apply RS. intros [Y|Y]; [now apply Y|discriminate]. }
      split; [|split; [|split]].
      * intros e. split; [discriminate|intros [X _]; discriminate].
      * split; [discriminate|tauto].
      * split; [intros _; split; [exact F|discriminate]|reflexivity].
      * split; [intros _; split; [discriminate|now left]|constructor].
  - destruct (isinstance_Exception e) eqn:X.
    + split; [|split; [|split]].
      * intros e'. split; [discriminate|].
        intros [E N]. inversion E; subst. congruence.
      * split; [discriminate|tauto].
      * split; [|reflexivity]. intros _. split; [exact I|].
        intros e' E. inversion E; subst. exact X.
      * split; [|constructor]. intros _. split; [|now left].
        intros e' E. inversion E; subst. exact X.
    + split; [|split; [|split]].
      * intros e'. split.
        -- intros E. inversion E; subst. now split.
        -- intros [E _]. inversion E; subst. reflexivity.
      * split; [discriminate|tauto].
      * split; [discriminate|].
        intros [_ C]. specialize (C e eq_refl). congruence.
      * split; [intros W; inversion W|].
        intros [C _]. specialize (C e eq_refl). congruence.
Qed.

(** *** The loop over the general domains *)

Lemma general_loop_Ok net p domains : forall c0 s0 h c s h',
  general_loop net p domains (c0, s0) h = (Ok (c, s), h') ->
  (c + List.length s0 = c0 + List.length s)%nat
  /\ (List.length s <= List.length s0 + List.length domains)%nat
  /\ h' = h ++ map (probe_request p 3) domains.
Proof.
  induction domains as [|d rest IH]; intros c0 s0 h c s h' E.
  - simpl in E. apply ret_Ok in E. destruct E as [E ->]. inversion E; subst.
    rewrite app_nil_r. repeat split; lia.
  - simpl in E. apply bind_Ok in E. destruct E as [[ok t] [h1 [E1 E2]]].
    rewrite _test_dns_resolution_eq in E1. inversion E1; subst h1.
    apply IH in E2. destruct E2 as [Ec [El ->]].
    rewrite <- app_assoc. simpl.
    destruct ok; rewrite ?length_app in *; simpl in *; repeat split; lia.
Qed.

Lemma general_loop_Raise net p domains : forall acc h e h',
  general_loop net p domains acc h = (Raise e, h') -> raised_by net e.
Proof.
  induction domains as [|d rest IH]; intros acc h e h' E.
  - discriminate.
  - simpl in E. apply bind_Raise in E. destruct E as [E|[[ok t] [h1 [E1 E2]]]].
    + rewrite _test_dns_resolution_eq in E. inversion E as [[E' Eh]].
      apply probe_outcome_Raise in E'. destruct E' as [N R].
      split; [exact N|eauto].
    + destruct acc as [c s]. now apply IH in E2.
Qed.

Lemma general_loop_requests net p domains : forall acc h,
  exists reqs,
    snd (general_loop net p domains acc h) = h ++ reqs
    /\ Forall (fun r => req_server r = p) reqs.
Proof.
  induction domains as [|d rest IH]; intros acc h.
  - exists []. simpl. now rewrite app_nil_r.
  - simpl. unfold bind. rewrite _test_dns_resolution_eq.
    destruct (probe_outcome _) as [[ok t]|e].
    + destruct acc as [c s].
      match goal with |- context [general_loop net p rest ?a ?h1] =>
        destruct (IH a h1) as [reqs [E F]] end.
      exists (probe_request p 3 d :: reqs). rewrite E, <- app_assoc.
      split; [reflexivity|]. now constructor.
    + exists [probe_request p 3 d]. simpl. split; [reflexivity|].
      now repeat constructor.
Qed.

(** *** The loop over the Docker domains *)

Lemma docker_loop_Ok net p t domains : forall c0 s0 d0 h c s d h',
  docker_loop net p t domains (c0, s0, d0) h = (Ok (c, s, d), h') ->
  (c + List.length s0 = c0 + List.length s)%nat
  /\ (List.length s <= List.length s0 + List.length domains)%nat
  /\ h' = h ++ map (probe_request p t) domains.
Proof.
  induction domains as [|dm rest IH]; intros c0 s0 d0 h c s d h' E.
  - simpl in E. apply ret_Ok in E. destruct E as [E ->]. inversion E; subst.
    rewrite app_nil_r. repeat split; lia.
  - simpl in E. apply bind_Ok in E. destruct E as [[ok tm] [h1 [E1 E2]]].
    rewrite _test_dns_resolution_eq in E1. inversion E1; subst h1.
    apply IH in E2. destruct E2 as [Ec [El ->]].
    rewrite <- app_assoc. simpl.
    destruct ok; rewrite ?length_app in *; simpl in *; repeat split; lia.
Qed.

Lemma docker_loop_Raise net p t domains : forall acc h e h',
  docker_loop net p t domains acc h = (Raise e, h') -> raised_by net e.
Proof.
  induction domains as [|d rest IH]; intros acc h e h' E.
  - discriminate.
  - simpl in E. apply bind_Raise in E. destruct E as [E|[[ok tm] [h1 [E1 E2]]]].
    + rewrite _test_dns_resolution_eq in E. inversion E as [[E' Eh]].
      apply probe_outcome_Raise in E'. destruct E' as [N R].
      split; [exact N|eauto].
    + destruct acc as [[c s] dd]. now apply IH in E2.
Qed.

Lemma docker_loop_requests net p t domains : forall acc h,
  exists reqs,
    snd (docker_loop net p t domains acc h) = h ++ reqs
    /\ Forall (fun r => req_server r = p) reqs.
Proof.
  induction domains as [|d rest IH]; intros acc h.
  - exists []. simpl. now rewrite app_nil_r.
  - simpl. unfold bind. rewrite _test_dns_resolution_eq.
    destruct (probe_outcome _) as [[ok tm]|e].
    + destruct acc as [[c s] dd].
      match goal with |- context [docker_loop net p t rest ?a ?h1] =>
        destruct (IH a h1) as [reqs [E F]] end.
      exists (probe_request p t d :: reqs). rewrite E, <- app_assoc.
      split; [reflexivity|]. now constructor.
    + exists [probe_request p t d]. simpl. split; [reflexivity|].
      now repeat constructor.
Qed.

(** *** The Docker battery *)

Lemma _test_docker_connectivity_Ok self net p t h d h' :
  _test_docker_connectivity self net p t h = (Ok d, h') ->
  (Docker.docker_success_count d = O ->
     Docker.docker_avg_time d = float_inf
     /\ Docker.docker_success_rate d = Fin 0
     /\ Docker.docker_working d = false)
  /\ Docker.docker_working d = fge (Docker.docker_success_rate d) (Fin 66)
  /\ (Docker.docker_success_count d <= List.length (docker_domains self))%nat
  /\ h' = h ++ map (probe_request p t) (docker_domains self).
Proof.
  unfold _test_docker_connectivity. intros E.
  apply bind_Ok in E. destruct E as [[[c s] det] [h1 [E1 E2]]].
  apply docker_loop_Ok in E1. simpl in E1. destruct E1 as [Ec [El ->]].
  destruct s as [|x s].
  - apply ret_Ok in E2. destruct E2 as [-> ->]. simpl in *.
    repeat split; lia.
  - apply bind_Ok in E2. destruct E2 as [avg [h2 [E2 E3]]].
    apply lift_Ok in E2. destruct E2 as [_ ->].
    apply bind_Ok in E3. destruct E3 as [ratio [h3 [E3 E4]]].
    apply lift_Ok in E3. destruct E3 as [_ ->].
    apply ret_Ok in E4. destruct E4 as [-> ->]. simpl in *.
    repeat split; try lia.
Qed.

Lemma _test_docker_connectivity_Raise self net p t h e h' :
  _test_docker_connectivity self net p t h = (Raise e, h') ->
  raised_by net e.
Proof.
  unfold _test_docker_connectivity. intros E.
  apply bind_Raise in E. destruct E as [E|[[[c s] det] [h1 [E1 E2]]]].
  - now apply docker_loop_Raise in E.
  - apply docker_loop_Ok in E1. simpl in E1. destruct E1 as [Ec [El ->]].
    destruct s as [|x s]; [discriminate|]. exfalso.
    destruct (float_truediv_Ok (fsum (x :: s)) (n := List.length (x :: s)))
      as [avg [Ea _]]; [discriminate|].
    unfold bind, lift in E2. rewrite Ea in E2.
    rewrite int_truediv_Ok in E2; [discriminate|].
    simpl in El. lia.
Qed.

Lemma _test_docker_connectivity_requests self net p t h :
  exists reqs,
    snd (_test_docker_connectivity self net p t h) = h ++ reqs
    /\ Forall (fun r => req_server r = p) reqs.
Proof.
  unfold _test_docker_connectivity, bind.
  destruct (docker_loop_requests net p t (docker_domains self) (O, [], []) h)
    as [reqs [E F]].
  exists reqs. split; [|exact F].
  destruct (docker_loop _ _ _ _ _ _) as [[[[c s] det]|e] h1]; simpl in *.
  - destruct s as [|x s]; [exact E|].
    unfold lift. destruct (float_truediv _ _); [|exact E].
    destruct (int_truediv _ _); exact E.
  - exact E.
Qed.

(** *** The endpoint tester *)

(** What holds of every dict [_test_dns_server] returns. *)
Record tested (self : DNSSelector) (server_name : string)
    (info : server_info) (r : dns_result) : Prop := {
  tested_name : name r = server_name;
  tested_primary : info_primary info = Some (primary r);
  tested_secondary : secondary r = get_secondary info;
  tested_count : (success_count r <= List.length (test_domains self))%nat;
  tested_none :
    success_count r = O ->
    avg_time r = float_inf /\ success_rate r = Fin 0 /\ working r = false;
  tested_working : working r = fge (success_rate r) (Fin 50);
  tested_docker_count :
    (docker_success_count r <= List.length (docker_domains self))%nat;
  tested_docker_none :
    docker_success_count r = O ->
    docker_avg_time r = float_inf /\ docker_success_rate r = Fin 0
    /\ docker_working r = false;
  tested_docker_working :
    docker_working r = fge (docker_success_rate r) (Fin 66)
}.

(** The requests of a complete run of the tester: both batteries, all to
    the primary address. *)
Definition batteries (self : DNSSelector) (p : string) : list request :=
  map (probe_request p 3) (test_domains self)
  ++ map (probe_request p 5) (docker_domains self).

Lemma _test_dns_server_Ok self net server_name info h r h' :
  _test_dns_server self net server_name info h = (Ok r, h') ->
  tested self server_name info r /\ h' = h ++ batteries self (primary r).
Proof.
  unfold _test_dns_server. intros E.
  apply bind_Ok in E. destruct E as [p [h0 [E0 E]]].
  apply lift_Ok in E0. destruct E0 as [Ep ->].
  unfold get_primary in Ep. destruct (info_primary info) as [p'|] eqn:Ei;
    inversion Ep; subst p'.
  apply bind_Ok in E. destruct E as [[c s] [h1 [E1 E]]].
  apply general_loop_Ok in E1. simpl in E1. destruct E1 as [Ec [El ->]].
  apply bind_Ok in E. destruct E as [[[[total avg] rate] ok] [h2 [E2 E]]].
  apply bind_Ok in E. destruct E as [d [h3 [E3 E]]].
  apply _test_docker_connectivity_Ok in E3.
  destruct E3 as [Dn [Dw [Dc ->]]].
  apply ret_Ok in E. destruct E as [-> ->]. simpl.
  assert (G : h2 = h ++ map (probe_request p 3) (test_domains self)
              /\ (c = O -> avg = float_inf /\ rate = Fin 0 /\ ok = false)
              /\ ok = fge rate (Fin 50)).
  { destruct s as [|x s].
    - apply ret_Ok in E2. destruct E2 as [E2 ->]. inversion E2; subst.
      repeat split.
    - apply bind_Ok in E2. destruct E2 as [avg' [h4 [E4 E2]]].
      apply lift_Ok in E4. destruct E4 as [_ ->].
      apply bind_Ok in E2. destruct E2 as [ratio [h5 [E5 E2]]].
      apply lift_Ok in E5. destruct E5 as [_ ->].
      apply ret_Ok in E2. destruct E2 as [E2 ->]. inversion E2; subst.
      simpl in Ec. repeat split; lia. }
  destruct G as [-> [Gn Gw]].
  split.
  - constructor; simpl; try assumption; try reflexivity. lia.
  - unfold batteries. now rewrite <- app_assoc.
Qed.

Lemma _test_dns_server_Raise self net server_name info h e h' :
  _test_dns_server self net server_name info h = (Raise e, h') ->
  (e = KeyError /\ info_primary info = None /\ h' = h)
  \/ raised_by net e.
Proof.
  unfold _test_dns_server. intros E.
  apply bind_Raise in E. destruct E as [E|[p [h0 [E0 E]]]].
  { left. unfold lift, get_primary in E.
    destruct (info_primary info); inversion E; auto. }
  right.
  apply bind_Raise in E. destruct E as [E|[[c s] [h1 [E1 E]]]].
  { now apply general_loop_Raise in E. }
  apply general_loop_Ok in E1. simpl in E1. destruct E1 as [Ec [El ->]].
  apply bind_Raise in E. destruct E as [E|[x [h2 [E2 E]]]].
  { exfalso. destruct s as [|y s]; [discriminate|].
    destruct (float_truediv_Ok (fsum (y :: s)) (n := List.length (y :: s)))
      as [avg [Ea _]]; [discriminate|].
    unfold bind, lift in E. rewrite Ea in E.
    rewrite int_truediv_Ok in E; [discriminate|].
    simpl in El. lia. }
  destruct x as [[[total avg] rate] ok].
  apply bind_Raise in E. destruct E as [E|[d [h3 [E3 E]]]].
  - now apply _test_docker_connectivity_Raise in E.
  - discriminate.
Qed.

Lemma _test_dns_server_requests self net server_name info h p :
  info_primary info = Some p ->
  exists reqs,
    snd (_test_dns_server self net server_name info h) = h ++ reqs
    /\ Forall (fun r => req_server r = p) reqs.
Proof.
  intros Ep. unfold _test_dns_server, bind, lift, get_primary. rewrite Ep.
  destruct (general_loop_requests net p (test_domains self) (O, []) h)
    as [reqs1 [E1 F1]].
  destruct (general_loop _ _ _ _ _) as [[[c s]|e] h1]; simpl in E1.
  2: { exists reqs1. now split. }
  subst h1.
  match goal with |- context [match ?m (h ++ reqs1) with _ => _ end] =>
    assert (G : exists x, m (h ++ reqs1) = (x, h ++ reqs1)) end.
  { destruct s as [|y s]; [now eexists|].
    unfold lift. destruct (float_truediv _ _); [|now eexists].
    destruct (int_truediv _ _); now eexists. }
  destruct G as [x ->]. destruct x as [[[[total avg] rate] ok]|e].
  2: { exists reqs1. now split. }
  destruct (_test_docker_connectivity_requests self net p 5 (h ++ reqs1))
    as [reqs2 [E2 F2]].
  exists (reqs1 ++ reqs2). rewrite app_assoc. split.
  - destruct (_test_docker_connectivity _ _ _ _ _) as [[d|e] h2];
      simpl in *; exact E2.
  - apply Forall_app. now split.
Qed.

Lemma _test_dns_server_returns self net server_name info h :
  polite net -> info_primary info <> None ->
  exists r h', _test_dns_server self net server_name info h = (Ok r, h').
Proof.
  intros P N.
  destruct (_test_dns_server self net server_name info h) as [[r|e] h'] eqn:E.
  - eauto.
  - apply _test_dns_server_Raise in E. destruct E as [[_ [E _]]|E].
    + contradiction.
    + now apply polite_not_raised in E.
Qed.

(** [r] with another value under ['secondary']. *)
Definition with_secondary (s : string) (r : dns_result) : dns_result :=
  {| name := name r;
     primary := primary r;
     secondary := s;
     success_count := success_count r;
     total_time := total_time r;
     avg_time := avg_time r;
     success_rate := success_rate r;
     working := working r;
     docker_success_count := docker_success_count r;
     docker_total_time := docker_total_time r;
     docker_avg_time := docker_avg_time r;
     docker_success_rate := docker_success_rate r;
     docker_working := docker_working r;
     docker_details := docker_details r |}.

Lemma _test_dns_server_secondary self net server_name p s1 s2 h :
  _test_dns_server self net server_name
    {| info_primary := Some p; info_secondary := s1 |} h
  = (result_map
       (with_secondary
          (get_secondary {| info_primary := Some p; info_secondary := s1 |}))
       (fst (_test_dns_server self net server_name
               {| info_primary := Some p; info_secondary := s2 |} h)),
     snd (_test_dns_server self net server_name
            {| info_primary := Some p; info_secondary := s2 |} h)).
Proof.
  unfold _test_dns_server, bind, lift, get_primary. simpl.
  destruct (general_loop _ _ _ _ _) as [[[c s]|e] h1]; [|reflexivity].
  match goal with |- context [match ?m h1 with _ => _ end] =>
    destruct (m h1) as [[[[[total avg] rate] ok]|e] h2] end; [|reflexivity].
  destruct (_test_docker_connectivity _ _ _ _ _) as [[d|e] h3]; reflexivity.
Qed.

End DnsFacts.

(* ================================================================== *)
(** * The scheduler *)
(* ================================================================== *)

Module SchedulerFacts.
Import Py IoFacts DnsSelector DnsFacts.
Local Open Scope string_scope.
Local Open Scope list_scope.

(** The dicts of the futures whose tester returned, in the order of the
    futures. *)
Definition returned (futures : list (string * result dns_result))
    : list dns_result :=
  flat_map (fun f => match snd f with Ok r => [r] | Raise _ => [] end)
    futures.

(** No future holds an exception that is not an [Exception]. *)
Definition only_Exceptions (futures : list (string * result dns_result))
    : Prop :=
  forall server_name e,
    In (server_name, Raise e) futures -> isinstance_Exception e = true.

(** The line the loop prints for one finished future. *)
Definition reported (f : string * result dns_result) : feedback :=
  match snd f with
  | Ok r => if working r then Passed r else NotWorking r
  | Raise e => TestFailed (fst f) e
  end.

Lemma collect_Ok done : forall acc results,
  fst (collect done acc) = Ok results -> results = acc ++ returned done.
Proof.
  induction done as [|[n [r|e]] rest IH]; intros acc results E; simpl in *.
  - inversion E. now rewrite app_nil_r.
  - destruct (collect rest (acc ++ [r])) as [o out] eqn:C. simpl in E.
    specialize (IH (acc ++ [r]) results). rewrite C in IH.
    rewrite (IH E), <- app_assoc. reflexivity.
  - destruct (isinstance_Exception e); [|discriminate].
    destruct (collect rest acc) as [o out] eqn:C. simpl in E.
    specialize (IH acc results). rewrite C in IH. now apply IH.
Qed.

Lemma collect_only_Exceptions done : forall acc,
  only_Exceptions done ->
  collect done acc = (Ok (acc ++ returned done), map reported done).
Proof.
  induction done as [|[n [r|e]] rest IH]; intros acc F; simpl.
  - now rewrite app_nil_r.
  - rewrite IH, <- app_assoc; [reflexivity|].
    intros m e I. apply (F m e). now right.
  - rewrite (F n e) by now left.
    rewrite IH; [reflexivity|].
    intros m e' I. apply (F m e'). now right.
Qed.

Lemma collect_Raise done : forall acc e,
  fst (collect done acc) = Raise e ->
  isinstance_Exception e = false /\ exists n, In (n, Raise e) done.
Proof.
  induction done as [|[n [r|e']] rest IH]; intros acc e E; simpl in *.
  - discriminate.
  - destruct (collect rest (acc ++ [r])) as [o out] eqn:C. simpl in E.
    specialize (IH (acc ++ [r]) e). rewrite C in IH.
    destruct (IH E) as [? [m ?]]. eauto.
  - destruct (isinstance_Exception e') eqn:X.
    + destruct (collect rest acc) as [o out] eqn:C. simpl in E.
      specialize (IH acc e). rewrite C in IH.
      destruct (IH E) as [? [m ?]]. eauto.
    + inversion E; subst. eauto.
Qed.

(** When the loop comes to its end, it has printed one line for each
    future, in the order in which they finished. *)
Lemma collect_printed done : forall acc results,
  fst (collect done acc) = Ok results ->
  snd (collect done acc) = map reported done.
Proof.
  induction done as [|[n [r|e]] rest IH]; intros acc results E; simpl in *.
  - reflexivity.
  - destruct (collect rest (acc ++ [r])) as [o out] eqn:C. simpl in *.
    specialize (IH (acc ++ [r]) results). rewrite C in IH. simpl in IH.
    now rewrite (IH E).
  - destruct (isinstance_Exception e); [|discriminate].
    destruct (collect rest acc) as [o out] eqn:C. simpl in *.
    specialize (IH acc results). rewrite C in IH. simpl in IH.
    now rewrite (IH E).
Qed.

(** The two components of the scheduler, by those of its loop. *)
Lemma test_all_dns_servers_eq self nets completion :
  let done :=
    as_completed (map (submit self nets) (dns_servers self)) completion in
  fst (test_all_dns_servers self nets completion) = fst (collect done [])
  /\ snd (test_all_dns_servers self nets completion)
     = Testing (List.length (dns_servers self))
         (List.length (test_domains self))
       :: snd (collect done []).
Proof.
  unfold test_all_dns_servers. cbv zeta.
  destruct (collect _ _) as [o out]. split; reflexivity.
Qed.

Lemma as_completed_In {A : Type} (futures : list A) completion f :
  In f (as_completed futures completion) -> In f futures.
Proof.
  unfold as_completed. rewrite in_flat_map. intros [i [_ I]].
  destruct (nth_error futures i) eqn:E; [|contradiction].
  destruct I as [<-|[]]. eapply nth_error_In; eassumption.
Qed.

Lemma as_completed_seq {A : Type} (l : list A) : forall pre,
  as_completed (pre ++ l) (seq (List.length pre) (List.length l)) = l.
Proof.
  unfold as_completed.
  induction l as [|x l IH]; intros pre; [reflexivity|].
  simpl. rewrite nth_error_app2, Nat.sub_diag by lia. simpl.
  f_equal. specialize (IH (pre ++ [x])).
  rewrite <- app_assoc, length_app, Nat.add_1_r in IH. exact IH.
Qed.

(** When every future finishes exactly once, [as_completed] yields the
    submitted futures in some order. *)
Lemma as_completed_perm {A : Type} (futures : list A) completion :
  Permutation completion (seq 0 (List.length futures)) ->
  Permutation (as_completed futures completion) futures.
Proof.
  intros P. rewrite <- (as_completed_seq futures []) at 2. simpl.
  unfold as_completed. now apply Permutation_flat_map.
Qed.

Lemma returned_perm futures futures' :
  Permutation futures futures' ->
  Permutation (returned futures) (returned futures').
Proof. apply Permutation_flat_map. Qed.

Lemma returned_In futures r :
  In r (returned futures) <-> exists n, In (n, Ok r) futures.
Proof.
  unfold returned. rewrite in_flat_map. split.
  - intros [[n [r'|e]] [I J]]; simpl in J; [|contradiction].
    destruct J as [<-|[]]. eauto.
  - intros [n I]. exists (n, Ok r). split; [exact I|now left].
Qed.

(** Every dict the scheduler returns was returned by the tester of one of
    the configured servers. *)
Lemma test_all_dns_servers_tested self nets completion results r :
  fst (test_all_dns_servers self nets completion) = Ok results ->
  In r results ->
  exists server_name info,
    In (server_name, info) (dns_servers self)
    /\ tested self server_name info r.
Proof.
  intros E I.
  rewrite (proj1 (test_all_dns_servers_eq self nets completion)) in E.
  apply collect_Ok in E. simpl in E. subst results.
  apply returned_In in I. destruct I as [n I].
  apply as_completed_In in I. apply in_map_iff in I.
  destruct I as [[server_name info] [S I]].
  exists server_name, info. split; [exact I|].
  unfold submit in S. simpl in S.
  destruct (_test_dns_server _ _ _ _ _) as [o h'] eqn:T. simpl in S.
  inversion S; subst. now apply _test_dns_server_Ok in T.
Qed.

(** The future of one configured server. *)
Definition future_of (self : DNSSelector) (nets : string -> network)
    (server_name : string) (info : server_info) : result dns_result :=
  fst (_test_dns_server self (nets server_name) server_name info []).

(** The entries of a result list that carry a given server name. *)
Definition entries_of (server_name : string) (results : list dns_result)
    : list dns_result :=
  filter (fun r => String.eqb (name r) server_name) results.

Lemma future_of_name self nets server_name info r :
  future_of self nets server_name info = Ok r -> name r = server_name.
Proof.
  unfold future_of.
  destruct (_test_dns_server _ _ _ _ _) as [o h'] eqn:T. simpl.
  intros ->. apply _test_dns_server_Ok in T. destruct T as [T _].
  apply (tested_name T).
Qed.

Lemma future_of_Raise self nets server_name info e :
  polite (nets server_name) ->
  future_of self nets server_name info = Raise e ->
  e = KeyError /\ info_primary info = None.
Proof.
  unfold future_of. intros P.
  destruct (_test_dns_server _ _ _ _ _) as [o h'] eqn:T. simpl.
  intros ->. apply _test_dns_server_Raise in T.
  destruct T as [[? [? _]]|T]; [now split|].
  now apply polite_not_raised in T.
Qed.

Lemma submitted_only_Exceptions self nets :
  (forall server_name, polite (nets server_name)) ->
  only_Exceptions (map (submit self nets) (dns_servers self)).
Proof.
  intros P server_name e I. apply in_map_iff in I.
  destruct I as [[n info] [S _]]. unfold submit in S. simpl in S.
  inversion S as [[Sn Sr]]. subst n.
  destruct (future_of_Raise self nets server_name info (P server_name) Sr)
    as [-> _].
  reflexivity.
Qed.

Lemma returned_names self nets servers r :
  In r (returned (map (submit self nets) servers)) ->
  In (name r) (map fst servers).
Proof.
  rewrite returned_In. intros [n I]. apply in_map_iff in I.
  destruct I as [[m info] [S I]]. unfold submit in S. simpl in S.
  inversion S as [[Sn Sr]]. apply future_of_name in Sr. rewrite Sr.
  apply in_map_iff. now exists (m, info).
Qed.

Lemma entries_of_absent self nets servers server_name :
  ~ In server_name (map fst servers) ->
  entries_of server_name (returned (map (submit self nets) servers)) = [].
Proof.
  intros N. unfold entries_of.
  destruct (filter _ _) as [|r l] eqn:F; [reflexivity|]. exfalso.
  assert (I : In r (r :: l)) by now left.
  rewrite <- F in I. apply filter_In in I. destruct I as [I E].
  apply String.eqb_eq in E. apply returned_names in I. congruence.
Qed.

(** With distinct server names, the entries that carry the name of a
    configured server are the dict its tester returned, or none when its
    tester raised. *)
Lemma entries_of_returned self nets servers server_name info :
  NoDup (map fst servers) ->
  In (server_name, info) servers ->
  entries_of server_name (returned (map (submit self nets) servers))
  = match future_of self nets server_name info with
    | Ok r => [r]
    | Raise _ => []
    end.
Proof.
  induction servers as [|[n i] rest IH]; intros D I; [contradiction|].
  simpl in D. inversion D as [|? ? Dn Dr]; subst.
  unfold entries_of, returned in *. simpl. rewrite filter_app.
  fold (future_of self nets n i).
  destruct I as [I|I].
  - inversion I; subst n i.
    fold (returned (map (submit self nets) rest)).
    fold (entries_of server_name (returned (map (submit self nets) rest))).
    rewrite entries_of_absent by assumption. rewrite app_nil_r.
    destruct (future_of self nets server_name info) as [r|e] eqn:F;
      [|reflexivity].
    simpl. apply future_of_name in F. rewrite F, String.eqb_refl.
    reflexivity.
  - rewrite (IH Dr I).
    assert (N : n <> server_name).
    { intros ->. apply Dn. apply in_map_iff. now exists (server_name, info). }
    destruct (future_of self nets n i) as [r|e] eqn:F; [|reflexivity].
    simpl. apply future_of_name in F. rewrite F.
    apply String.eqb_neq in N. now rewrite N.
Qed.

Lemma test_all_dns_servers_Ok self nets completion :
  (forall server_name, polite (nets server_name)) ->
  Permutation completion (seq 0 (List.length (dns_servers self))) ->
  exists results,
    fst (test_all_dns_servers self nets completion) = Ok results
    /\ Permutation results
         (returned (map (submit self nets) (dns_servers self))).
Proof.
  intros P C. unfold test_all_dns_servers. cbv zeta.
  rewrite collect_only_Exceptions.
  - eexists. split; [reflexivity|]. simpl.
    apply returned_perm, as_completed_perm. now rewrite length_map.
  - intros n e I. apply as_completed_In in I.
    now apply (submitted_only_Exceptions self nets P n e).
Qed.

End SchedulerFacts.

(* ================================================================== *)
(** * The registry probes and endpoint tester *)
(* ================================================================== *)

Module MirrorFacts.
Import Py IoFacts MirrorSelector.
Local Open Scope string_scope.
Local Open Scope list_scope.

(** The request of the connectivity probe (line 80). *)
Definition connectivity_request (mirror : string) (timeout : Z) : request :=
  {| req_url := String.append (test_url mirror) "/v2/";
     req_accept := None;
     req_timeout := timeout |}.

(** The request of the manifest probe (lines 104-109). *)
Definition hub_request (mirror : string) (timeout : Z) : request :=
  {| req_url :=
       String.append (test_url mirror)
         "/v2/library/hello-world/manifests/latest";
     req_accept :=
       Some "application/vnd.docker.distribution.manifest.v2+json";
     req_timeout := timeout |}.

(** What a probe makes of an observation. *)
Definition probe_outcome (obs : observation) : result (bool * pyfloat) :=
  match get obs with
  | Ok r =>
      if accepted r then Ok (true, Fin (end_time obs - start_time obs))
      else Ok (false, float_inf)
  | Raise e =>
      if isinstance_Exception e then Ok (false, float_inf) else Raise e
  end.

Lemma _test_registry_connectivity_eq net mirror timeout h :
  _test_registry_connectivity net mirror timeout h
  = (probe_outcome (net h (connectivity_request mirror timeout)),
     h ++ [connectivity_request mirror timeout]).
Proof.
  unfold _test_registry_connectivity, try_except, bind, timed_get,
    probe_outcome.
  fold (connectivity_request mirror timeout).
  destruct (get (net h (connectivity_request mirror timeout))) as [r|e];
    simpl.
  - now destruct (accepted r).
  - now destruct e.
Qed.

Lemma _test_docker_hub_connectivity_eq net mirror timeout h :
  _test_docker_hub_connectivity net mirror timeout h
  = (probe_outcome (net h (hub_request mirror timeout)),
     h ++ [hub_request mirror timeout]).
Proof.
  unfold _test_docker_hub_connectivity, try_except, bind, timed_get,
    probe_outcome.
  fold (hub_request mirror timeout).
  destruct (get (net h (hub_request mirror timeout))) as [r|e]; simpl.
  - now destruct (accepted r).
  - now destruct e.
Qed.

Lemma get_outcome_shape obs p : probe_outcome obs = Ok p -> probe_shape p.
Proof.
  unfold probe_outcome, probe_shape.
  destruct (get obs) as [r|e].
  - destruct (accepted r); intros E; inversion E; simpl; auto.
  - destruct (isinstance_Exception e); intros E; inversion E; simpl; auto.
Qed.

Lemma get_outcome_Raise obs e :
  probe_outcome obs = Raise e ->
  isinstance_Exception e = false /\ get obs = Raise e.
Proof.
  unfold probe_outcome. destruct (get obs) as [r|e'].
  - destruct (accepted r); discriminate.
  - destruct (isinstance_Exception e') eqn:E; [discriminate|].
    intros H. now inversion H; subst.
Qed.

(** The exception is what [requests.get] raised during some probe. *)
Definition raised_by (net : network) (e : exn) : Prop :=
  isinstance_Exception e = false
  /\ exists h req, get (net h req) = Raise e.

(** [requests.get] returns or raises an [Exception], whatever the
    request. *)
Definition polite (net : network) : Prop :=
  forall h req e, get (net h req) = Raise e -> isinstance_Exception e = true.

Lemma polite_get_not_raised net e : polite net -> ~ raised_by net e.
Proof.
  intros P [N [h [req R]]]. apply P in R. congruence.
Qed.

(** The failure of a request, in the words of the specification: the
    request timed out, could not connect or otherwise raised, or was
    answered with a status that is none of 200, 401 and 404. *)
Definition failure (obs : observation) : Prop :=
  match get obs with
  | Ok r => status_code r <> 200%Z /\ status_code r <> 401%Z
            /\ status_code r <> 404%Z
  | Raise _ => True
  end.

Lemma accepted_spec r :
  accepted r = true
  <-> ~ (status_code r <> 200%Z /\ status_code r <> 401%Z
         /\ status_code r <> 404%Z).
Proof.
  unfold accepted. simpl. rewrite !orb_true_iff, !Z.eqb_eq. lia.
Qed.

Lemma get_outcome_contract obs :
  contract (fun e => get obs = Raise e) (failure obs)
    (end_time obs - start_time obs) (probe_outcome obs).
Proof.
  unfold contract, failure.
  split; [intros p; apply get_outcome_shape|].
  unfold probe_outcome. pose proof accepted_spec as RS.
  destruct (get obs) as [r|e].
  - specialize (RS r). destruct (accepted r) eqn:R.
    + assert (N : ~ (status_code r <> 200%Z /\ status_code r <> 401%Z
                     /\ status_code r <> 404%Z))
        by now apply RS.
      split; [|split; [|split]].
      * intros e. split; [discriminate|intros [X _]; discriminate].
      * tauto.
      * split; [discriminate|tauto].
      * split.
        -- intros W. inversion W; subst. split; [discriminate|now right].
        -- intros [_ [F|P]]; [tauto|now constructor].
    + assert (F : status_code r <> 200%Z /\ status_code r <> 401%Z
                  /\ status_code r <> 404%Z).
      { assert (X : ~ ~ (status_code r <> 200%Z /\ status_code r <> 401%Z
                         /\ status_code r <> 404%Z)).
        { intros Y. apply RS in Y. discriminate. }
        lia. }
      split; [|split; [|split]].
      * intros e. split; [discriminate|intros [X _]; discriminate].
      * split; [discriminate|tauto].
      * split; [intros _; split; [exact F|discriminate]|reflexivity].
      * split; [intros _; split; [discriminate|now left]|constructor].
  - destruct (isinstance_Exception e) eqn:X.
    + split; [|split; [|split]].
      * intros e'. split; [discriminate|].
        intros [E N]. inversion E; subst. congruence.
      * split; [discriminate|tauto].
      * split; [|reflexivity]. intros _. split; [exact I|].
        intros e' E. inversion E; subst. exact X.
      * split; [|constructor]. intros _. split; [|now left].
        intros e' E. inversion E; subst. exact X.
    + split; [|split; [|split]].
      * intros e'. split.
        -- intros E. inversion E; subst. now split.
        -- intros [E _]. inversion E; subst. reflexivity.
      * split; [discriminate|tauto].
      * split; [discriminate|].
        intros [_ C]. specialize (C e eq_refl). congruence.
      * split; [intros W; inversion W|].
        intros [C _]. specialize (C e eq_refl). congruence.
Qed.

(** What holds of every dict [_test_single_registry] returns, by the three
    ways through lines 146-164; [reqs] are the requests it issued. *)
Inductive tested (reg : registry) (r : registry_result)
    : list request -> Prop :=
| connection_failed :
    connectivity_success r = false ->
    connectivity_time r = float_inf ->
    hub_success r = false ->
    hub_time r = float_inf ->
    total_score r = float_inf ->
    status r = "Connection Failed" ->
    tested reg r [connectivity_request (reg_mirror reg) 10]
| hub_access_failed :
    connectivity_success r = true ->
    is_finite (connectivity_time r) = true ->
    hub_success r = false ->
    hub_time r = float_inf ->
    total_score r = float_inf ->
    status r = "Hub Access Failed" ->
    tested reg r
      [connectivity_request (reg_mirror reg) 10;
       hub_request (reg_mirror reg) 15]
| both_succeeded :
    connectivity_success r = true ->
    is_finite (connectivity_time r) = true ->
    hub_success r = true ->
    is_finite (hub_time r) = true ->
    total_score r = fadd (connectivity_time r) (fmul_const (hub_time r) 1.5) ->
    status r = "Working" ->
    tested reg r
      [connectivity_request (reg_mirror reg) 10;
       hub_request (reg_mirror reg) 15].

Lemma _test_single_registry_Ok net reg h r h' :
  _test_single_registry net reg h = (Ok r, h') ->
  name r = reg_name reg /\ mirror r = reg_mirror reg
  /\ insecure r = reg_insecure reg
  /\ exists reqs, tested reg r reqs /\ h' = h ++ reqs.
Proof.
  unfold _test_single_registry. intros E.
  apply bind_Ok in E. destruct E as [[cs ct] [h1 [E1 E]]].
  rewrite _test_registry_connectivity_eq in E1. inversion E1 as [[E1' Eh]].
  apply get_outcome_shape in E1'. clear E1. subst h1.
  destruct E1' as [[C1 C2]|[C1 C2]]; simpl in C1, C2; subst cs.
  - apply bind_Ok in E. destruct E as [[hs ht] [h2 [E2 E]]].
    rewrite _test_docker_hub_connectivity_eq in E2.
    inversion E2 as [[E2' Eh]].
    apply get_outcome_shape in E2'. clear E2. subst h2.
    destruct E2' as [[D1 D2]|[D1 D2]]; simpl in D1, D2; subst hs;
      apply ret_Ok in E; destruct E as [-> ->]; simpl;
      repeat split; eexists; (split; [|now rewrite <- app_assoc]).
    + now apply both_succeeded.
    + now apply hub_access_failed.
  - apply ret_Ok in E. destruct E as [-> ->]. simpl.
    repeat split. eexists. split; [|reflexivity].
    now apply connection_failed.
Qed.

Lemma _test_single_registry_Raise net reg h e h' :
  _test_single_registry net reg h = (Raise e, h') -> raised_by net e.
Proof.
  unfold _test_single_registry. intros E.
  apply bind_Raise in E. destruct E as [E|[[cs ct] [h1 [E1 E]]]].
  { rewrite _test_registry_connectivity_eq in E. inversion E as [[E' Eh]].
    apply get_outcome_Raise in E'. destruct E' as [N R].
    split; [exact N|eauto]. }
  destruct cs; [|discriminate].
  apply bind_Raise in E. destruct E as [E|[[hs ht] [h2 [E2 E]]]].
  { rewrite _test_docker_hub_connectivity_eq in E. inversion E as [[E' Eh]].
    apply get_outcome_Raise in E'. destruct E' as [N R].
    split; [exact N|eauto]. }
  destruct hs; discriminate.
Qed.

(** Every dict of [test_all_registries] was returned by the tester of the
    mirror at the same position. *)
Definition produced (net : network) (reg : registry) (r : registry_result)
    : Prop :=
  exists h h', _test_single_registry net reg h = (Ok r, h').

Lemma test_registries_Ok net mirrors : forall h results h',
  test_registries net mirrors h = (Ok results, h') ->
  Forall2 (produced net) mirrors results.
Proof.
  induction mirrors as [|reg rest IH]; intros h results h' E; simpl in E.
  - apply ret_Ok in E. destruct E as [-> _]. constructor.
  - apply bind_Ok in E. destruct E as [r [h1 [E1 E]]].
    apply bind_Ok in E. destruct E as [rs [h2 [E2 E]]].
    apply ret_Ok in E. destruct E as [-> _].
    constructor; [now exists h, h1|]. eapply IH; eassumption.
Qed.

Lemma test_registries_Raise net mirrors : forall h e h',
  test_registries net mirrors h = (Raise e, h') -> raised_by net e.
Proof.
  induction mirrors as [|reg rest IH]; intros h e h' E; simpl in E.
  - discriminate.
  - apply bind_Raise in E. destruct E as [E|[r [h1 [E1 E]]]].
    { now apply _test_single_registry_Raise in E. }
    apply bind_Raise in E. destruct E as [E|[rs [h2 [E2 E]]]].
    + eapply IH; eassumption.
    + discriminate.
Qed.

Lemma _test_single_registry_returns net reg h :
  polite net -> exists r h', _test_single_registry net reg h = (Ok r, h').
Proof.
  intros P.
  destruct (_test_single_registry net reg h) as [[r|e] h'] eqn:E.
  - eauto.
  - apply _test_single_registry_Raise in E.
    now apply polite_get_not_raised in E.
Qed.

Lemma test_registries_returns net mirrors h :
  polite net -> exists results h',
    test_registries net mirrors h = (Ok results, h').
Proof.
  intros P.
  destruct (test_registries net mirrors h) as [[r|e] h'] eqn:E.
  - eauto.
  - apply test_registries_Raise in E. now apply polite_get_not_raised in E.
Qed.

End MirrorFacts.

(* ================================================================== *)
(** * Properties of the ranking *)
(* ================================================================== *)

Module RankingFacts.
Import Py OrderLaws SortFacts.
Local Open Scope string_scope.
Local Open Scope list_scope.

Lemma Permutation_filter {A : Type} (f : A -> bool) (l l' : list A) :
  Permutation l l' -> Permutation (filter f l) (filter f l').
Proof.
  induction 1 as [|x l l' P IH|x y l|l l' l'' P1 IH1 P2 IH2]; simpl.
  - constructor.
  - destruct (f x); [now constructor|assumption].
  - destruct (f x), (f y); try apply Permutation_refl. apply perm_swap.
  - eapply perm_trans; eassumption.
Qed.

(** The order of line 195 read on two servers: [a] may stand before [b]
    when [a] alone passes the Docker threshold, or both or neither do and
    [a] has the smaller Docker average, or these are equal too and the
    general average of [a] is not larger. *)
Definition ranks_before (a b : DnsSelector.dns_result) : Prop :=
  (DnsSelector.docker_working a = true
   /\ DnsSelector.docker_working b = false)
  \/ (DnsSelector.docker_working a = DnsSelector.docker_working b
      /\ flt (DnsSelector.docker_avg_time a) (DnsSelector.docker_avg_time b)
         = true)
  \/ (DnsSelector.docker_working a = DnsSelector.docker_working b
      /\ feq (DnsSelector.docker_avg_time a) (DnsSelector.docker_avg_time b)
         = true
      /\ fle (DnsSelector.avg_time a) (DnsSelector.avg_time b) = true).

Lemma ranks_before_key (a b : DnsSelector.dns_result) :
  ranks_before a b
  <-> py_lt (DnsSelector.sort_key b) (DnsSelector.sort_key a) = false.
Proof.
  unfold ranks_before, DnsSelector.sort_key. simpl.
  destruct (DnsSelector.docker_working a), (DnsSelector.docker_working b),
    (DnsSelector.docker_avg_time a) as [da|],
    (DnsSelector.docker_avg_time b) as [db|],
    (DnsSelector.avg_time a) as [ga|],
    (DnsSelector.avg_time b) as [gb|]; simpl;
    (split;
     [ intros [[? ?]|[[? ?]|[? [? ?]]]]; try discriminate; q_cases
     | intros ?; q_cases;
       try (left; split; reflexivity);
       try (right; left; split; [reflexivity|]; q_cases; fail);
       try (right; right; split; [reflexivity|split]; q_cases; fail) ]).
Qed.

Lemma working_servers_In results r :
  In r (DnsSelector.working_servers results)
  <-> In r results /\ DnsSelector.working r = true.
Proof.
  unfold DnsSelector.working_servers.
  rewrite list_sort_In. apply filter_In.
Qed.

Lemma working_results_In results r :
  In r (MirrorSelector.working_results results)
  <-> In r results /\ MirrorSelector.status r = "Working".
Proof.
  unfold MirrorSelector.working_results.
  rewrite list_sort_In, filter_In. unfold MirrorSelector.is_working.
  now rewrite String.eqb_eq.
Qed.

End RankingFacts.

(* ================================================================== *)
(** * The selection loops *)
(* ================================================================== *)

Module SelectionFacts.
Import Py UstringFacts.
Local Open Scope string_scope.
Local Open Scope list_scope.



(** *** DNS mode *)


Lemma selection_loop_interrupt ranked rest :
  DnsSelector.selection_loop ranked (Interrupt :: rest)
  = (Ok None, [DnsSelector.Prompt (List.length ranked); DnsSelector.Cancelled]).
Proof. reflexivity. Qed.


(** *** Registry mode *)



Lemma choice_loop_interrupt ranked rest :
  MirrorSelector.choice_loop ranked (Interrupt :: rest)
  = (Raise KeyboardInterrupt, [MirrorSelector.Menu (List.length ranked)]).
Proof. reflexivity. Qed.


(** The mirrors of the table rows of a transcript, in order. *)
Definition ranked_rows (out : list MirrorSelector.line)
    : list MirrorSelector.registry_result :=
  flat_map
    (fun l => match l with MirrorSelector.TableRow _ r => [r] | _ => [] end)
    out.

(** The name, address and status of the mirrors listed as failed. *)
Definition failed_rows (out : list MirrorSelector.line)
    : list (string * string * string) :=
  flat_map
    (fun l =>
       match l with
       | MirrorSelector.FailedRow n m s => [(n, m, s)]
       | _ => []
       end)
    out.

(** The lines the loop itself prints. *)
Definition dialogue (l : MirrorSelector.line) : Prop :=
  match l with
  | MirrorSelector.TableRow _ _ | MirrorSelector.FailedRow _ _ _
  | MirrorSelector.SummaryRow _ _ _ _ | MirrorSelector.FailedHeader
  | MirrorSelector.Fastest _ | MirrorSelector.NoWorkingMirrors => False
  | _ => True
  end.

Lemma choice_loop_dialogue ranked : forall n stdin,
  (List.length stdin <= n)%nat ->
  Forall dialogue (snd (MirrorSelector.choice_loop ranked stdin)).
Proof.
  induction n as [|n IH]; intros stdin L.
  - destruct stdin; [|simpl in L; lia]. simpl. repeat constructor.
  - destruct stdin as [|[s|] rest]; simpl; try (repeat constructor; fail).
    simpl in L.
    destruct (ustring_eqb _ "q"); [repeat constructor|].
    destruct (ustring_eqb _ "0"); [repeat constructor|].
    destruct (py_int _) as [k|e].
    + destruct (_ && _)%bool.
      * destruct (nth_error ranked _) as [sel|]; [|repeat constructor].
        destruct rest as [|[c|] rest']; try (repeat constructor; fail).
        destruct (MirrorSelector.confirmed _); [repeat constructor|].
        assert (H : Forall dialogue
                      (snd (MirrorSelector.choice_loop ranked rest'))).
        { apply IH. simpl in L. lia. }
        destruct (MirrorSelector.choice_loop ranked rest') as [r out].
        simpl in *. repeat constructor. exact H.
      * assert (H : Forall dialogue
                      (snd (MirrorSelector.choice_loop ranked rest))).
        { apply IH. lia. }
        destruct (MirrorSelector.choice_loop ranked rest) as [r out].
        simpl in *. repeat constructor. exact H.
    + destruct (isinstance_ValueError e); [|repeat constructor].
      assert (H : Forall dialogue
                    (snd (MirrorSelector.choice_loop ranked rest))).
      { apply IH. lia. }
      destruct (MirrorSelector.choice_loop ranked rest) as [r out].
      simpl in *. repeat constructor. exact H.
Qed.

Lemma dialogue_no_rows out :
  Forall dialogue out -> ranked_rows out = [] /\ failed_rows out = [].
Proof.
  induction 1 as [|l out D F [IH1 IH2]]; [now split|].
  unfold ranked_rows, failed_rows in *. simpl. rewrite IH1, IH2.
  destruct l; simpl in D; try contradiction; now split.
Qed.

Lemma ranked_rows_table ranked : forall i,
  ranked_rows
    (map (fun row => MirrorSelector.TableRow (fst row) (snd row))
       (MirrorSelector.enumerate ranked i))
  = ranked
  /\ failed_rows
       (map (fun row => MirrorSelector.TableRow (fst row) (snd row))
          (MirrorSelector.enumerate ranked i))
     = [].
Proof.
  unfold ranked_rows, failed_rows.
  induction ranked as [|r ranked IH]; intros i; [now split|].
  simpl. destruct (IH (S i)) as [E1 E2]. now rewrite E1, E2.
Qed.

Lemma failed_rows_list failed :
  failed_rows
    (map
       (fun r =>
          MirrorSelector.FailedRow (MirrorSelector.name r)
            (MirrorSelector.mirror r) (MirrorSelector.status r))
       failed)
  = map
      (fun r =>
         (MirrorSelector.name r, MirrorSelector.mirror r,
          MirrorSelector.status r))
      failed
  /\ ranked_rows
       (map
          (fun r =>
             MirrorSelector.FailedRow (MirrorSelector.name r)
               (MirrorSelector.mirror r) (MirrorSelector.status r))
          failed)
     = [].
Proof.
  unfold ranked_rows, failed_rows.
  induction failed as [|r failed [IH1 IH2]]; [now split|].
  simpl. now rewrite IH1, IH2.
Qed.

(** The table of the transcript is the ranked list, and the mirrors listed
    as failed are the others, each with its status. *)
Lemma ranked_rows_app out out' :
  ranked_rows (out ++ out') = ranked_rows out ++ ranked_rows out'.
Proof. apply flat_map_app. Qed.

Lemma failed_rows_app out out' :
  failed_rows (out ++ out') = failed_rows out ++ failed_rows out'.
Proof. apply flat_map_app. Qed.

Lemma report_rows ranked failed :
  ranked_rows (MirrorSelector.report ranked failed) = ranked
  /\ failed_rows (MirrorSelector.report ranked failed)
     = map
         (fun r =>
            (MirrorSelector.name r, MirrorSelector.mirror r,
             MirrorSelector.status r))
         failed.
Proof.
  unfold MirrorSelector.report.
  destruct (ranked_rows_table ranked 1) as [T1 T2].
  destruct (failed_rows_list failed) as [F1 F2].
  rewrite !ranked_rows_app, !failed_rows_app, T1, T2.
  assert (B : forall l,
            ranked_rows (MirrorSelector.FailedHeader :: l) = ranked_rows l
            /\ failed_rows (MirrorSelector.FailedHeader :: l)
               = failed_rows l) by (intros l; now split).
  assert (C : ranked_rows
                match ranked with
                | [] => []
                | best_mirror :: _ => [MirrorSelector.Fastest best_mirror]
                end = []
              /\ failed_rows
                   match ranked with
                   | [] => []
                   | best_mirror :: _ =>
                       [MirrorSelector.Fastest best_mirror]
                   end = []) by (destruct ranked; now split).
  destruct C as [C1 C2]. rewrite C1, C2, !app_nil_r. simpl app.
  destruct failed as [|f failed].
  - rewrite app_nil_r. now split.
  - destruct (B (map
                   (fun r =>
                      MirrorSelector.FailedRow (MirrorSelector.name r)
                        (MirrorSelector.mirror r) (MirrorSelector.status r))
                   (f :: failed))) as [B1 B2].
    rewrite B1, B2, F1, F2, app_nil_r. now split.
Qed.

Lemma display_rows results stdin :
  ranked_rows (snd (MirrorSelector.display_results_and_choose results stdin))
  = MirrorSelector.working_results results
  /\ (MirrorSelector.working_results results <> [] ->
      failed_rows
        (snd (MirrorSelector.display_results_and_choose results stdin))
      = map
          (fun r =>
             (MirrorSelector.name r, MirrorSelector.mirror r,
              MirrorSelector.status r))
          (MirrorSelector.failed_results results)).
Proof.
  unfold MirrorSelector.display_results_and_choose.
  destruct (MirrorSelector.working_results results) as [|b ranked] eqn:W.
  - split; [|congruence]. simpl. unfold ranked_rows. clear W.
    induction results as [|r results IH]; [reflexivity|exact IH].
  - pose proof (choice_loop_dialogue (b :: ranked) stdin (le_n _)) as D.
    destruct (MirrorSelector.choice_loop (b :: ranked) stdin) as [r out].
    cbv beta iota delta [snd] in *.
    apply dialogue_no_rows in D. destruct D as [D1 D2].
    destruct (report_rows (b :: ranked)
                (MirrorSelector.failed_results results)) as [R1 R2].
    rewrite ranked_rows_app, failed_rows_app, R1, R2, D1, D2, !app_nil_r.
    now split.
Qed.

End SelectionFacts.

(* ================================================================== *)
(** * Further properties of the endpoint testers *)
(* ================================================================== *)

Module TesterFacts.
Import Py IoFacts DnsSelector DnsFacts.
Local Open Scope string_scope.
Local Open Scope list_scope.

(** [t] is a finite float. *)
Definition finite (t : pyfloat) : Prop := is_finite t = true.

Lemma fold_left_fadd_Fin (l : list Q) : forall q,
  fold_left fadd (map Fin l) (Fin q) = Fin (fold_left Qplus l q).
Proof.
  induction l as [|x l IH]; intros q; [reflexivity|]. simpl. apply IH.
Qed.

Lemma finite_list (l : list pyfloat) :
  Forall finite l -> exists qs, l = map Fin qs.
Proof.
  induction 1 as [|t l F _ [qs ->]]; [now exists []|].
  destruct t as [q|]; [|discriminate]. now exists (q :: qs).
Qed.

Lemma fsum_finite (l : list pyfloat) :
  Forall finite l -> exists q, fsum l = Fin q.
Proof.
  intros F. destruct (finite_list F) as [qs ->].
  unfold fsum. rewrite fold_left_fadd_Fin. eauto.
Qed.

(** The successful times a loop collects are finite. *)
Lemma general_loop_finite net p domains : forall c0 s0 h c s h',
  general_loop net p domains (c0, s0) h = (Ok (c, s), h') ->
  Forall finite s0 -> Forall finite s.
Proof.
  induction domains as [|d rest IH]; intros c0 s0 h c s h' E F.
  - simpl in E. apply ret_Ok in E. destruct E as [E _]. now inversion E; subst.
  - simpl in E. apply bind_Ok in E. destruct E as [[ok t] [h1 [E1 E2]]].
    rewrite _test_dns_resolution_eq in E1. inversion E1 as [[E1' Eh]].
    apply probe_outcome_shape in E1'. unfold probe_shape in E1'.
    simpl in E1'. apply IH in E2; [exact E2|].
    destruct E1' as [[-> T]|[-> _]]; simpl in *; [|exact F].
    apply Forall_app. split; [exact F|]. now constructor.
Qed.

(** The times of the entries of ['docker_details'] that succeeded. *)
Definition detail_times (details : list detail) : list pyfloat :=
  flat_map
    (fun d => match detail_time d with Some t => [t] | None => [] end)
    details.

(** An entry carries a time exactly when the lookup succeeded, and that
    time is finite. *)
Definition well_formed_detail (d : detail) : Prop :=
  match detail_time d with
  | Some t => detail_success d = true /\ finite t
  | None => detail_success d = false
  end.

Lemma docker_loop_details net p t domains : forall c0 s0 d0 h c s d h',
  docker_loop net p t domains (c0, s0, d0) h = (Ok (c, s, d), h') ->
  exists new,
    d = d0 ++ new
    /\ map detail_domain new = domains
    /\ c = (c0 + List.length (filter detail_success new))%nat
    /\ s = s0 ++ detail_times new
    /\ Forall well_formed_detail new.
Proof.
  induction domains as [|dm rest IH]; intros c0 s0 d0 h c s d h' E.
  - simpl in E. apply ret_Ok in E. destruct E as [E _]. inversion E; subst.
    exists []. rewrite !app_nil_r. simpl.
    repeat split; try lia; constructor.
  - simpl in E. apply bind_Ok in E. destruct E as [[ok tm] [h1 [E1 E2]]].
    rewrite _test_dns_resolution_eq in E1. inversion E1 as [[E1' Eh]].
    apply probe_outcome_shape in E1'. unfold probe_shape in E1'.
    simpl in E1'.
    apply IH in E2. destruct E2 as [new [-> [Dm [-> [-> W]]]]].
    eexists (_ :: new). rewrite <- !app_assoc. simpl.
    split; [reflexivity|]. split; [now rewrite Dm|].
    destruct E1' as [[-> T]|[-> _]]; simpl in *.
    + split; [lia|]. split; [now rewrite <- app_assoc|].
      constructor; [|exact W]. unfold well_formed_detail. simpl. now split.
    + split; [lia|]. split; [reflexivity|].
      constructor; [|exact W]. reflexivity.
Qed.

Lemma detail_times_finite (details : list detail) :
  Forall well_formed_detail details -> Forall finite (detail_times details).
Proof.
  induction 1 as [|d l W _ IH]; [constructor|].
  unfold detail_times. simpl. unfold well_formed_detail in W.
  destruct (detail_time d); [|exact IH].
  constructor; [apply W|exact IH].
Qed.

Lemma detail_times_length (details : list detail) :
  Forall well_formed_detail details ->
  List.length (detail_times details)
  = List.length (filter detail_success details).
Proof.
  induction 1 as [|d l W _ IH]; [reflexivity|].
  unfold detail_times in *. simpl. unfold well_formed_detail in W.
  destruct (detail_time d).
  - destruct W as [-> _]. simpl. now rewrite IH.
  - rewrite W. exact IH.
Qed.

(** [50 <= a / b * 100] and [66 <= a / b * 100] on counts. *)
Lemma rate_threshold (k a b : nat) :
  b <> O ->
  fge (fmul_const (Fin (inject_Z (Z.of_nat a) / inject_Z (Z.of_nat b))) 100)
    (Fin (inject_Z (Z.of_nat k)))
  = (k * b <=? 100 * a)%nat.
Proof.
  intros B. unfold fge, fle, fmul_const.
  set (x := inject_Z (Z.of_nat a)). set (y := inject_Z (Z.of_nat b)).
  assert (Y : (0 < y)%Q).
  { unfold y. rewrite <- (Zlt_Qlt 0). lia. }
  assert (M : (x / y * 100 * y == 100 * x)%Q).
  { field. intros Z. rewrite Z in Y. now apply Qlt_irrefl in Y. }
  apply eq_true_iff_eq. rewrite Qle_bool_iff, Nat.leb_le.
  rewrite <- (Qmult_le_r _ _ y Y), M.
  unfold x, y.
  change 100%Q with (inject_Z 100).
  rewrite <- !inject_Z_mult, <- Zle_Qle. lia.
Qed.

(** What holds, beyond [tested], of every dict [_test_dns_server]
    returns. *)
Record measured (self : DNSSelector) (r : dns_result) : Prop := {
  measured_avg :
    success_count r <> O ->
    exists total avg,
      total_time r = Fin total /\ avg_time r = Fin avg
      /\ float_truediv (total_time r) (success_count r) = Ok (avg_time r);
  measured_working :
    working r
    = negb (success_count r =? 0)%nat
      && (50 * List.length (test_domains self) <=? 100 * success_count r)%nat;
  measured_docker_avg :
    docker_success_count r <> O ->
    exists total avg,
      docker_total_time r = Fin total /\ docker_avg_time r = Fin avg
      /\ float_truediv (docker_total_time r) (docker_success_count r)
         = Ok (docker_avg_time r);
  measured_docker_working :
    docker_working r
    = negb (docker_success_count r =? 0)%nat
      && (66 * List.length (docker_domains self)
          <=? 100 * docker_success_count r)%nat;
  measured_details :
    map detail_domain (docker_details r) = docker_domains self
    /\ Forall well_formed_detail (docker_details r)
    /\ docker_success_count r
       = List.length (filter detail_success (docker_details r))
    /\ docker_total_time r = fsum (detail_times (docker_details r))
}.

(** The average of lines 100 and 135, of a non-empty list of finite
    times. *)
Lemma average_Ok (s : list pyfloat) :
  s <> [] -> Forall finite s ->
  exists qt qa,
    fsum s = Fin qt
    /\ float_truediv (fsum s) (List.length s) = Ok (Fin qa).
Proof.
  intros N F. destruct (fsum_finite F) as [qt Eq]. rewrite Eq.
  destruct s as [|x s]; [congruence|]. simpl List.length.
  exists qt, (qt / inject_Z (Z.of_nat (S (List.length s))))%Q.
  split; reflexivity.
Qed.

Lemma _test_docker_connectivity_measured self net p t h d h' :
  _test_docker_connectivity self net p t h = (Ok d, h') ->
  (Docker.docker_success_count d <> O ->
   exists total avg,
     Docker.docker_total_time d = Fin total
     /\ Docker.docker_avg_time d = Fin avg
     /\ float_truediv (Docker.docker_total_time d)
          (Docker.docker_success_count d)
        = Ok (Docker.docker_avg_time d))
  /\ Docker.docker_working d
     = negb (Docker.docker_success_count d =? 0)%nat
       && (66 * List.length (docker_domains self)
           <=? 100 * Docker.docker_success_count d)%nat
  /\ map detail_domain (Docker.docker_details d) = docker_domains self
  /\ Forall well_formed_detail (Docker.docker_details d)
  /\ Docker.docker_success_count d
     = List.length (filter detail_success (Docker.docker_details d))
  /\ Docker.docker_total_time d
     = fsum (detail_times (Docker.docker_details d)).
Proof.
  unfold _test_docker_connectivity. intros E.
  apply bind_Ok in E. destruct E as [[[c s] det] [h1 [E1 E2]]].
  pose proof (docker_loop_Ok _ _ _ _ _ _ _ _ E1) as [_ [El _]].
  apply docker_loop_details in E1.
  destruct E1 as [new [Ed [Dm [Ec [Es W]]]]]. simpl in Ed, Ec, Es, El.
  subst det c s.
  pose proof (detail_times_finite W) as F.
  pose proof (detail_times_length W) as L.
  destruct (detail_times new) as [|x s] eqn:T.
  - apply ret_Ok in E2. destruct E2 as [-> _]. simpl in *.
    rewrite <- L. simpl.
    split; [congruence|]. repeat split; try assumption. now rewrite T.
  - destruct (average_Ok (s := x :: s)) as [qt [qa [Eq Ea]]];
      [discriminate|exact F|].
    apply bind_Ok in E2. destruct E2 as [avg [h2 [E2 E3]]].
    apply lift_Ok in E2. destruct E2 as [E2 ->].
    rewrite Ea in E2. inversion E2; subst avg.
    apply bind_Ok in E3. destruct E3 as [ratio [h3 [E3 E4]]].
    apply lift_Ok in E3. destruct E3 as [E3 ->].
    rewrite int_truediv_Ok in E3 by (simpl in El; lia).
    inversion E3; subst ratio.
    apply ret_Ok in E4. destruct E4 as [-> _].
    cbn [Docker.docker_success_count Docker.docker_total_time
         Docker.docker_avg_time Docker.docker_success_rate
         Docker.docker_working Docker.docker_details].
    rewrite <- L.
    split; [|split;
              [|repeat split; try assumption; try reflexivity;
                now rewrite T]].
    + intros _. exists qt, qa. repeat split; assumption.
    + transitivity
        (66 * List.length (docker_domains self)
         <=? 100 * List.length (x :: s))%nat.
      * apply (rate_threshold 66 (List.length (x :: s))). simpl in El. lia.
      * reflexivity.
Qed.

Lemma _test_dns_server_measured self net server_name info h r h' :
  _test_dns_server self net server_name info h = (Ok r, h') ->
  measured self r.
Proof.
  unfold _test_dns_server. intros E.
  apply bind_Ok in E. destruct E as [p [h0 [_ E]]].
  apply bind_Ok in E. destruct E as [[c s] [h1 [E1 E]]].
  pose proof (general_loop_Ok _ _ _ _ _ _ E1) as [Ec [El _]].
  apply general_loop_finite in E1; [|constructor].
  simpl in Ec, El.
  apply bind_Ok in E. destruct E as [[[[total avg] rate] ok] [h2 [E2 E]]].
  apply bind_Ok in E. destruct E as [d [h3 [E3 E]]].
  apply _test_docker_connectivity_measured in E3.
  destruct E3 as [Da [Dw [Dd [Df [Dc Dt]]]]].
  apply ret_Ok in E. destruct E as [-> _].
  assert (G : (c <> O ->
               exists qt qa,
                 total = Fin qt /\ avg = Fin qa
                 /\ float_truediv total c = Ok avg)
              /\ ok = negb (c =? 0)%nat
                      && (50 * List.length (test_domains self)
                          <=? 100 * c)%nat).
  { destruct s as [|x s].
    - apply ret_Ok in E2. destruct E2 as [E2 _]. inversion E2; subst.
      assert (c = O) by (simpl in Ec; lia). subst c.
      split; [congruence|reflexivity].
    - destruct (average_Ok (s := x :: s)) as [qt [qa [Eq Ea]]];
        [discriminate|exact E1|].
      apply bind_Ok in E2. destruct E2 as [avg' [h4 [E4 E2]]].
      apply lift_Ok in E4. destruct E4 as [E4 ->].
      rewrite Ea in E4. inversion E4; subst avg'.
      apply bind_Ok in E2. destruct E2 as [ratio [h5 [E5 E2]]].
      apply lift_Ok in E5. destruct E5 as [E5 ->].
      rewrite int_truediv_Ok in E5 by (simpl in El; lia).
      inversion E5; subst ratio.
      apply ret_Ok in E2. destruct E2 as [E2 _]. inversion E2; subst.
      assert (C : c = List.length (x :: s)) by (simpl in *; lia).
      split.
      + intros _. exists qt, qa. rewrite C. repeat split; assumption.
      + transitivity
          (50 * List.length (test_domains self) <=? 100 * c)%nat.
        * apply (rate_threshold 50 c). simpl in El. lia.
        * rewrite C. reflexivity. }
  destruct G as [Ga Gw].
  constructor; simpl; try assumption.
  repeat split; assumption.
Qed.

End TesterFacts.

(* ================================================================== *)
(** * The selection loops as a whole *)

Module LoopFacts.
Import Py UstringFacts SelectionFacts.
Local Open Scope string_scope.
Local Open Scope list_scope.

Lemma py_int_Raise s e : py_int s = Raise e -> e = ValueError.
Proof.
  unfold py_int.
  match goal with
  | |- match ?parsed with _ => _ end = _ -> _ => destruct parsed
  end.
  - destruct (_ <? _)%nat; [now intros [= <-]|discriminate].
  - now intros [= <-].
Qed.


Lemma nth_error_enumerate {A : Type} (l : list A) : forall i j x,
  nth_error l j = Some x -> In (i + j, x)%nat (DnsSelector.enumerate l i).
Proof.
  induction l as [|y l IH]; intros i j x E; destruct j; simpl in *;
    try discriminate.
  - inversion E; subst. left. f_equal. lia.
  - right. replace (i + S j)%nat with (S i + j)%nat by lia. now apply IH.
Qed.

Lemma enumerate_nth_error {A : Type} (l : list A) : forall i k x,
  In (k, x) (DnsSelector.enumerate l i) ->
  (i <= k)%nat /\ nth_error l (k - i) = Some x.
Proof.
  induction l as [|y l IH]; intros i k x I; simpl in I; [contradiction|].
  destruct I as [I|I].
  - inversion I; subst. rewrite Nat.sub_diag. now split.
  - apply IH in I. destruct I as [L E]. split; [lia|].
    replace (k - i)%nat with (S (k - S i)) by lia. exact E.
Qed.

Lemma enumerate_eq {A : Type} (l : list A) : forall i,
  MirrorSelector.enumerate l i = DnsSelector.enumerate l i.
Proof.
  induction l as [|y l IH]; intros i; simpl; [reflexivity|]. now rewrite IH.
Qed.

(** *** DNS mode *)




Lemma selection_loop_Some ranked : forall stdin p out,
  DnsSelector.selection_loop ranked stdin = (Ok (Some p), out) ->
  exists r,
    In r ranked
    /\ p = (DnsSelector.primary r, DnsSelector.secondary r)
    /\ In (DnsSelector.Selected r) out.
Proof.
  induction stdin as [|[s|] rest IH]; intros p out E; simpl in E;
    try discriminate.
  destruct (ustring_eqb (lower (strip s)) "q"); [discriminate|].
  destruct (py_int (lower (strip s))) as [k|e'] eqn:P.
  - destruct ((1 <=? k) && (k <=? Z.of_nat (List.length ranked)))%Z eqn:R.
    + destruct (nth_error ranked (Z.to_nat (k - 1))) as [x|] eqn:N;
        [|discriminate].
      inversion E; subst. exists x. split; [|split].
      * eapply nth_error_In; eassumption.
      * reflexivity.
      * right; now left.
    + destruct (DnsSelector.selection_loop ranked rest) as [r out'].
      inversion E; subst. destruct (IH p out' eq_refl) as [x [? [? ?]]].
      exists x. split; [assumption|]. split; [assumption|].
      right; right; assumption.
  - pose proof (py_int_Raise _ P) as ->. simpl in E.
    destruct (DnsSelector.selection_loop ranked rest) as [r out'].
    inversion E; subst. destruct (IH p out' eq_refl) as [x [? [? ?]]].
    exists x. split; [assumption|]. split; [assumption|].
    right; right; assumption.
Qed.

(** Typing the number of a row selects the entry of that row. *)
Lemma selection_loop_row ranked s rest i r :
  In (i, r) (DnsSelector.enumerate ranked 1) ->
  py_int (lower (strip s)) = Ok (Z.of_nat i) ->
  DnsSelector.selection_loop ranked (Line s :: rest)
  = (Ok (Some (DnsSelector.primary r, DnsSelector.secondary r)),
     [DnsSelector.Prompt (List.length ranked); DnsSelector.Selected r]).
Proof.
  intros I P.
  apply enumerate_nth_error in I. destruct I as [L N].
  assert (B : (i - 1 < List.length ranked)%nat).
  { apply nth_error_Some. congruence. }
  simpl.
  destruct (ustring_eqb (lower (strip s)) "q") eqn:Q.
  { apply ustring_eqb_eq in Q. rewrite Q in P. vm_compute in P.
    discriminate. }
  rewrite P.
  replace ((1 <=? Z.of_nat i) && (Z.of_nat i <=? Z.of_nat (List.length ranked)))%Z
    with true
    by (symmetry; apply andb_true_iff; split; apply Z.leb_le; lia).
  replace (Z.to_nat (Z.of_nat i - 1)) with (i - 1)%nat by lia.
  now rewrite N.
Qed.

(** The loop prints no recommendation. *)
Lemma selection_loop_no_Recommended ranked : forall stdin b,
  ~ In (DnsSelector.Recommended b)
      (snd (DnsSelector.selection_loop ranked stdin)).
Proof.
  induction stdin as [|[s|] rest IH]; intros b I; simpl in I.
  - destruct I as [I|[]]; discriminate.
  - destruct (ustring_eqb (lower (strip s)) "q").
    { destruct I as [I|[I|[]]]; discriminate. }
    destruct (py_int (lower (strip s))) as [k|e'] eqn:P.
    + destruct ((1 <=? k) && (k <=? Z.of_nat (List.length ranked)))%Z.
      * destruct (nth_error ranked (Z.to_nat (k - 1))).
        -- destruct I as [I|[I|[]]]; discriminate.
        -- destruct I as [I|[]]; discriminate.
      * specialize (IH b).
        destruct (DnsSelector.selection_loop ranked rest) as [r out].
        destruct I as [I|[I|I]]; try discriminate. now apply IH.
    + pose proof (py_int_Raise _ P) as ->. simpl in I. specialize (IH b).
      destruct (DnsSelector.selection_loop ranked rest) as [r out].
      destruct I as [I|[I|I]]; try discriminate. now apply IH.
  - destruct I as [I|[I|[]]]; discriminate.
Qed.

(** The first entry of a list that satisfies [f]. *)
Lemma filter_head {A : Type} (f : A -> bool) (l : list A) (b : A) :
  (exists tl, filter f l = b :: tl)
  <-> exists pre post,
        l = pre ++ b :: post
        /\ Forall (fun x => f x = false) pre /\ f b = true.
Proof.
  split.
  - induction l as [|x l IH]; intros [tl E]; simpl in E; [discriminate|].
    destruct (f x) eqn:X.
    + inversion E; subst. exists [], l. now repeat split.
    + destruct IH as [pre [post [-> [F B]]]]; [now exists tl|].
      exists (x :: pre), post. repeat split; [|assumption].
      now constructor.
  - intros [pre [post [-> [F B]]]].
    induction pre as [|x pre IH]; simpl.
    + rewrite B. eauto.
    + inversion F; subst. replace (f x) with false by easy. now apply IH.
Qed.

(** *** Registry mode *)



(** A mirror is returned on two lines: the number of its row, then a
    confirmation. *)
Lemma choice_loop_Some ranked : forall n stdin sel out,
  (List.length stdin <= n)%nat ->
  MirrorSelector.choice_loop ranked stdin = (Ok (Some sel), out) ->
  In (MirrorSelector.Chosen sel) out
  /\ exists pre s c rest k,
       stdin = pre ++ Line s :: Line c :: rest
       /\ py_int (lower (strip s)) = Ok k
       /\ (1 <= k)%Z
       /\ nth_error ranked (Z.to_nat (k - 1)) = Some sel
       /\ MirrorSelector.confirmed (lower (strip c)) = true.
Proof.
  induction n as [|n IH]; intros stdin sel out L E.
  { destruct stdin; [discriminate|simpl in L; lia]. }
  destruct stdin as [|[s|] rest]; simpl in E; try discriminate.
  simpl in L.
  assert (K : forall skipped tl r out',
            (List.length tl <= n)%nat ->
            rest = skipped ++ tl ->
            MirrorSelector.choice_loop ranked tl = (r, out') ->
            r = Ok (Some sel) ->
            In (MirrorSelector.Chosen sel) out'
            /\ exists pre s' c rest' k,
                 Line s :: rest = pre ++ Line s' :: Line c :: rest'
                 /\ py_int (lower (strip s')) = Ok k
                 /\ (1 <= k)%Z
                 /\ nth_error ranked (Z.to_nat (k - 1)) = Some sel
                 /\ MirrorSelector.confirmed (lower (strip c)) = true).
  { intros skipped tl r out' Lt -> C ->.
    destruct (IH tl sel out' Lt C)
      as [I [pre [s' [c [rest' [k [-> [P [K1 [N Y]]]]]]]]]].
    split; [exact I|].
    exists (Line s :: skipped ++ pre), s', c, rest', k.
    split; [simpl; now rewrite <- app_assoc|]. now repeat split. }
  destruct (ustring_eqb (lower (strip s)) "q"); [discriminate|].
  destruct (ustring_eqb (lower (strip s)) "0"); [discriminate|].
  destruct (py_int (lower (strip s))) as [k|e'] eqn:P.
  - destruct ((1 <=? k) && (k <=? Z.of_nat (List.length ranked)))%Z eqn:R.
    + destruct (nth_error ranked (Z.to_nat (k - 1))) as [x|] eqn:N;
        [|discriminate].
      destruct rest as [|[c|] rest']; try discriminate.
      destruct (MirrorSelector.confirmed (lower (strip c))) eqn:Y.
      * inversion E; subst. split; [right; now left|].
        exists [], s, c, rest', k.
        apply andb_true_iff in R. destruct R as [R _]. apply Z.leb_le in R.
        now repeat split.
      * simpl in L.
        destruct (MirrorSelector.choice_loop ranked rest') as [r out'] eqn:C.
        inversion E; subst.
        destruct (K [Line c] rest' (Ok (Some sel)) out') as [I X];
          [lia|reflexivity|exact C|reflexivity|].
        split; [|exact X]. right; right; right; exact I.
    + destruct (MirrorSelector.choice_loop ranked rest) as [r out'] eqn:C.
      inversion E; subst.
      destruct (K [] rest (Ok (Some sel)) out') as [I X];
        [lia|reflexivity|exact C|reflexivity|].
      split; [|exact X]. right; right; exact I.
  - pose proof (py_int_Raise _ P) as ->. simpl in E.
    destruct (MirrorSelector.choice_loop ranked rest) as [r out'] eqn:C.
    inversion E; subst.
    destruct (K [] rest (Ok (Some sel)) out') as [I X];
      [lia|reflexivity|exact C|reflexivity|].
    split; [|exact X]. right; right; exact I.
Qed.

(** The branch of a valid number: the entry of that row is shown, then the
    confirmation is read. *)
Lemma choice_loop_number ranked s rest i r :
  In (i, r) (MirrorSelector.enumerate ranked 1) ->
  py_int (lower (strip s)) = Ok (Z.of_nat i) ->
  MirrorSelector.choice_loop ranked (Line s :: rest)
  = match rest with
    | [] =>
        (Raise EOFError,
         [MirrorSelector.Menu (List.length ranked); MirrorSelector.Chosen r])
    | Interrupt :: _ =>
        (Raise KeyboardInterrupt,
         [MirrorSelector.Menu (List.length ranked); MirrorSelector.Chosen r])
    | Line c :: rest' =>
        if MirrorSelector.confirmed (lower (strip c)) then
          (Ok (Some r),
           [MirrorSelector.Menu (List.length ranked);
            MirrorSelector.Chosen r])
        else
          (fst (MirrorSelector.choice_loop ranked rest'),
           MirrorSelector.Menu (List.length ranked)
           :: MirrorSelector.Chosen r :: MirrorSelector.SelectionCancelled
           :: snd (MirrorSelector.choice_loop ranked rest'))
    end.
Proof.
  intros I P. rewrite enumerate_eq in I.
  apply enumerate_nth_error in I. destruct I as [L N].
  assert (B : (i - 1 < List.length ranked)%nat).
  { apply nth_error_Some. congruence. }
  simpl.
  destruct (ustring_eqb (lower (strip s)) "q") eqn:Q.
  { apply ustring_eqb_eq in Q. rewrite Q in P. vm_compute in P.
    discriminate. }
  destruct (ustring_eqb (lower (strip s)) "0") eqn:Z0.
  { apply ustring_eqb_eq in Z0. rewrite Z0 in P.
    change (py_int "0") with (Ok 0%Z) in P. injection P as P. lia. }
  rewrite P.
  replace ((1 <=? Z.of_nat i) && (Z.of_nat i <=? Z.of_nat (List.length ranked)))%Z
    with true
    by (symmetry; apply andb_true_iff; split; apply Z.leb_le; lia).
  replace (Z.to_nat (Z.of_nat i - 1)) with (i - 1)%nat by lia.
  rewrite N.
  destruct rest as [|[c|] rest']; try reflexivity.
  destruct (MirrorSelector.confirmed (lower (strip c))); [reflexivity|].
  now destruct (MirrorSelector.choice_loop ranked rest').
Qed.

End LoopFacts.

(* ================================================================== *)
(** * From the configuration to the selection *)

Module PipelineFacts.
Import Py DnsSelector DnsFacts SchedulerFacts TesterFacts.
Local Open Scope string_scope.
Local Open Scope list_scope.

(** Every dict the scheduler returns is what the tester of a configured
    server returned in its thread. *)
Lemma test_all_dns_servers_future self nets completion results r :
  fst (test_all_dns_servers self nets completion) = Ok results ->
  In r results ->
  exists server_name info,
    In (server_name, info) (dns_servers self)
    /\ future_of self nets server_name info = Ok r.
Proof.
  intros E I.
  rewrite (proj1 (test_all_dns_servers_eq self nets completion)) in E.
  apply collect_Ok in E. simpl in E. subst results.
  apply returned_In in I. destruct I as [n I].
  apply as_completed_In in I. apply in_map_iff in I.
  destruct I as [[server_name info] [S I]].
  exists server_name, info. split; [exact I|].
  unfold submit in S. simpl in S. now inversion S.
Qed.

Lemma future_of_Ok self nets server_name info r :
  future_of self nets server_name info = Ok r ->
  tested self server_name info r /\ measured self r.
Proof.
  unfold future_of.
  destruct (_test_dns_server self (nets server_name) server_name info [])
    as [o h'] eqn:T.
  simpl. intros ->. split.
  - now apply _test_dns_server_Ok in T.
  - now apply _test_dns_server_measured in T.
Qed.

Lemma Forall2_In_r {A B : Type} (P : A -> B -> Prop) l l' y :
  Forall2 P l l' -> In y l' -> exists x, In x l /\ P x y.
Proof.
  induction 1 as [|a b l l' H F IH]; intros I; [contradiction|].
  destruct I as [<-|I].
  - exists a. split; [now left|assumption].
  - destruct (IH I) as [x [? ?]]. exists x. split; [now right|assumption].
Qed.

End PipelineFacts.

(* ================================================================== *)
(** * The registry run as a whole *)

Module RegistryRunFacts.
Import Py IoFacts MirrorSelector MirrorFacts.
Local Open Scope string_scope.
Local Open Scope list_scope.

(** The requests behind one returned dict: the [/v2/] check, then the
    manifest when that check succeeded. *)
Definition requests_of (r : registry_result) : list request :=
  connectivity_request (mirror r) 10
  :: (if connectivity_success r then [hub_request (mirror r) 15] else []).

Lemma tested_requests_of reg r reqs :
  mirror r = reg_mirror reg -> tested reg r reqs -> reqs = requests_of r.
Proof.
  intros M T. unfold requests_of. rewrite M.
  destruct T as [C _ _ _ _ _|C _ _ _ _ _|C _ _ _ _ _]; now rewrite C.
Qed.

Lemma test_registries_history net mirrors : forall h results h',
  test_registries net mirrors h = (Ok results, h') ->
  Forall2
    (fun reg r =>
       name r = reg_name reg /\ mirror r = reg_mirror reg
       /\ insecure r = reg_insecure reg)
    mirrors results
  /\ h' = h ++ flat_map requests_of results.
Proof.
  induction mirrors as [|reg rest IH]; intros h results h' E; simpl in E.
  - apply ret_Ok in E. destruct E as [-> ->]. split; [constructor|].
    simpl. now rewrite app_nil_r.
  - apply bind_Ok in E. destruct E as [r [h1 [E1 E]]].
    apply bind_Ok in E. destruct E as [rs [h2 [E2 E]]].
    apply ret_Ok in E. destruct E as [-> ->].
    apply _test_single_registry_Ok in E1.
    destruct E1 as [N [M [I [reqs [T ->]]]]].
    apply IH in E2. destruct E2 as [F ->].
    split; [constructor; [now repeat split|exact F]|].
    simpl. rewrite (tested_requests_of M T). now rewrite <- app_assoc.
Qed.

Lemma rstrip_if_snoc p s c :
  p c = true -> rstrip_if p (s ++ String c EmptyString) = rstrip_if p s.
Proof.
  intros Pc. induction s as [|d s IH]; simpl.
  - now rewrite Pc.
  - now rewrite IH.
Qed.

Lemma prefix_append p s : String.prefix p (p ++ s) = true.
Proof.
  induction p as [|c p IH]; simpl.
  - now destruct s.
  - destruct (ascii_dec c c) as [_|N]; [exact IH|now elim N].
Qed.

End RegistryRunFacts.

(* ================================================================== *)
(** * Applying the DNS selection *)

Module ApplyFacts.
Import Py Sys DnsApply.
Local Open Scope string_scope.
Local Open Scope list_scope.

Definition backup : list string :=
  ["sudo"; "cp"; "/etc/resolv.conf"; "/etc/resolv.conf.backup"].

Definition install : list string :=
  ["sudo"; "cp"; "/tmp/resolv.conf.new"; "/etc/resolv.conf"].

Definition remove : list string := ["rm"; "/tmp/resolv.conf.new"].

(** The four calls of a complete run of [apply_dns_settings], in order. *)
Definition steps (primary_dns secondary_dns : string) : list action :=
  [ Run backup;
    WriteText "/tmp/resolv.conf.new"
      (resolv_conf_content primary_dns secondary_dns);
    Run install;
    Run remove ].

(** A call of [subprocess.run(check=True)] that went through. *)
Definition succeeded (r : outcome Z) : Prop := r = Returns 0%Z.

Lemma succeeded_dec (r : outcome Z) : {succeeded r} + {~ succeeded r}.
Proof.
  unfold succeeded. destruct r as [z|e]; [|right; discriminate].
  destruct (Z.eq_dec z 0) as [->|N]; [now left|right].
  intros E. now inversion E.
Qed.

Lemma run_checked_succeeded sys argv h :
  succeeded (subprocess_run sys h argv) ->
  run_checked sys argv h = (Returns 0%Z, h ++ [Run argv]).
Proof.
  unfold succeeded, run_checked, bind, run. now intros ->.
Qed.

Lemma run_checked_failed sys argv h :
  ~ succeeded (subprocess_run sys h argv) ->
  exists e, run_checked sys argv h = (Raises e, h ++ [Run argv])
            /\ (e = CalledProcessError
                \/ subprocess_run sys h argv = Raises e).
Proof.
  unfold succeeded, run_checked, bind, run. intros N.
  destruct (subprocess_run sys h argv) as [z|e].
  - destruct (Z.eqb_spec z 0) as [->|Nz]; [now elim N|].
    exists CalledProcessError. split; [reflexivity|now left].
  - exists e. split; [reflexivity|now right].
Qed.

(** What [subprocess.run(check=True)] makes of the outcome of the
    process. *)
Definition checked (r : outcome Z) : outcome Z :=
  match r with
  | Returns status =>
      if (status =? 0)%Z then Returns status else Raises CalledProcessError
  | Raises e => Raises e
  end.

Lemma run_checked_eq sys argv h :
  run_checked sys argv h
  = (checked (subprocess_run sys h argv), h ++ [Run argv]).
Proof.
  unfold run_checked, bind, run, checked.
  destruct (subprocess_run sys h argv) as [z|e]; [|reflexivity].
  now destruct (z =? 0)%Z.
Qed.

(** What the two clauses of lines 286-291 make of an exception. *)
Lemma handlers_of_apply e h :
  dispatch
    [ (isinstance_CalledProcessError, ret false);
      (isinstance_Exception, ret false) ] e h
  = if isinstance_Exception e then (Returns false, h) else (Raises e, h).
Proof. destruct e as [[]| | | |]; reflexivity. Qed.

End ApplyFacts.

(* ================================================================== *)
(** * The DNS command *)

Module DnsMainFacts.
Import Py Sys DnsApply LoopFacts.
Local Open Scope string_scope.
Local Open Scope list_scope.






End DnsMainFacts.

(* ================================================================== *)
(** * Configuring the daemon *)

Module ConfigureFacts.
Import Py Sys MirrorConfigure.
Local Open Scope string_scope.
Local Open Scope list_scope.

Lemma dict_get_set_same entries k v :
  dict_get (dict_set entries k v) k = Some v.
Proof.
  induction entries as [|[k' v'] rest IH]; simpl.
  - now rewrite String.eqb_refl.
  - destruct (String.eqb k' k) eqn:E; simpl.
    + now rewrite String.eqb_refl.
    + now rewrite E.
Qed.

Lemma dict_get_set_other entries k v k' :
  k' <> k -> dict_get (dict_set entries k v) k' = dict_get entries k'.
Proof.
  intros N. induction entries as [|[k0 v0] rest IH]; simpl.
  - destruct (String.eqb_spec k k'); [congruence|reflexivity].
  - destruct (String.eqb_spec k0 k) as [->|N0]; simpl.
    + destruct (String.eqb_spec k k'); [congruence|reflexivity].
    + destruct (String.eqb k0 k'); [reflexivity|exact IH].
Qed.

Lemma dict_set_present entries k v :
  dict_get entries k = Some v -> dict_set entries k v = entries.
Proof.
  induction entries as [|[k' v'] rest IH]; simpl; [discriminate|].
  destruct (String.eqb_spec k' k) as [->|N].
  - now intros [= ->].
  - intros E. now rewrite IH.
Qed.

(** Assignment keeps the keys in their order; a new key goes last. *)
Lemma dict_set_keys entries k v :
  map fst (dict_set entries k v)
  = match dict_get entries k with
    | Some _ => map fst entries
    | None => map fst entries ++ [k]
    end.
Proof.
  induction entries as [|[k' v'] rest IH]; simpl; [reflexivity|].
  destruct (String.eqb_spec k' k) as [->|N]; simpl; [reflexivity|].
  rewrite IH. now destruct (dict_get rest k).
Qed.

Definition mirrors_key : string := "registry-mirrors".
Definition insecure_key : string := "insecure-registries".

(** The value lines 200-204 leave under ['insecure-registries'], given
    the one they found. *)
Definition insecure_after (mirror : string) (before : option json) : json :=
  match before with
  | None => JList [JString mirror]
  | Some (JList items) =>
      JList (if existsb (fun x => eq_str x mirror) items then items
             else items ++ [JString mirror])
  | Some other => other
  end.

Lemma existsb_snoc {A : Type} (f : A -> bool) l x :
  f x = true -> existsb f (l ++ [x]) = true.
Proof.
  intros F. rewrite existsb_app. simpl. rewrite F.
  now rewrite orb_true_r.
Qed.

Lemma add_insecure_Returns entries mirror d' :
  add_insecure entries mirror = Returns d' ->
  exists entries',
    d' = JDict entries'
    /\ dict_get entries' insecure_key
       = Some (insecure_after mirror (dict_get entries insecure_key))
    /\ (forall k, k <> insecure_key ->
                  dict_get entries' k = dict_get entries k)
    /\ add_insecure entries' mirror = Returns d'.
Proof.
  intros E.
  assert (R : forall e v,
            dict_get e insecure_key = Some v ->
            not_in mirror v = Returns false ->
            add_insecure e mirror = Returns (JDict e)).
  { intros e v Gv Nv. unfold add_insecure. fold insecure_key.
    rewrite Gv. cbv beta iota. rewrite Gv, Nv. reflexivity. }
  unfold add_insecure in E. fold insecure_key in E.
  destruct (dict_get entries insecure_key) as [v|] eqn:G.
  - rewrite G in E.
    destruct (not_in mirror v) as [[|]|e] eqn:Nv; [| |discriminate].
    + destruct v as [| | | s|items|d]; try discriminate.
      inversion E; subst d'. clear E.
      unfold not_in in Nv. injection Nv as Nv.
      apply negb_true_iff in Nv.
      exists (dict_set entries insecure_key
                (JList (items ++ [JString mirror]))).
      rewrite dict_get_set_same. unfold insecure_after. rewrite Nv.
      split; [reflexivity|]. split; [reflexivity|].
      split; [intros k N; now apply dict_get_set_other|].
      apply R with (v := JList (items ++ [JString mirror])).
      * apply dict_get_set_same.
      * unfold not_in. rewrite existsb_snoc; [reflexivity|].
        simpl. apply String.eqb_refl.
    + inversion E; subst d'. clear E. exists entries.
      split; [reflexivity|].
      split.
      { rewrite G. f_equal. unfold insecure_after.
        destruct v as [| | | s|items|d]; try reflexivity.
        unfold not_in in Nv. injection Nv as Nv.
        apply negb_false_iff in Nv. now rewrite Nv. }
      split; [reflexivity|]. now apply R with (v := v).
  - rewrite dict_get_set_same in E.
    unfold not_in, existsb, negb, append in E. simpl app in E.
    inversion E; subst d'. clear E.
    exists (dict_set (dict_set entries insecure_key (JList [])) insecure_key
              (JList [JString mirror])).
    rewrite dict_get_set_same.
    split; [reflexivity|]. split; [reflexivity|].
    split; [intros k N; now rewrite !dict_get_set_other|].
    apply R with (v := JList [JString mirror]).
    + apply dict_get_set_same.
    + unfold not_in. simpl. now rewrite String.eqb_refl.
Qed.

Lemma update_Returns daemon_config selected_mirror d' :
  update daemon_config selected_mirror = Returns d' ->
  exists entries entries',
    daemon_config = JDict entries
    /\ d' = JDict entries'
    /\ dict_get entries' "registry-mirrors"
       = Some (JList [JString (MirrorSelector.mirror selected_mirror)])
    /\ (forall k,
          k <> "registry-mirrors" -> k <> "insecure-registries" ->
          dict_get entries' k = dict_get entries k)
    /\ dict_get entries' "insecure-registries"
       = (if MirrorSelector.insecure selected_mirror then
            Some (insecure_after (MirrorSelector.mirror selected_mirror)
                    (dict_get entries "insecure-registries"))
          else dict_get entries "insecure-registries")
    /\ update d' selected_mirror = Returns d'.
Proof.
  set (mirror := MirrorSelector.mirror selected_mirror).
  intros E. unfold update in E. fold mirror in E.
  destruct daemon_config as [| | | | |entries]; try discriminate.
  simpl in E. exists entries.
  set (e1 := dict_set entries "registry-mirrors" (JList [JString mirror]))
    in *.
  assert (G1 : dict_get e1 "registry-mirrors"
               = Some (JList [JString mirror]))
    by apply dict_get_set_same.
  assert (O1 : forall k, k <> "registry-mirrors" ->
                         dict_get e1 k = dict_get entries k)
    by (intros k N; now apply dict_get_set_other).
  destruct (MirrorSelector.insecure selected_mirror) eqn:I.
  - apply add_insecure_Returns in E.
    destruct E as [entries' [-> [G [O A]]]].
    unfold insecure_key in G, O.
    exists entries'. split; [reflexivity|]. split; [reflexivity|].
    split; [rewrite O; [exact G1|discriminate]|].
    split; [intros k N1 N2; rewrite O, O1; auto|].
    split; [rewrite G, O1; [reflexivity|discriminate]|].
    unfold update. fold mirror. simpl. rewrite I.
    rewrite dict_set_present; [exact A|].
    rewrite O; [exact G1|discriminate].
  - inversion E; subst d'. exists e1.
    split; [reflexivity|]. split; [reflexivity|]. split; [exact G1|].
    split; [intros k N1 N2; now apply O1|].
    split; [apply O1; discriminate|].
    unfold update. fold mirror. simpl. rewrite I.
    now rewrite dict_set_present.
Qed.

Lemma update_non_dict daemon_config selected_mirror :
  (forall entries, daemon_config <> JDict entries) ->
  update daemon_config selected_mirror = Raises TypeError.
Proof.
  intros N. destruct daemon_config; try reflexivity. now elim (N entries).
Qed.

Definition restart : list string := ["systemctl"; "restart"; "docker"].

Definition info : list string := ["docker"; "info"].

(** The calls that put a new content [value] in place, in order. *)
Definition installation (path : string) (value : json) : list action :=
  [DumpJson path value; Run restart; Sleep 5; Run info].

(** Lines 207-228: writing the new content and restarting the daemon. *)
Definition install_config (sys : system) (path : string) (value : json)
    : sysio bool :=
  bind (dump sys path value) (fun _ =>
  bind (run sys restart) (fun returncode =>
  if negb (returncode =? 0)%Z then ret false
  else
    bind (sleep sys 5) (fun _ =>
    bind (run sys info) (fun returncode =>
    if negb (returncode =? 0)%Z then ret false else ret true)))).

(** Lines 188-194: the content of [daemon.json] the update starts from. *)
Definition read_config (sys : system) (path : string) : sysio json :=
  bind (exists_ sys path) (fun present =>
  if present : bool then
    try_except (load sys path) [ (isinstance_JSONDecodeError, ret (JDict [])) ]
  else ret (JDict [])).

Lemma _configure_docker_daemon_eq sys path selected_mirror h :
  _configure_docker_daemon sys path selected_mirror h
  = try_except
      (bind (read_config sys path) (fun daemon_config =>
       bind (lift (update daemon_config selected_mirror))
         (install_config sys path)))
      [ (isinstance_Exception, ret false) ] h.
Proof.
  unfold _configure_docker_daemon, read_config, try_except, bind, exists_.
  destruct (path_exists sys h path) as [[|]|e]; reflexivity.
Qed.

Lemma read_config_reads sys path h :
  exists reads,
    snd (read_config sys path h) = h ++ reads
    /\ (reads = [PathExists path] \/ reads = [PathExists path; LoadJson path])
    /\ (path_exists sys h path = Returns true ->
        reads = [PathExists path; LoadJson path]
        /\ (forall loaded,
              json_load sys (h ++ [PathExists path]) path = Returns loaded ->
              fst (read_config sys path h) = Returns loaded)
        /\ (json_load sys (h ++ [PathExists path]) path
            = Raises JSONDecodeError ->
            fst (read_config sys path h) = Returns (JDict [])))
    /\ (path_exists sys h path = Returns false ->
        reads = [PathExists path]
        /\ fst (read_config sys path h) = Returns (JDict [])).
Proof.
  unfold read_config, bind, exists_, try_except, load.
  destruct (path_exists sys h path) as [[|]|e].
  - exists [PathExists path; LoadJson path].
    destruct (json_load sys (h ++ [PathExists path]) path) as [v|e].
    + simpl. rewrite <- app_assoc.
      split; [reflexivity|]. split; [now right|].
      split; [|discriminate]. intros _.
      split; [reflexivity|]. split; [now intros ? [= ->]|discriminate].
    + destruct e as [e| | | |]; simpl; rewrite <- app_assoc;
        (split; [reflexivity|]); (split; [now right|]);
        (split; [|discriminate]); intros _;
        (split; [reflexivity|]);
        (split; [discriminate|]); try discriminate; reflexivity.
  - exists [PathExists path]. simpl.
    split; [reflexivity|]. split; [now left|].
    split; [discriminate|]. now intros _.
  - exists [PathExists path]. simpl.
    split; [reflexivity|]. split; [now left|].
    split; discriminate.
Qed.

Lemma install_config_steps sys path value h :
  let status_restart :=
    subprocess_run sys (h ++ [DumpJson path value]) restart in
  let status_info :=
    subprocess_run sys
      (h ++ [DumpJson path value; Run restart; Sleep 5]) info in
  exists k,
    (1 <= k <= 4)%nat
    /\ snd (install_config sys path value h)
       = h ++ firstn k (installation path value)
    /\ ((2 <= k)%nat -> json_dump sys h path value = Returns tt)
    /\ ((3 <= k)%nat -> status_restart = Returns 0%Z)
    /\ (fst (install_config sys path value h) = Returns true
        <-> k = 4%nat /\ status_info = Returns 0%Z).
Proof.
  intros status_restart status_info. subst status_restart status_info.
  unfold install_config, bind, dump, run, sleep, ret. cbv beta.
  destruct (json_dump sys h path value) as [[]|e]; cbv beta iota.
  2: { exists 1%nat. simpl. split; [lia|]. split; [reflexivity|].
       split; [lia|]. split; [lia|]. split; [discriminate|].
       intros [? _]; discriminate. }
  destruct (subprocess_run sys (h ++ [DumpJson path value]) restart)
    as [z|e] eqn:R; cbv beta iota.
  2: { exists 2%nat. simpl. split; [lia|].
       split; [now rewrite <- app_assoc|].
       split; [reflexivity|]. split; [lia|]. split; [discriminate|].
       intros [? _]; discriminate. }
  destruct (Z.eqb_spec z 0) as [->|N]; cbn [negb]; cbv beta iota.
  2: { exists 2%nat. simpl. split; [lia|].
       split; [now rewrite <- app_assoc|].
       split; [reflexivity|]. split; [lia|]. split; [discriminate|].
       intros [? _]; discriminate. }
  destruct (time_sleep sys ((h ++ [DumpJson path value]) ++ [Run restart]) 5)
    as [[]|e]; cbv beta iota.
  2: { exists 3%nat. simpl. split; [lia|].
       split; [now rewrite <- !app_assoc|].
       split; [reflexivity|]. split; [reflexivity|]. split; [discriminate|].
       intros [? _]; discriminate. }
  replace (((h ++ [DumpJson path value]) ++ [Run restart]) ++ [Sleep 5])
    with (h ++ [DumpJson path value; Run restart; Sleep 5])
    by now rewrite <- !app_assoc.
  exists 4%nat.
  split; [lia|].
  destruct (subprocess_run sys
              (h ++ [DumpJson path value; Run restart; Sleep 5]) info)
    as [z|e] eqn:I; cbv beta iota.
  - destruct (Z.eqb_spec z 0) as [->|N]; simpl.
    + split; [now rewrite <- !app_assoc|].
      split; [reflexivity|]. split; [reflexivity|]. now split.
    + split; [now rewrite <- !app_assoc|].
      split; [reflexivity|]. split; [reflexivity|].
      split; [discriminate|]. intros [_ Q]. inversion Q. contradiction.
  - simpl. split; [now rewrite <- !app_assoc|].
    split; [reflexivity|]. split; [reflexivity|].
    split; [discriminate|]. intros [_ Q]. discriminate Q.
Qed.

(** The configuration the update starts from (lines 186-194), by what
    [os.path.exists] and [json.load] gave: an empty dict when there is no
    file or when its content is not JSON, the content of the file
    otherwise. *)
Definition started (present : outcome bool) (loaded : outcome json)
    (config : json) : Prop :=
  (present = Returns false /\ config = JDict [])
  \/ (present = Returns true /\ loaded = Returns config)
  \/ (present = Returns true /\ loaded = Raises JSONDecodeError
      /\ config = JDict []).

Lemma read_config_eq sys path h :
  read_config sys path h
  = match path_exists sys h path with
    | Returns true =>
        (match json_load sys (h ++ [PathExists path]) path with
         | Returns config => Returns config
         | Raises e =>
             if isinstance_JSONDecodeError e then Returns (JDict [])
             else Raises e
         end,
         h ++ [PathExists path; LoadJson path])
    | Returns false => (Returns (JDict []), h ++ [PathExists path])
    | Raises e => (Raises e, h ++ [PathExists path])
    end.
Proof.
  unfold read_config, bind, exists_, try_except, load.
  destruct (path_exists sys h path) as [[|]|e]; try reflexivity.
  rewrite <- app_assoc. simpl.
  destruct (json_load sys (h ++ [PathExists path]) path) as [v|e];
    [reflexivity|].
  simpl. now destruct (isinstance_JSONDecodeError e).
Qed.

(** Brings the next call of a computation into view, under the name [x]
    of its outcome. *)
Ltac next_call x :=
  cbv beta iota; rewrite <- ?app_assoc; cbn [app negb];
  try (fold x; clearbody x).

(** Splits a conjunction of clauses into its implications. *)
Ltac clauses :=
  repeat match goal with
         | |- _ /\ _ => split
         | |- _ <-> _ => split
         | |- forall _, _ => intro
         end.

(** Closes the case where the computation made [k] calls. *)
Ltac stopped_after k :=
  next_call tt; exists k; cbn [fst snd];
  (split; [lia|]); (split; [reflexivity|]);
  clauses; solve [intuition (try lia; try congruence)].

(** The calls of [install_config], one by one: each is made exactly when
    the one before went through. *)
Lemma install_config_calls sys path value h :
  let dumped := json_dump sys h path value in
  let restarted := subprocess_run sys (h ++ [DumpJson path value]) restart in
  let slept :=
    time_sleep sys (h ++ [DumpJson path value; Run restart]) 5 in
  let verified :=
    subprocess_run sys
      (h ++ [DumpJson path value; Run restart; Sleep 5]) info in
  exists k,
    (1 <= k <= 4)%nat
    /\ snd (install_config sys path value h)
       = h ++ firstn k (installation path value)
    /\ ((2 <= k)%nat <-> dumped = Returns tt)
    /\ ((3 <= k)%nat <-> (2 <= k)%nat /\ restarted = Returns 0%Z)
    /\ (k = 4%nat <-> (3 <= k)%nat /\ slept = Returns tt)
    /\ (fst (install_config sys path value h) = Returns true
        <-> k = 4%nat /\ verified = Returns 0%Z)
    /\ (forall e,
          fst (install_config sys path value h) = Raises e
          <-> dumped = Raises e
              \/ ((2 <= k)%nat /\ restarted = Raises e)
              \/ ((3 <= k)%nat /\ slept = Raises e)
              \/ (k = 4%nat /\ verified = Raises e)).
Proof.
  intros dumped restarted slept verified.
  unfold install_config, bind, dump, run, sleep, ret. cbv beta.
  fold dumped. clearbody dumped.
  destruct dumped as [[]|e1]; [|stopped_after 1%nat].
  next_call restarted.
  destruct restarted as [z2|e2]; [|stopped_after 2%nat].
  destruct (Z.eqb_spec z2 0) as [->|N2];
    [|stopped_after 2%nat].
  next_call slept.
  destruct slept as [[]|e3]; [|stopped_after 3%nat].
  next_call verified.
  destruct verified as [z4|e4]; [|stopped_after 4%nat].
  destruct (Z.eqb_spec z4 0) as [->|N4]; stopped_after 4%nat.
Qed.

(** What the clause of lines 231-233 makes of the body of the [try]. *)
Definition handled (r : outcome bool * list action)
    : outcome bool * list action :=
  match r with
  | (Returns a, h) => (Returns a, h)
  | (Raises e, h) =>
      if isinstance_Exception e then (Returns false, h) else (Raises e, h)
  end.

(** Lines 196-228, from the configuration read. *)
Definition configure_with (sys : system) (path : string)
    (selected_mirror : MirrorSelector.registry_result) (config : json)
    : sysio bool :=
  bind (lift (update config selected_mirror)) (install_config sys path).

Lemma _configure_docker_daemon_handled sys path selected_mirror h :
  _configure_docker_daemon sys path selected_mirror h
  = match read_config sys path h with
    | (Returns config, h1) =>
        handled (configure_with sys path selected_mirror config h1)
    | (Raises e, h1) => handled (Raises e, h1)
    end.
Proof.
  rewrite _configure_docker_daemon_eq.
  unfold configure_with, try_except, bind, handled, lift.
  destruct (read_config sys path h) as [[config|e] h1].
  - destruct (update config selected_mirror) as [value|e].
    + destruct (install_config sys path value h1) as [[b|e] h2];
        [reflexivity|]. simpl. now destruct (isinstance_Exception e).
    + simpl. now destruct (isinstance_Exception e).
  - simpl. now destruct (isinstance_Exception e).
Qed.

(** The calls of lines 196-228, one by one. *)
Lemma configure_with_calls sys path selected_mirror config h :
  let r := handled (configure_with sys path selected_mirror config h) in
  exists k value,
    let dumped := json_dump sys h path value in
    let restarted :=
      subprocess_run sys (h ++ [DumpJson path value]) restart in
    let slept :=
      time_sleep sys (h ++ [DumpJson path value; Run restart]) 5 in
    let verified :=
      subprocess_run sys
        (h ++ [DumpJson path value; Run restart; Sleep 5]) info in
    (k <= 4)%nat
    /\ snd r = h ++ firstn k (installation path value)
    /\ ((1 <= k)%nat -> update config selected_mirror = Returns value)
    /\ (forall v,
          update config selected_mirror = Returns v ->
          (1 <= k)%nat /\ value = v)
    /\ ((2 <= k)%nat <-> (1 <= k)%nat /\ dumped = Returns tt)
    /\ ((3 <= k)%nat <-> (2 <= k)%nat /\ restarted = Returns 0%Z)
    /\ (k = 4%nat <-> (3 <= k)%nat /\ slept = Returns tt)
    /\ (fst r = Returns true <-> k = 4%nat /\ verified = Returns 0%Z)
    /\ (forall e,
          fst r = Raises e
          <-> isinstance_Exception e = false
              /\ (update config selected_mirror = Raises e
                  \/ ((1 <= k)%nat /\ dumped = Raises e)
                  \/ ((2 <= k)%nat /\ restarted = Raises e)
                  \/ ((3 <= k)%nat /\ slept = Raises e)
                  \/ (k = 4%nat /\ verified = Raises e))).
Proof.
  intros r. subst r. unfold configure_with, bind, lift.
  destruct (update config selected_mirror) as [value|e] eqn:U.
  - destruct (install_config_calls sys path value h)
      as [k [Bk [Sk [K2 [K3 [K4 [T R]]]]]]].
    exists k, value. cbv zeta.
    destruct (install_config sys path value h) as [[b|e] h2];
      cbn [fst snd] in *; subst h2.
    + simpl. clauses;
        try (match goal with e' : exc |- _ => pose proof (R e') end);
        solve [intuition (try lia; try congruence)].
    + unfold handled. pose proof (R e) as Re.
      destruct (isinstance_Exception e) eqn:X; cbn [fst snd];
        clauses;
        try (match goal with e' : exc |- _ => pose proof (R e') end);
        solve [intuition (try lia; try congruence)].
  - exists O, JNull. cbv zeta. unfold handled.
    destruct (isinstance_Exception e) eqn:X; cbn [fst snd];
      (split; [lia|]); (split; [now rewrite app_nil_r|]);
      clauses; try solve [intuition (try lia; try congruence)].
Qed.

Lemma _configure_docker_daemon_steps :
  forall (sys : system) (path : string)
         (selected_mirror : MirrorSelector.registry_result)
         (h : list action),
    let r := _configure_docker_daemon sys path selected_mirror h in
    exists reads k value,
      snd r = h ++ reads ++ firstn k (installation path value)
      /\ (reads = [PathExists path]
          \/ reads = [PathExists path; LoadJson path])
      /\ (k <= 4)%nat
      /\ ((1 <= k)%nat ->
          update value selected_mirror = Returns value
          /\ exists entries,
               value = JDict entries
               /\ dict_get entries "registry-mirrors"
                  = Some (JList
                            [JString
                               (MirrorSelector.mirror selected_mirror)]))
      /\ ((2 <= k)%nat -> json_dump sys (h ++ reads) path value = Returns tt)
      /\ ((3 <= k)%nat ->
          subprocess_run sys (h ++ reads ++ [DumpJson path value]) restart
          = Returns 0%Z)
      /\ (fst r = Returns true
          <-> k = 4%nat
              /\ subprocess_run sys
                   (h ++ reads
                    ++ [DumpJson path value; Run restart; Sleep 5])
                   info
                 = Returns 0%Z)
      /\ (forall e, fst r = Raises e -> isinstance_Exception e = false)
      /\ (path_exists sys h path = Returns true ->
          forall loaded,
            json_load sys (h ++ [PathExists path]) path = Returns loaded ->
            (forall entries, loaded <> JDict entries) ->
            k = O /\ fst r = Returns false)
      /\ ((1 <= k)%nat ->
          path_exists sys h path = Returns true ->
          json_load sys (h ++ [PathExists path]) path
          = Raises JSONDecodeError ->
          update (JDict []) selected_mirror = Returns value).
Proof.
  intros sys path sel h r.
  assert (Er : r = _configure_docker_daemon sys path sel h) by reflexivity.
  clearbody r. rewrite _configure_docker_daemon_eq in Er.
  unfold try_except, bind in Er. cbv beta in Er.
  destruct (read_config_reads sys path h) as [reads [Sr [Fr [Pt Pf]]]].
  exists reads.
  assert (H0 : forall e h1,
            r = dispatch [(isinstance_Exception, ret false)] e h1 ->
            (fst r = Returns true -> False)
            /\ (forall e', fst r = Raises e' ->
                           isinstance_Exception e' = false)
            /\ (isinstance_Exception e = true -> fst r = Returns false)
            /\ snd r = h1).
  { intros e h1 ->. simpl. destruct (isinstance_Exception e) eqn:X; simpl.
    - repeat split; try discriminate; try reflexivity.
    - repeat split; try discriminate; try reflexivity.
      now intros e' [= <-]. }
  destruct (read_config sys path h) as [[cfg|e] h1] eqn:RC;
    simpl in Sr; subst h1.
  2: { exists O, JNull. destruct (H0 _ _ Er) as [A [B [C D]]].
       simpl. rewrite app_nil_r.
       split; [exact D|]. split; [exact Fr|]. split; [lia|].
       split; [lia|]. split; [lia|]. split; [lia|].
       split; [split; [intros Q; now elim A|intros [? _]; discriminate]|].
       split; [exact B|]. split; [|lia].
       intros P loaded L N. destruct (Pt P) as [_ [Q _]].
       specialize (Q loaded L). simpl in Q. discriminate Q. }
  unfold lift in Er.
  destruct (update cfg sel) as [value|e] eqn:U.
  2: { exists O, JNull. destruct (H0 _ _ Er) as [A [B [C D]]].
       simpl. rewrite app_nil_r.
       split; [exact D|]. split; [exact Fr|]. split; [lia|].
       split; [lia|]. split; [lia|]. split; [lia|].
       split; [split; [intros Q; now elim A|intros [? _]; discriminate]|].
       split; [exact B|]. split; [|lia].
       intros P loaded L N. destruct (Pt P) as [_ [Q _]].
       specialize (Q loaded L). simpl in Q. inversion Q; subst cfg.
       split; [reflexivity|]. apply C.
       rewrite (update_non_dict sel N) in U. now inversion U. }
  pose proof (install_config_steps sys path value (h ++ reads)) as St.
  cbv zeta in St. destruct St as [k [Bk [Sk [Dk [Rk Tk]]]]].
  exists k, value.
  destruct (update_Returns _ _ U) as [entries [entries' [-> [-> [G [_ [_ I]]]]]]].
  rewrite <- !app_assoc in Rk, Tk.
  assert (Common :
            (k <= 4)%nat
            /\ ((1 <= k)%nat ->
                update (JDict entries') sel = Returns (JDict entries')
                /\ exists e0,
                     JDict entries' = JDict e0
                     /\ dict_get e0 "registry-mirrors"
                        = Some (JList [JString (MirrorSelector.mirror sel)]))
            /\ ((2 <= k)%nat ->
                json_dump sys (h ++ reads) path (JDict entries') = Returns tt)
            /\ ((3 <= k)%nat ->
                subprocess_run sys
                  (h ++ reads ++ [DumpJson path (JDict entries')]) restart
                = Returns 0%Z)).
  { split; [lia|]. split; [|split; assumption].
    intros _. split; [exact I|]. now exists entries'. }
  destruct Common as [C1 [C2 [C3 C4]]].
  assert (Last :
            (path_exists sys h path = Returns true ->
             forall loaded,
               json_load sys (h ++ [PathExists path]) path = Returns loaded ->
               (forall e0, loaded <> JDict e0) ->
               k = O /\ fst r = Returns false)
            /\ ((1 <= k)%nat ->
                path_exists sys h path = Returns true ->
                json_load sys (h ++ [PathExists path]) path
                = Raises JSONDecodeError ->
                update (JDict []) sel = Returns (JDict entries'))).
  { split.
    - intros P loaded L N. destruct (Pt P) as [_ [Q _]].
      specialize (Q loaded L). simpl in Q. inversion Q; subst loaded.
      now elim (N entries).
    - intros _ P L. destruct (Pt P) as [_ [_ Q]].
      specialize (Q L). simpl in Q. inversion Q; subst entries. exact U. }
  destruct Last as [L1 L2].
  destruct (install_config sys path (JDict entries') (h ++ reads))
    as [[b|e] h2] eqn:IC; simpl in Sk, Tk; subst h2.
  - subst r. simpl. rewrite <- app_assoc.
    split; [reflexivity|]. split; [exact Fr|]. split; [exact C1|].
    split; [exact C2|]. split; [exact C3|]. split; [exact C4|].
    split; [exact Tk|]. split; [discriminate|].
    split; [exact L1|exact L2].
  - destruct (H0 _ _ Er) as [A [B [C D]]].
    rewrite <- app_assoc in D.
    split; [exact D|]. split; [exact Fr|]. split; [exact C1|].
    split; [exact C2|]. split; [exact C3|]. split; [exact C4|].
    split.
    { split; [intros Q; now elim A|].
      intros Q. apply Tk in Q. discriminate Q. }
    split; [exact B|]. split; [exact L1|exact L2].
Qed.

End ConfigureFacts.

(* ================================================================== *)
(** * The registry command *)

Module CommandFacts.
Import Py Sys MirrorConfigure ConfigureFacts.
Local Open Scope string_scope.
Local Open Scope list_scope.

(** Every call a computation makes satisfies [P]. *)
Definition traces {A : Type} (P : action -> Prop) (m : sysio A) : Prop :=
  forall h, exists acts, snd (m h) = h ++ acts /\ Forall P acts.

Lemma traces_ret {A : Type} P (a : A) : traces P (ret a).
Proof. intros h. exists []. split; [now rewrite app_nil_r|constructor]. Qed.

Lemma traces_raise {A : Type} P e : traces P (@raise A e).
Proof. intros h. exists []. split; [now rewrite app_nil_r|constructor]. Qed.

Lemma traces_lift {A : Type} P (r : outcome A) : traces P (lift r).
Proof. intros h. exists []. split; [now rewrite app_nil_r|constructor]. Qed.

Lemma traces_bind {A B : Type} P (m : sysio A) (k : A -> sysio B) :
  traces P m -> (forall a, traces P (k a)) -> traces P (bind m k).
Proof.
  intros Tm Tk h. unfold bind. destruct (Tm h) as [acts [S F]].
  destruct (m h) as [[a|e] h1]; simpl in S; subst h1.
  - destruct (Tk a (h ++ acts)) as [acts' [S' F']].
    exists (acts ++ acts'). rewrite S', <- app_assoc.
    split; [reflexivity|]. apply Forall_app. now split.
  - exists acts. now split.
Qed.

Lemma traces_dispatch {A : Type} P
    (clauses : list ((exc -> bool) * sysio A)) e :
  Forall (fun c => traces P (snd c)) clauses ->
  traces P (dispatch clauses e).
Proof.
  induction 1 as [|[i handler] rest T F IH]; simpl.
  - apply traces_raise.
  - destruct (i e); [exact T|exact IH].
Qed.

Lemma traces_try_except {A : Type} P (body : sysio A) clauses :
  traces P body ->
  Forall (fun c => traces P (snd c)) clauses ->
  traces P (try_except body clauses).
Proof.
  intros Tb Tc h. unfold try_except. destruct (Tb h) as [acts [S F]].
  destruct (body h) as [[a|e] h1]; simpl in S; subst h1.
  - exists acts. now split.
  - destruct (traces_dispatch e Tc (h ++ acts)) as [acts' [S' F']].
    exists (acts ++ acts'). rewrite S', <- app_assoc.
    split; [reflexivity|]. apply Forall_app. now split.
Qed.

Lemma traces_run P sys argv : P (Run argv) -> traces P (run sys argv).
Proof. intros R h. exists [Run argv]. split; [reflexivity|now constructor]. Qed.

Lemma traces_run_checked P sys argv :
  P (Run argv) -> traces P (run_checked sys argv).
Proof.
  intros R. apply traces_bind; [now apply traces_run|].
  intros rc. destruct (rc =? 0)%Z; [apply traces_ret|apply traces_raise].
Qed.

(** A call that leaves [daemon.json] alone, or writes to [path] a dict
    whose ['registry-mirrors'] is [mirror] alone. *)
Definition writes_only (path mirror : string) (a : action) : Prop :=
  match a with
  | DumpJson p value =>
      p = path
      /\ exists entries,
           value = JDict entries
           /\ dict_get entries "registry-mirrors"
              = Some (JList [JString mirror])
  | WriteText _ _ => False
  | _ => True
  end.

(** A call that writes nothing. *)
Definition writes_nothing (a : action) : Prop :=
  match a with
  | DumpJson _ _ | WriteText _ _ => False
  | _ => True
  end.

Lemma writes_nothing_only path mirror a :
  writes_nothing a -> writes_only path mirror a.
Proof. destruct a; simpl; tauto. Qed.

Lemma traces_mono {A : Type} (P Q : action -> Prop) (m : sysio A) :
  (forall a, P a -> Q a) -> traces P m -> traces Q m.
Proof.
  intros I T h. destruct (T h) as [acts [S F]]. exists acts.
  split; [exact S|]. eapply Forall_impl; [|exact F]. exact I.
Qed.

Lemma traces__configure_docker_daemon sys path selected_mirror :
  traces (writes_only path (MirrorSelector.mirror selected_mirror))
    (_configure_docker_daemon sys path selected_mirror).
Proof.
  intros h.
  destruct (_configure_docker_daemon_steps sys path selected_mirror h)
    as [reads [k [value [Sn [R [K [V _]]]]]]].
  exists (reads ++ firstn k (installation path value)).
  split; [exact Sn|]. apply Forall_app. split.
  - destruct R as [->| ->]; repeat constructor.
  - destruct k as [|k]; [constructor|].
    destruct V as [_ [entries [E G]]]; [lia|].
    assert (F : Forall
                  (writes_only path (MirrorSelector.mirror selected_mirror))
                  (installation path value)).
    { repeat constructor. now exists entries. }
    rewrite <- (firstn_skipn (S k) (installation path value)) in F.
    apply Forall_app in F. apply F.
Qed.

Lemma traces_current_configuration sys results :
  traces writes_nothing (current_configuration sys results).
Proof.
  unfold current_configuration.
  destruct (MirrorSelector.working_results results); [apply traces_ret|].
  apply traces_try_except.
  - apply traces_bind; [now apply traces_run|intros; apply traces_ret].
  - repeat constructor. apply traces_ret.
Qed.

(** The part of [run_selection] that follows the prerequisites. *)
Definition select_and_configure (sys : system)
    (net : MirrorSelector.network)
    (registry_mirrors : list MirrorSelector.registry)
    (daemon_json_path : string) (stdin : list stdin_event) : sysio bool :=
  bind
    (lift (of_result
             (MirrorSelector.test_all_registries net registry_mirrors)))
    (fun results =>
  bind (current_configuration sys results) (fun _ =>
  bind
    (lift (of_result
             (fst (MirrorSelector.display_results_and_choose results
                     stdin))))
    (fun selected_mirror =>
  match selected_mirror with
  | None => ret false
  | Some selected_mirror =>
      bind (_configure_docker_daemon sys daemon_json_path selected_mirror)
        (fun configured =>
      if configured : bool then
        bind (run sys ["docker"; "pull"; "hello-world:latest"])
          (fun returncode =>
        bind
          (if (returncode =? 0)%Z then
             bind (run sys ["docker"; "rmi"; "hello-world:latest"])
               (fun _ => ret tt)
           else ret tt)
          (fun _ => ret true))
      else ret false)
  end))).

(** The prerequisites of lines 341-346. *)
Definition prerequisites (sys : system) : sysio bool :=
  try_except
    (bind (run_checked sys ["docker"; "--version"]) (fun _ =>
     bind (run_checked sys ["docker"; "info"]) (fun _ => ret true)))
    [ (isinstance_CalledProcessError, ret false) ].

Lemma run_selection_eq sys net registry_mirrors path stdin :
  run_selection sys net registry_mirrors path stdin
  = bind (prerequisites sys) (fun running =>
      if negb running then ret false
      else select_and_configure sys net registry_mirrors path stdin).
Proof. reflexivity. Qed.

Lemma traces_prerequisites sys : traces writes_nothing (prerequisites sys).
Proof.
  apply traces_try_except.
  - apply traces_bind; [now apply traces_run_checked|]. intros _.
    apply traces_bind; [now apply traces_run_checked|]. intros _.
    apply traces_ret.
  - repeat constructor. apply traces_ret.
Qed.

(** What the selection gave, when the tests returned and a mirror was
    selected. *)
Definition selection (net : MirrorSelector.network)
    (registry_mirrors : list MirrorSelector.registry)
    (stdin : list stdin_event) : option MirrorSelector.registry_result :=
  match MirrorSelector.test_all_registries net registry_mirrors with
  | Ok results =>
      match fst (MirrorSelector.display_results_and_choose results stdin)
      with
      | Ok (Some selected_mirror) => Some selected_mirror
      | _ => None
      end
  | Raise _ => None
  end.

(** What [run_selection] may write, given the selection. *)
Definition may_write (path : string)
    (selected : option MirrorSelector.registry_result) (a : action) : Prop :=
  match selected with
  | Some selected_mirror =>
      writes_only path (MirrorSelector.mirror selected_mirror) a
  | None => writes_nothing a
  end.

Lemma may_write_nothing path selected a :
  writes_nothing a -> may_write path selected a.
Proof.
  destruct selected; simpl; [apply writes_nothing_only|tauto].
Qed.

Lemma traces_bind_Returns {A B : Type} P (a : A) (k : A -> sysio B) :
  traces P (k a) -> traces P (bind (lift (Returns a)) k).
Proof. intros T h. exact (T h). Qed.

Lemma traces_bind_Raises {A B : Type} P e (k : A -> sysio B) :
  traces P (bind (lift (Raises e)) k).
Proof.
  intros h. exists []. split; [simpl; now rewrite app_nil_r|constructor].
Qed.

Lemma traces_select_and_configure sys net registry_mirrors path stdin :
  traces (may_write path (selection net registry_mirrors stdin))
    (select_and_configure sys net registry_mirrors path stdin).
Proof.
  unfold select_and_configure, selection.
  destruct (MirrorSelector.test_all_registries net registry_mirrors)
    as [results|e]; simpl of_result; [|apply traces_bind_Raises].
  apply traces_bind_Returns.
  apply traces_bind.
  { eapply traces_mono; [|apply traces_current_configuration].
    apply may_write_nothing. }
  intros _.
  destruct (fst (MirrorSelector.display_results_and_choose results stdin))
    as [[selected_mirror|]|e]; simpl of_result;
    [| |apply traces_bind_Raises].
  - apply traces_bind_Returns.
    apply traces_bind; [apply traces__configure_docker_daemon|].
    intros [|]; [|apply traces_ret].
    apply traces_bind; [now apply traces_run|]. intros returncode.
    apply traces_bind; [|intros; apply traces_ret].
    destruct (returncode =? 0)%Z; [|apply traces_ret].
    apply traces_bind; [now apply traces_run|intros; apply traces_ret].
  - apply traces_bind_Returns. apply traces_ret.
Qed.

Lemma traces_run_selection sys net registry_mirrors path stdin :
  traces (may_write path (selection net registry_mirrors stdin))
    (run_selection sys net registry_mirrors path stdin).
Proof.
  rewrite run_selection_eq. apply traces_bind.
  - eapply traces_mono; [|apply traces_prerequisites].
    apply may_write_nothing.
  - intros [|]; simpl negb; cbv iota.
    + apply traces_select_and_configure.
    + apply traces_ret.
Qed.

Lemma bind_Returns {A B : Type} (m : sysio A) (k : A -> sysio B) h b h' :
  bind m k h = (Returns b, h') ->
  exists a h1, m h = (Returns a, h1) /\ k a h1 = (Returns b, h').
Proof.
  unfold bind. destruct (m h) as [[a|e] h1]; [|discriminate].
  intros E. now exists a, h1.
Qed.

(** [run_selection] returns [True] only after [_configure_docker_daemon]
    returned [True] for the selected mirror. *)
Lemma run_selection_true sys net registry_mirrors path stdin h h' :
  run_selection sys net registry_mirrors path stdin h = (Returns true, h') ->
  exists selected_mirror before after,
    selection net registry_mirrors stdin = Some selected_mirror
    /\ _configure_docker_daemon sys path selected_mirror before
       = (Returns true, after).
Proof.
  rewrite run_selection_eq. intros E.
  apply bind_Returns in E. destruct E as [running [h1 [_ E]]].
  destruct running; simpl in E; [|discriminate].
  unfold select_and_configure, selection in *.
  destruct (MirrorSelector.test_all_registries net registry_mirrors)
    as [results|e]; [|discriminate].
  apply bind_Returns in E. destruct E as [results' [h2 [R E]]].
  inversion R; subst results' h2. clear R.
  apply bind_Returns in E. destruct E as [[] [h3 [_ E]]].
  destruct (fst (MirrorSelector.display_results_and_choose results stdin))
    as [[selected_mirror|]|e]; try discriminate.
  apply bind_Returns in E. destruct E as [sel [h4 [R E]]].
  inversion R; subst sel h4. clear R.
  apply bind_Returns in E. destruct E as [configured [h5 [C E]]].
  destruct configured; [|discriminate].
  now exists selected_mirror, h3, h5.
Qed.

End CommandFacts.

(* ================================================================== *)
(** * The blocks of the registry file *)

Module RegistryFileFacts.
Import Py RegistryFile.
Local Open Scope string_scope.
Local Open Scope list_scope.

(** A block made of the given lines, each followed by a newline. *)
Definition joined (run : list ustring) : ustring :=
  flat_map (fun l => l ++ [nl]) run.

(** The lines between one separator and the next, for every separator
    and for both ends of the list: "JSON objects separated by comments"
    (line 32), before the empty ones are dropped. *)
Fixpoint chunks (lines : list ustring) : list (list ustring) :=
  match lines with
  | [] => [[]]
  | l :: rest =>
      if separates l then [] :: chunks rest
      else
        match chunks rest with
        | run :: more => (l :: run) :: more
        | [] => [[l]]
        end
  end.

(** The runs of lines that stand between separators. *)
Definition runs (lines : list ustring) : list (list ustring) :=
  filter (fun run => match run with [] => false | _ :: _ => true end)
    (chunks lines).

(** A stripped line that belongs to a block. *)
Definition kept (l : ustring) : Prop :=
  (exists s, l = strip s) /\ separates l = false.

Lemma chunks_cons lines : exists run more, chunks lines = run :: more.
Proof.
  destruct lines as [|l rest]; simpl; [now exists [], []|].
  destruct (separates l); [now exists [], (chunks rest)|].
  destruct (chunks rest) as [|run more]; eauto.
Qed.

Lemma chunks_app a sep b :
  separates sep = true ->
  exists run more,
    chunks a = run :: more
    /\ chunks (a ++ sep :: b) = run :: more ++ chunks b.
Proof.
  intros S. induction a as [|l a IH]; simpl.
  - rewrite S. now exists [], [].
  - destruct IH as [run [more [Ea Eab]]]. rewrite Ea, Eab.
    destruct (separates l).
    + now exists [], (run :: more).
    + now exists (l :: run), more.
Qed.

Lemma chunks_free a :
  Forall (fun l => separates l = false) a -> chunks a = [a].
Proof.
  induction 1 as [|l a S F IH]; simpl; [reflexivity|]. now rewrite S, IH.
Qed.

Lemma runs_app a sep b :
  separates sep = true -> runs (a ++ sep :: b) = runs a ++ runs b.
Proof.
  intros S. destruct (chunks_app a sep b S) as [run [more [Ea Eab]]].
  unfold runs. rewrite Eab, Ea.
  change (run :: more ++ chunks b) with ((run :: more) ++ chunks b).
  apply filter_app.
Qed.

Lemma runs_free a :
  a <> [] -> Forall (fun l => separates l = false) a -> runs a = [a].
Proof.
  intros N F. unfold runs. rewrite (chunks_free F). simpl.
  destruct a; [now elim N|reflexivity].
Qed.

Lemma runs_kept lines :
  Forall (fun run => run <> [] /\ Forall (fun l => separates l = false) run)
    (runs lines).
Proof.
  assert (C : Forall (Forall (fun l => separates l = false)) (chunks lines)).
  { induction lines as [|l rest IH]; simpl; [repeat constructor|].
    destruct (separates l) eqn:S; [now constructor|].
    destruct (chunks rest) as [|run more]; [repeat constructor; exact S|].
    inversion IH; subst. constructor; [now constructor|assumption]. }
  unfold runs. induction C as [|run more F _ IH]; simpl; [constructor|].
  destruct run; [exact IH|]. constructor; [|exact IH].
  split; [discriminate|exact F].
Qed.

Lemma joined_app run run' : joined (run ++ run') = joined run ++ joined run'.
Proof. apply flat_map_app. Qed.

Lemma lstrip_head s c s' : lstrip s = c :: s' -> is_space c = false.
Proof.
  induction s as [|d s IH]; simpl; [discriminate|].
  destruct (is_space d) eqn:D; [exact IH|]. now intros [= <- _].
Qed.

Lemma rstrip_head s c s' : rstrip s = c :: s' -> exists t, s = c :: t.
Proof.
  destruct s as [|d s]; simpl; [discriminate|].
  destruct (rstrip s); [destruct (is_space d)|]; intros E; inversion E;
    now exists s.
Qed.

(** A string that starts with a character that is no blank does not strip
    to the empty string. *)
Lemma strip_keeps c s : is_space c = false -> strip (c :: s) <> [].
Proof.
  intros P. unfold strip. simpl lstrip. rewrite P. simpl.
  destruct (rstrip s); [now rewrite P|discriminate].
Qed.

(** A kept line starts with a character that is no blank. *)
Lemma kept_head l : kept l -> exists c l', l = c :: l' /\ is_space c = false.
Proof.
  intros [[s ->] S]. unfold strip in *.
  destruct (rstrip (lstrip s)) as [|c l'] eqn:E; [discriminate S|].
  exists c, l'. split; [reflexivity|].
  apply rstrip_head in E. destruct E as [t E]. now apply lstrip_head in E.
Qed.

(** The block under way counts as one exactly when it holds a line. *)
Lemma truthy_strip_joined run :
  Forall kept run ->
  truthy (strip (joined run))
  = match run with [] => false | _ :: _ => true end.
Proof.
  intros F. destruct run as [|l run]; [reflexivity|].
  inversion F as [|? ? K _]; subst.
  destruct (kept_head K) as [c [l' [-> P]]]. simpl.
  pose proof (@strip_keeps c (l' ++ [nl] ++ joined run) P) as N.
  rewrite <- app_assoc.
  now destruct (strip (c :: l' ++ [nl] ++ joined run)).
Qed.

(** What [json_blocks] makes of the outcome of the loop. *)
Definition closed (state : list ustring * ustring) : list ustring :=
  if truthy (strip (snd state)) then fst state ++ [snd state]
  else fst state.

(** The invariant of the loop: with the lines [cur] in the block under
    way, what is still to come first goes on with that block. *)
Lemma blocks_loop_runs : forall lines done cur,
  Forall kept cur ->
  exists run more,
    chunks (map strip lines) = run :: more
    /\ closed (blocks_loop lines done (joined cur))
       = done
         ++ map joined
              (filter
                 (fun run => match run with [] => false | _ :: _ => true end)
                 ((cur ++ run) :: more)).
Proof.
  induction lines as [|line rest IH]; intros done cur C.
  - exists [], []. split; [reflexivity|].
    unfold closed. simpl. rewrite (truthy_strip_joined C), app_nil_r.
    destruct cur; simpl; [now rewrite app_nil_r|reflexivity].
  - simpl. destruct (separates (strip line)) eqn:S.
    + exists [], (chunks (map strip rest)). split; [reflexivity|].
      rewrite (truthy_strip_joined C), app_nil_r.
      destruct cur as [|l cur].
      * destruct (IH done [] C) as [run [more [E R]]].
        change (joined []) with (@nil N) in *. rewrite R, E. reflexivity.
      * destruct (IH (done ++ [joined (l :: cur)]) [] (Forall_nil _))
          as [run [more [E R]]].
        change (joined []) with (@nil N) in R. rewrite R, E.
        rewrite <- app_assoc. reflexivity.
    + destruct (IH done (cur ++ [strip line])) as [run [more [E R]]].
      * apply Forall_app. split; [exact C|]. repeat constructor.
        -- now exists line.
        -- exact S.
      * rewrite E. exists (strip line :: run), more. split; [reflexivity|].
        rewrite joined_app in R. simpl in R. rewrite app_nil_r in R.
        rewrite R, <- app_assoc. reflexivity.
Qed.

Lemma joined_nonempty run : run <> [] -> joined run <> [].
Proof.
  destruct run as [|l run]; [now intros N|]. intros _. simpl.
  destruct l; discriminate.
Qed.

Lemma json_blocks_runs content :
  json_blocks content = map joined (runs (map strip (split_lines content))).
Proof.
  destruct (blocks_loop_runs (split_lines content) [] (Forall_nil _))
    as [run [more [E R]]].
  unfold runs. rewrite E.
  transitivity (closed (blocks_loop (split_lines content) [] [])).
  - unfold json_blocks, closed.
    now destruct (blocks_loop (split_lines content) [] []).
  - exact R.
Qed.

End RegistryFileFacts.

(* ================================================================== *)
(** * Properties of the probes and the endpoint testers *)
(* ================================================================== *)

Section ProbeProperties.
Import Py IoFacts.
Local Open Scope string_scope.
Local Open Scope list_scope.

(** C3, two runs that refute it.  A lookup that answers while the clock is
    set back by two seconds is reported as a success that took -2 seconds;
    a [/v2/] request during which the operator presses Ctrl-C raises
    [KeyboardInterrupt] to the caller of the probe. *)
Lemma probe_may_raise_or_time_backwards :
  fst (DnsSelector._test_dns_resolution Scenario.clock_set_back
         "8.8.8.8" "google.com" 3 [])
  = Ok (true, Fin (-2))
  /\ ~ well_formed_probe (Ok (true, Fin (-2)))
  /\ fst (MirrorSelector._test_registry_connectivity Scenario.interrupted
            "https://m.example" 10 [])
     = Raise KeyboardInterrupt.
Proof.
  split; [reflexivity|]. split; [|reflexivity].
  intros W. inversion W as [q P|]. subst. revert P. now vm_compute.
Qed.

(** C3, as the code has it.  Every probe ([_test_dns_resolution],
    [_test_registry_connectivity], [_test_docker_hub_connectivity])
    satisfies the probe contract on every request.  Its result is never
    [(True, inf)] nor [(False, finite)].  It raises to its caller exactly
    when the call behind it raises something that is not an [Exception],
    and raises that.  It returns [(True, elapsed)], with [elapsed] the
    difference of the two clock readings, exactly when the call did not
    fail: the lookup ended with status 0 and without [NXDOMAIN] in its
    output, the request was answered with 200, 401 or 404.  It returns
    [(False, inf)] exactly when the call failed (it timed out, could not
    connect or otherwise raised, or was answered with an error) and raised
    nothing but an [Exception].  So its result is [(True, elapsed)] with a
    finite [elapsed >= 0] or [(False, inf)] exactly when the call raised
    nothing but an [Exception] and either failed or ended with the clock
    not behind where it started. *)
Theorem probe_contract :
  forall (dnet : DnsSelector.network) (mnet : MirrorSelector.network)
         (dns_server domain mirror : string) (timeout : Z)
         (hd : list DnsSelector.request) (hm : list MirrorSelector.request),
    let lookup := dnet hd (DnsFacts.probe_request dns_server timeout domain) in
    let v2 := mnet hm (MirrorFacts.connectivity_request mirror timeout) in
    let manifest := mnet hm (MirrorFacts.hub_request mirror timeout) in
    contract (fun e => DnsSelector.run lookup = Raise e)
      (DnsFacts.failure lookup)
      (DnsSelector.end_time lookup - DnsSelector.start_time lookup)
      (fst (DnsSelector._test_dns_resolution dnet dns_server domain timeout
              hd))
    /\ contract (fun e => MirrorSelector.get v2 = Raise e)
         (MirrorFacts.failure v2)
         (MirrorSelector.end_time v2 - MirrorSelector.start_time v2)
         (fst (MirrorSelector._test_registry_connectivity mnet mirror timeout
                 hm))
    /\ contract (fun e => MirrorSelector.get manifest = Raise e)
         (MirrorFacts.failure manifest)
         (MirrorSelector.end_time manifest
          - MirrorSelector.start_time manifest)
         (fst (MirrorSelector._test_docker_hub_connectivity mnet mirror
                 timeout hm)).
Proof.
  intros dnet mnet dns_server domain mirror timeout hd hm.
  cbv zeta.
  rewrite DnsFacts._test_dns_resolution_eq,
    MirrorFacts._test_registry_connectivity_eq,
    MirrorFacts._test_docker_hub_connectivity_eq.
  simpl fst.
  split; [apply DnsFacts.probe_outcome_contract|].
  split; apply MirrorFacts.get_outcome_contract.
Qed.

(** A lookup that times out, a [/v2/] request answered with 200 after 0.2s
    and a manifest request answered with 200 after 0.4s. *)
Lemma probe_contract_witness :
  fst (DnsSelector._test_dns_resolution Scenario.silent
         "8.8.8.8" "google.com" 3 [])
  = Ok (false, float_inf)
  /\ fst (MirrorSelector._test_registry_connectivity Scenario.two_mirrors
            "https://m.example" 10 [])
     = Ok (true, Fin (2 # 10))
  /\ well_formed_probe
       (fst (MirrorSelector._test_docker_hub_connectivity
               Scenario.two_mirrors "https://m.example" 15 [])).
Proof.
  destruct (probe_contract Scenario.silent Scenario.two_mirrors
              "8.8.8.8" "google.com" "https://m.example" 3 [] [])
    as [[_ [_ [_ [F _]]]] _].
  destruct (probe_contract Scenario.silent Scenario.two_mirrors
              "8.8.8.8" "google.com" "https://m.example" 10 [] [])
    as [_ [[_ [_ [T _]]] _]].
  destruct (probe_contract Scenario.silent Scenario.two_mirrors
              "8.8.8.8" "google.com" "https://m.example" 15 [] [])
    as [_ [_ [_ [_ [_ [_ W3]]]]]].
  split; [|split].
  - apply F. split; [exact I|].
    intros e E. vm_compute in E. now inversion E.
  - apply T. vm_compute. intros [N _]. now apply N.
  - apply W3. split.
    + intros e E. vm_compute in E. discriminate.
    + right. vm_compute. discriminate.
Defined.

(** C7.  A battery with no success has the sentinel as its average and a
    success rate of exactly 0, whatever the number of probes attempted, for
    the general battery ([_test_dns_server]) and the Docker battery
    ([_test_docker_connectivity]); neither function ever raises
    [ZeroDivisionError], and the tester returns its dict whenever the entry
    has a primary address and no lookup is interrupted. *)
Theorem zero_success_battery :
  forall (self : DnsSelector.DNSSelector) (net : DnsSelector.network)
         (server_name : string) (info : DnsSelector.server_info)
         (h : list DnsSelector.request),
    (forall r h',
       DnsSelector._test_dns_server self net server_name info h = (Ok r, h') ->
       (DnsSelector.success_count r = O ->
          DnsSelector.avg_time r = float_inf
          /\ DnsSelector.success_rate r = Fin 0)
       /\ (DnsSelector.docker_success_count r = O ->
            DnsSelector.docker_avg_time r = float_inf
            /\ DnsSelector.docker_success_rate r = Fin 0))
    /\ (forall dns_server timeout d h',
          DnsSelector._test_docker_connectivity self net dns_server timeout h
          = (Ok d, h') ->
          DnsSelector.Docker.docker_success_count d = O ->
          DnsSelector.Docker.docker_avg_time d = float_inf
          /\ DnsSelector.Docker.docker_success_rate d = Fin 0)
    /\ fst (DnsSelector._test_dns_server self net server_name info h)
       <> Raise ZeroDivisionError
    /\ (forall dns_server timeout,
          fst (DnsSelector._test_docker_connectivity self net dns_server
                 timeout h)
          <> Raise ZeroDivisionError)
    /\ (DnsFacts.polite net ->
        DnsSelector.info_primary info <> None ->
        exists r h',
          DnsSelector._test_dns_server self net server_name info h
          = (Ok r, h')).
Proof.
  intros self net server_name info h. repeat split.
  - apply DnsFacts._test_dns_server_Ok in H. destruct H as [T _].
    now apply (DnsFacts.tested_none T).
  - apply DnsFacts._test_dns_server_Ok in H. destruct H as [T _].
    now apply (DnsFacts.tested_none T).
  - apply DnsFacts._test_dns_server_Ok in H. destruct H as [T _].
    now apply (DnsFacts.tested_docker_none T).
  - apply DnsFacts._test_dns_server_Ok in H. destruct H as [T _].
    now apply (DnsFacts.tested_docker_none T).
  - apply DnsFacts._test_docker_connectivity_Ok in H. now apply H.
  - apply DnsFacts._test_docker_connectivity_Ok in H. now apply H.
  - destruct (DnsSelector._test_dns_server _ _ _ _ _) as [o h'] eqn:E.
    simpl. intros ->.
    apply DnsFacts._test_dns_server_Raise in E.
    destruct E as [[E _]|[E _]]; discriminate.
  - intros dns_server timeout.
    destruct (DnsSelector._test_docker_connectivity _ _ _ _ _)
      as [o h'] eqn:E.
    simpl. intros ->.
    apply DnsFacts._test_docker_connectivity_Raise in E.
    destruct E as [E _]. discriminate.
  - now apply DnsFacts._test_dns_server_returns.
Qed.

(** On a resolver side where every lookup times out, the tester of the
    default configuration returns a dict with no success, the sentinel as
    averages and 0 as rates. *)
Lemma zero_success_battery_witness :
  exists r,
    fst (DnsSelector._test_dns_server (DnsSelector.init []) Scenario.silent
           "Google"
           {| DnsSelector.info_primary := Some "8.8.8.8";
              DnsSelector.info_secondary := Some "8.8.4.4" |} [])
    = Ok r
    /\ DnsSelector.success_count r = O
    /\ DnsSelector.avg_time r = float_inf
    /\ DnsSelector.success_rate r = Fin 0
    /\ DnsSelector.docker_avg_time r = float_inf
    /\ DnsSelector.docker_success_rate r = Fin 0.
Proof.
  destruct (DnsSelector._test_dns_server (DnsSelector.init []) Scenario.silent
              "Google"
              {| DnsSelector.info_primary := Some "8.8.8.8";
                 DnsSelector.info_secondary := Some "8.8.4.4" |} [])
    as [[r|e] h'] eqn:E; [|vm_compute in E; discriminate].
  exists r. split; [reflexivity|].
  assert (C : DnsSelector.success_count r = O
              /\ DnsSelector.docker_success_count r = O).
  { vm_compute in E. inversion E; subst r. split; reflexivity. }
  destruct C as [C1 C2].
  destruct (zero_success_battery (DnsSelector.init []) Scenario.silent
              "Google"
              {| DnsSelector.info_primary := Some "8.8.8.8";
                 DnsSelector.info_secondary := Some "8.8.4.4" |} [])
    as [Z _].
  destruct (Z r h' E) as [G D].
  destruct (G C1) as [G1 G2]. destruct (D C2) as [D1 D2].
  repeat split; assumption.
Defined.

(** C9.  Both batteries of [_test_dns_server] go to the primary address
    only.  Two entries with the same primary address and any two secondary
    addresses issue the same requests, all to the primary, and give the
    same outcome, but for the value stored under ['secondary']; that value
    is the entry's own and is what a selection of the server returns with
    the primary address. *)
Theorem secondary_never_probed :
  forall (self : DnsSelector.DNSSelector) (net : DnsSelector.network)
         (server_name p : string) (s1 s2 : option string)
         (h : list DnsSelector.request),
    let info1 :=
      {| DnsSelector.info_primary := Some p;
         DnsSelector.info_secondary := s1 |} in
    let info2 :=
      {| DnsSelector.info_primary := Some p;
         DnsSelector.info_secondary := s2 |} in
    let run1 := DnsSelector._test_dns_server self net server_name info1 h in
    let run2 := DnsSelector._test_dns_server self net server_name info2 h in
    snd run1 = snd run2
    /\ fst run1
       = result_map
           (DnsFacts.with_secondary (DnsSelector.get_secondary info1))
           (fst run2)
    /\ (exists reqs,
          snd run1 = h ++ reqs
          /\ Forall (fun r => DnsSelector.req_server r = p) reqs)
    /\ (forall r,
          fst run1 = Ok r ->
          DnsSelector.primary r = p
          /\ DnsSelector.secondary r = DnsSelector.get_secondary info1
          /\ snd run1 = h ++ DnsFacts.batteries self p)
    /\ (forall ranked stdin a b,
          fst (DnsSelector.selection_loop ranked stdin) = Ok (Some (a, b)) ->
          exists r,
            In r ranked
            /\ a = DnsSelector.primary r /\ b = DnsSelector.secondary r).
Proof.
  intros self net server_name p s1 s2 h. cbv zeta.
  rewrite (DnsFacts._test_dns_server_secondary self net server_name p s1 s2 h).
  simpl fst. simpl snd. repeat split.
  - apply DnsFacts._test_dns_server_requests. reflexivity.
  - destruct (DnsSelector._test_dns_server _ _ _ _ _) as [[r'|e] h'] eqn:E;
      simpl in H; inversion H; subst r.
    apply DnsFacts._test_dns_server_Ok in E. destruct E as [T _].
    pose proof (DnsFacts.tested_primary T) as Tp. simpl in *. congruence.
  - destruct (DnsSelector._test_dns_server _ _ _ _ _) as [[r'|e] h'] eqn:E;
      simpl in H; inversion H; subst r. reflexivity.
  - destruct (DnsSelector._test_dns_server _ _ _ _ _) as [[r'|e] h'] eqn:E;
      simpl in H; inversion H; subst r.
    apply DnsFacts._test_dns_server_Ok in E. destruct E as [T ->].
    pose proof (DnsFacts.tested_primary T) as Tp. simpl in *. congruence.
  - intros ranked stdin. induction stdin as [|[s|] rest IH]; intros a b.
    + discriminate.
    + simpl.
      destruct (ustring_eqb _ "q"); [discriminate|].
      destruct (py_int _) as [n|e].
      * destruct (_ && _)%bool.
        -- destruct (nth_error ranked _) as [sel|] eqn:N; [|discriminate].
           simpl. intros E. inversion E; subst.
           exists sel. split; [|split; reflexivity].
           eapply nth_error_In; eassumption.
        -- destruct (DnsSelector.selection_loop ranked rest). apply IH.
      * destruct (isinstance_ValueError e).
        -- destruct (DnsSelector.selection_loop ranked rest). apply IH.
        -- destruct (isinstance_KeyboardInterrupt e); discriminate.
    + discriminate.
Qed.

(** Two entries for the same primary address, one with a secondary address
    and one without: the requests are the same and go to the primary. *)
Lemma secondary_never_probed_witness :
  snd (DnsSelector._test_dns_server (DnsSelector.init []) Scenario.answering
         "Google"
         {| DnsSelector.info_primary := Some "8.8.8.8";
            DnsSelector.info_secondary := Some "8.8.4.4" |} [])
  = snd (DnsSelector._test_dns_server (DnsSelector.init [])
           Scenario.answering "Google"
           {| DnsSelector.info_primary := Some "8.8.8.8";
              DnsSelector.info_secondary := None |} [])
  /\ exists r,
       fst (DnsSelector._test_dns_server (DnsSelector.init [])
              Scenario.answering "Google"
              {| DnsSelector.info_primary := Some "8.8.8.8";
                 DnsSelector.info_secondary := Some "8.8.4.4" |} [])
       = Ok r
       /\ DnsSelector.secondary r = "8.8.4.4"
       /\ snd (DnsSelector._test_dns_server (DnsSelector.init [])
                 Scenario.answering "Google"
                 {| DnsSelector.info_primary := Some "8.8.8.8";
                    DnsSelector.info_secondary := Some "8.8.4.4" |} [])
          = DnsFacts.batteries (DnsSelector.init []) "8.8.8.8".
Proof.
  destruct (secondary_never_probed (DnsSelector.init []) Scenario.answering
              "Google" "8.8.8.8" (Some "8.8.4.4") None [])
    as [S [_ [_ [R _]]]].
  cbv zeta in S, R. split; [exact S|].
  destruct (fst (DnsSelector._test_dns_server (DnsSelector.init [])
                   Scenario.answering "Google"
                   {| DnsSelector.info_primary := Some "8.8.8.8";
                      DnsSelector.info_secondary := Some "8.8.4.4" |} []))
    as [r|e] eqn:E; [|vm_compute in E; discriminate].
  exists r. split; [reflexivity|].
  destruct (R r eq_refl) as [_ [R2 R3]]. split; assumption.
Defined.

(** C10.  Every dict [_test_single_registry] returns has a finite
    ['total_score'] exactly when its ['status'] is ['Working'], which is
    exactly when both ['connectivity_success'] and ['hub_success'] are
    true; otherwise ['total_score'] is the sentinel.  When the connectivity
    check fails, the only request issued is that check: the manifest is not
    fetched, ['hub_success'] is false and ['hub_time'] the sentinel.  The
    function returns such a dict whenever no request is interrupted. *)
Theorem registry_result_invariant :
  forall (net : MirrorSelector.network) (reg : MirrorSelector.registry)
         (h : list MirrorSelector.request),
    (forall r h',
       MirrorSelector._test_single_registry net reg h = (Ok r, h') ->
       (is_finite (MirrorSelector.total_score r) = true
        <-> MirrorSelector.status r = "Working")
       /\ (MirrorSelector.status r = "Working"
           <-> MirrorSelector.connectivity_success r = true
               /\ MirrorSelector.hub_success r = true)
       /\ (MirrorSelector.status r <> "Working" ->
           MirrorSelector.total_score r = float_inf)
       /\ (MirrorSelector.connectivity_success r = false ->
           MirrorSelector.hub_success r = false
           /\ MirrorSelector.hub_time r = float_inf
           /\ h' = h ++ [MirrorFacts.connectivity_request
                           (MirrorSelector.reg_mirror reg) 10]))
    /\ (MirrorFacts.polite net ->
        exists r h',
          MirrorSelector._test_single_registry net reg h = (Ok r, h')).
Proof.
  intros net reg h. split; [|apply MirrorFacts._test_single_registry_returns].
  intros r h' E. apply MirrorFacts._test_single_registry_Ok in E.
  destruct E as [_ [_ [_ [reqs [T ->]]]]].
  destruct T as [C Ct H Ht S St|C Ct H Ht S St|C Ct H Ht S St];
    rewrite ?C, ?H, ?S, ?St.
  - repeat split; try discriminate; try tauto; try congruence.
    intros [? _]. discriminate.
  - repeat split; try discriminate; try tauto; try congruence.
    intros [_ ?]. discriminate.
  - destruct (MirrorSelector.connectivity_time r); [|discriminate].
    destruct (MirrorSelector.hub_time r); [|discriminate].
    simpl. repeat split; try discriminate; try tauto; try congruence.
Qed.

(** The tester of [mirror_n], whose manifest cannot be fetched, returns a
    dict with the sentinel as score. *)
Lemma registry_result_invariant_witness :
  exists r,
    fst (MirrorSelector._test_single_registry Scenario.two_mirrors
           Scenario.mirror_n [])
    = Ok r
    /\ MirrorSelector.status r = "Hub Access Failed"
    /\ MirrorSelector.total_score r = float_inf.
Proof.
  destruct (MirrorSelector._test_single_registry Scenario.two_mirrors
              Scenario.mirror_n []) as [[r|e] h'] eqn:E;
    [|vm_compute in E; discriminate].
  exists r. split; [reflexivity|].
  assert (S : MirrorSelector.status r = "Hub Access Failed").
  { vm_compute in E. inversion E; subst r. reflexivity. }
  split; [exact S|].
  destruct (registry_result_invariant Scenario.two_mirrors
              Scenario.mirror_n []) as [I _].
  destruct (I r h' E) as [_ [_ [N _]]].
  apply N. rewrite S. discriminate.
Defined.

End ProbeProperties.

Section RankingProperties.
Import Py OrderLaws SortFacts RankingFacts.
Local Open Scope string_scope.
Local Open Scope list_scope.

(** C1, a run that refutes it.  The two servers of [twins] get the same
    statistics; the scheduler collects them in the order in which the two
    testers finish, and the ranked list, the row numbers and the server an
    operator selects by typing [1] follow that order. *)
Lemma ranking_follows_arrival_order :
  exists first second,
    fst (DnsSelector.test_all_dns_servers Scenario.twins
           (fun _ => Scenario.answering) [0; 1]%nat) = Ok [first; second]
    /\ fst (DnsSelector.test_all_dns_servers Scenario.twins
              (fun _ => Scenario.answering) [1; 0]%nat) = Ok [second; first]
    /\ DnsSelector.sort_key first = DnsSelector.sort_key second
    /\ DnsSelector.working_servers [first; second] = [first; second]
    /\ DnsSelector.working_servers [second; first] = [second; first]
    /\ first <> second
    /\ fst (DnsSelector.select_dns_interactive Scenario.twins
              (fun _ => Scenario.answering) [0; 1]%nat [Line "1"])
       = Ok (Some ("10.0.0.1", ""))
    /\ fst (DnsSelector.select_dns_interactive Scenario.twins
              (fun _ => Scenario.answering) [1; 0]%nat [Line "1"])
       = Ok (Some ("10.0.0.2", "")).
Proof.
  eexists. eexists.
  split; [vm_compute; reflexivity|].
  split; [vm_compute; reflexivity|].
  split; [vm_compute; reflexivity|].
  split; [vm_compute; reflexivity|].
  split; [vm_compute; reflexivity|].
  split; [intros E; inversion E|].
  split; vm_compute; reflexivity.
Qed.

(** C1, as the code has it.  The ranked list is a function of the collected
    list alone.  For two orders of arrival of the same results, the two
    ranked lists hold the same entries and, position by position, entries of
    equal sort keys; they are the same list when no two eligible entries
    have equal keys; entries of equal keys stand in their order of arrival.
    This holds for the DNS ranking ([working_servers]) and the registry
    ranking ([working_results]). *)
Theorem ranking_up_to_ties :
  forall (results results' : list DnsSelector.dns_result)
         (mirrors mirrors' : list MirrorSelector.registry_result),
    Permutation results results' ->
    Permutation mirrors mirrors' ->
    (Permutation (DnsSelector.working_servers results)
       (DnsSelector.working_servers results')
     /\ Forall2 (key_eq DnsSelector.sort_key)
          (DnsSelector.working_servers results)
          (DnsSelector.working_servers results')
     /\ (distinct_keys DnsSelector.sort_key
           (filter DnsSelector.working results) ->
         DnsSelector.working_servers results
         = DnsSelector.working_servers results')
     /\ (forall k,
           filter (fun r => py_eq (DnsSelector.sort_key r) k)
             (DnsSelector.working_servers results)
           = filter (fun r => py_eq (DnsSelector.sort_key r) k)
               (filter DnsSelector.working results)))
    /\ (Permutation (MirrorSelector.working_results mirrors)
          (MirrorSelector.working_results mirrors')
        /\ Forall2 (key_eq MirrorSelector.total_score)
             (MirrorSelector.working_results mirrors)
             (MirrorSelector.working_results mirrors')
        /\ (distinct_keys MirrorSelector.total_score
              (filter MirrorSelector.is_working mirrors) ->
            MirrorSelector.working_results mirrors
            = MirrorSelector.working_results mirrors')
        /\ (forall k,
              filter (fun r => py_eq (MirrorSelector.total_score r) k)
                (MirrorSelector.working_results mirrors)
              = filter (fun r => py_eq (MirrorSelector.total_score r) k)
                  (filter MirrorSelector.is_working mirrors))).
Proof.
  intros results results' mirrors mirrors' P Q.
  apply (Permutation_filter DnsSelector.working) in P.
  apply (Permutation_filter MirrorSelector.is_working) in Q.
  unfold DnsSelector.working_servers, MirrorSelector.working_results.
  repeat split.
  - eapply perm_trans; [apply list_sort_perm|].
    eapply perm_trans; [exact P|]. apply Permutation_sym, list_sort_perm.
  - now apply list_sort_perm_keys.
  - now apply list_sort_perm_eq.
  - intros k. apply list_sort_stable.
  - eapply perm_trans; [apply list_sort_perm|].
    eapply perm_trans; [exact Q|]. apply Permutation_sym, list_sort_perm.
  - now apply list_sort_perm_keys.
  - now apply list_sort_perm_eq.
  - intros k. apply list_sort_stable.
Qed.

(** Three results with distinct keys are ranked alike in two orders of
    arrival. *)
Lemma ranking_up_to_ties_witness :
  DnsSelector.working_servers
    [Scenario.server_a; Scenario.server_b; Scenario.server_c]
  = DnsSelector.working_servers
      [Scenario.server_c; Scenario.server_b; Scenario.server_a].
Proof.
  assert (P : Permutation
                [Scenario.server_a; Scenario.server_b; Scenario.server_c]
                [Scenario.server_c; Scenario.server_b; Scenario.server_a]).
  { eapply perm_trans; [apply perm_skip, perm_swap|].
    eapply perm_trans; [apply perm_swap|]. apply perm_skip, perm_swap. }
  destruct (ranking_up_to_ties P (Permutation_refl (@nil _)))
    as [[_ [_ [E _]]] _].
  apply E. vm_compute. repeat constructor.
Defined.

(** C4.  The ranked list of the DNS mode is in ascending order of the key
    [(not docker_working, docker_avg_time, avg_time)]: servers that pass
    the Docker threshold stand before those that do not, within each group
    the smaller Docker average stands first, and equal Docker averages are
    ordered by the general average.  Three results A (rate 100%, average
    0.1s, passes the Docker threshold), B (rate 40%) and C (rate 60%,
    average 0.3s, fails the Docker threshold) are ranked [A; C], in
    whatever order they arrive. *)
Theorem dns_ranking_order :
  (forall results,
     StronglySorted ranks_before (DnsSelector.working_servers results))
  /\ (forall a b,
        ranks_before a b
        <-> py_lt (DnsSelector.sort_key b) (DnsSelector.sort_key a) = false)
  /\ (forall A B C arrival,
        DnsSelector.working A = fge (DnsSelector.success_rate A) (Fin 50) ->
        DnsSelector.working B = fge (DnsSelector.success_rate B) (Fin 50) ->
        DnsSelector.working C = fge (DnsSelector.success_rate C) (Fin 50) ->
        DnsSelector.success_rate A = Fin 100 ->
        DnsSelector.avg_time A = Fin (1 # 10) ->
        DnsSelector.docker_working A = true ->
        DnsSelector.success_rate B = Fin 40 ->
        DnsSelector.success_rate C = Fin 60 ->
        DnsSelector.avg_time C = Fin (3 # 10) ->
        DnsSelector.docker_working C = false ->
        Permutation arrival [A; B; C] ->
        DnsSelector.working_servers arrival = [A; C]).
Proof.
  repeat split.
  - intros results. unfold DnsSelector.working_servers.
    pose proof (list_sort_sorted DnsSelector.sort_key
                  (filter DnsSelector.working results)) as S.
    induction S as [|x l S IH F]; constructor; [exact IH|].
    eapply Forall_impl; [|exact F].
    intros y. apply ranks_before_key.
  - apply ranks_before_key.
  - apply ranks_before_key.
  - intros A B C arrival WA WB WC RA _ DA RB RC _ DC P.
    rewrite RA in WA. rewrite RB in WB. rewrite RC in WC.
    change (DnsSelector.working A = true) in WA.
    change (DnsSelector.working B = false) in WB.
    change (DnsSelector.working C = true) in WC.
    apply (Permutation_filter DnsSelector.working) in P.
    simpl in P. rewrite WA, WB, WC in P.
    unfold DnsSelector.working_servers.
    rewrite <- (list_sort_perm_eq DnsSelector.sort_key
                  (Permutation_sym P)).
    + simpl. unfold DnsSelector.sort_key. simpl. now rewrite DA, DC.
    + simpl. repeat split; auto. constructor; [|constructor].
      unfold DnsSelector.sort_key. simpl. now rewrite DA, DC.
Qed.

Lemma dns_ranking_order_witness :
  DnsSelector.working_servers
    [Scenario.server_b; Scenario.server_c; Scenario.server_a]
  = [Scenario.server_a; Scenario.server_c].
Proof.
  destruct dns_ranking_order as [_ [_ S]].
  apply (S Scenario.server_a Scenario.server_b Scenario.server_c);
    try reflexivity.
  eapply perm_trans; [apply perm_skip, perm_swap|]. apply perm_swap.
Defined.

(** C6.  The ranked list holds exactly the collected entries that pass the
    general threshold: in DNS mode those whose ['working'] is true, which
    for every dict the scheduler collects means a general success rate of
    at least 50; in registry mode those whose ['status'] is ['Working'].
    An entry that does not pass is nowhere in the ranked list. *)
Theorem ranked_are_eligible :
  (forall results r,
     In r (DnsSelector.working_servers results)
     <-> In r results /\ DnsSelector.working r = true)
  /\ (forall self nets completion results r,
        fst (DnsSelector.test_all_dns_servers self nets completion)
        = Ok results ->
        In r results ->
        (In r (DnsSelector.working_servers results)
         <-> fge (DnsSelector.success_rate r) (Fin 50) = true))
  /\ (forall mirrors r,
        In r (MirrorSelector.working_results mirrors)
        <-> In r mirrors /\ MirrorSelector.status r = "Working").
Proof.
  split; [exact working_servers_In|].
  split; [|exact working_results_In].
  intros self nets completion results r E I.
  destruct (SchedulerFacts.test_all_dns_servers_tested _ _ _ _ E I)
    as [server_name [info [_ T]]].
  rewrite working_servers_In, <- (DnsFacts.tested_working T). tauto.
Qed.

(** On the run of [twins], both servers answered every lookup and both are
    ranked. *)
Lemma ranked_are_eligible_witness :
  exists results,
    fst (DnsSelector.test_all_dns_servers Scenario.twins
           (fun _ => Scenario.answering) [1; 0]%nat) = Ok results
    /\ Forall
         (fun r =>
            In r (DnsSelector.working_servers results)
            <-> fge (DnsSelector.success_rate r) (Fin 50) = true)
         results.
Proof.
  destruct (fst (DnsSelector.test_all_dns_servers Scenario.twins
                   (fun _ => Scenario.answering) [1; 0]%nat))
    as [results|e] eqn:E; [|vm_compute in E; discriminate].
  exists results. split; [reflexivity|].
  apply Forall_forall. intros r I.
  destruct ranked_are_eligible as [_ [R _]].
  exact (R _ _ _ _ r E I).
Defined.

End RankingProperties.

(* ================================================================== *)
(** * Properties of the scheduler *)
(* ================================================================== *)

Section SchedulerProperties.
Import Py SchedulerFacts.
Local Open Scope string_scope.
Local Open Scope list_scope.

(** C2, a run that refutes it.  The tester of an entry without the key
    ['primary'] raises [KeyError]; the scheduler reports it (line 174) and
    returns a list with no entry for that server. *)
Lemma failed_tester_leaves_no_entry :
  future_of Scenario.no_primary (fun _ => Scenario.answering) "broken"
    {| DnsSelector.info_primary := None;
       DnsSelector.info_secondary := Some "10.0.0.9" |}
  = Raise KeyError
  /\ DnsSelector.test_all_dns_servers Scenario.no_primary
       (fun _ => Scenario.answering) [0%nat]
     = (Ok [],
        [DnsSelector.Testing 1 4; DnsSelector.TestFailed "broken" KeyError]).
Proof. split; reflexivity. Qed.

(** C2, as the code has it.  The list the scheduler returns holds the dicts
    of the testers that returned, in the order in which they finished, and
    nothing else, and the scheduler has then printed, after its head, one
    line for each finished future in that order: a tester that raised an
    exception is reported on the console (line 174, with the name of its
    server and the exception) and leaves no entry.  When every configured
    server finishes and no lookup is interrupted, the scheduler returns,
    and its list holds for every server whose tester returned exactly one
    entry under its name, the dict that tester returned, which has its
    line on the console, and for a server whose tester raised (which it
    only does, with [KeyError], on an entry without ['primary']) no entry
    but the line of the failed test; what the testers of the other servers
    did has no part in it. *)
Theorem scheduler_collects_returned :
  forall (self : DnsSelector.DNSSelector)
         (nets : string -> DnsSelector.network) (completion : list nat),
    let futures :=
      map (DnsSelector.submit self nets) (DnsSelector.dns_servers self) in
    let printed :=
      snd (DnsSelector.test_all_dns_servers self nets completion) in
    (forall results,
       fst (DnsSelector.test_all_dns_servers self nets completion)
       = Ok results ->
       results = returned (DnsSelector.as_completed futures completion)
       /\ printed
          = DnsSelector.Testing
              (List.length (DnsSelector.dns_servers self))
              (List.length (DnsSelector.test_domains self))
            :: map reported (DnsSelector.as_completed futures completion))
    /\ ((forall server_name, DnsFacts.polite (nets server_name)) ->
        Permutation completion
          (seq 0 (List.length (DnsSelector.dns_servers self))) ->
        exists results,
          fst (DnsSelector.test_all_dns_servers self nets completion)
          = Ok results
          /\ Permutation results (returned futures)
          /\ (NoDup (map fst (DnsSelector.dns_servers self)) ->
              forall server_name info,
                In (server_name, info) (DnsSelector.dns_servers self) ->
                match future_of self nets server_name info with
                | Ok r =>
                    entries_of server_name results = [r]
                    /\ In (if DnsSelector.working r
                           then DnsSelector.Passed r
                           else DnsSelector.NotWorking r) printed
                | Raise e =>
                    e = KeyError
                    /\ DnsSelector.info_primary info = None
                    /\ entries_of server_name results = []
                    /\ In (DnsSelector.TestFailed server_name e) printed
                end)).
Proof.
  intros self nets completion. cbv zeta.
  destruct (test_all_dns_servers_eq self nets completion) as [Ef Es].
  cbv zeta in Ef, Es.
  split.
  { intros results E. rewrite Ef in E. split.
    - now apply collect_Ok in E.
    - rewrite Es. f_equal. now apply collect_printed with (results := results). }
  intros P C.
  destruct (test_all_dns_servers_Ok self nets P C) as [results [E R]].
  exists results. split; [exact E|]. split; [exact R|].
  intros D server_name info I.
  assert (L : In (reported (server_name,
                            future_of self nets server_name info))
                (snd (DnsSelector.test_all_dns_servers self nets completion))).
  { rewrite Es. right.
    rewrite Ef in E. rewrite (collect_printed _ _ E).
    apply in_map.
    apply (Permutation_in (l := map (DnsSelector.submit self nets)
                                  (DnsSelector.dns_servers self))).
    - apply Permutation_sym, as_completed_perm. now rewrite length_map.
    - apply in_map_iff. exists (server_name, info). split; [reflexivity|exact I]. }
  apply (RankingFacts.Permutation_filter
           (fun r => String.eqb (DnsSelector.name r) server_name)) in R.
  fold (entries_of server_name results) in R.
  fold (entries_of server_name
          (returned (map (DnsSelector.submit self nets)
                       (DnsSelector.dns_servers self)))) in R.
  rewrite (entries_of_returned self nets _ _ info D I) in R.
  unfold reported in L. simpl in L.
  destruct (future_of self nets server_name info) as [r|e] eqn:F.
  - apply Permutation_sym, Permutation_length_1_inv in R.
    split; [exact R|exact L].
  - destruct (future_of_Raise self nets server_name info
                (P server_name) F) as [-> N].
    repeat split; [exact N| |exact L].
    apply Permutation_sym, Permutation_nil in R. exact R.
Qed.

(** On the run of [twins], whose lookups all answer, each of the two
    servers has its one entry, whichever finishes first. *)
Lemma scheduler_collects_returned_witness :
  exists results,
    fst (DnsSelector.test_all_dns_servers Scenario.twins
           (fun _ => Scenario.answering) [1; 0]%nat) = Ok results
    /\ List.length (entries_of "alpha" results) = 1%nat
    /\ List.length (entries_of "beta" results) = 1%nat.
Proof.
  assert (P : forall server_name : string,
            DnsFacts.polite ((fun _ => Scenario.answering) server_name)).
  { intros _ h req e E. discriminate. }
  assert (D : NoDup (map fst (DnsSelector.dns_servers Scenario.twins))).
  { repeat constructor; simpl; intuition discriminate. }
  assert (C : Permutation [1; 0]%nat
                (seq 0 (List.length (DnsSelector.dns_servers Scenario.twins)))).
  { apply perm_swap. }
  destruct (scheduler_collects_returned Scenario.twins
              (fun _ => Scenario.answering) [1; 0]%nat) as [_ S].
  destruct (S P C) as [results [E [_ A]]]. specialize (A D).
  exists results. split; [exact E|].
  split.
  - specialize (A "alpha"
                  {| DnsSelector.info_primary := Some "10.0.0.1";
                     DnsSelector.info_secondary := None |}
                  (or_introl eq_refl)).
    destruct (future_of _ _ _ _) as [r|e].
    + destruct A as [A _]. now rewrite A.
    + destruct A as [_ [A _]]. discriminate.
  - specialize (A "beta"
                  {| DnsSelector.info_primary := Some "10.0.0.2";
                     DnsSelector.info_secondary := None |}
                  (or_intror (or_introl eq_refl))).
    destruct (future_of _ _ _ _) as [r|e].
    + destruct A as [A _]. now rewrite A.
    + destruct A as [_ [A _]]. discriminate.
Defined.

End SchedulerProperties.

(* ================================================================== *)
(** * Properties of the registry ranking and of the selection *)
(* ================================================================== *)

Section SelectionProperties.
Import Py UstringFacts OrderLaws SortFacts SelectionFacts.
Local Open Scope string_scope.
Local Open Scope list_scope.

(** C5.  The score of a mirror is its connectivity time plus 1.5 times its
    manifest time, computed only when both checks succeeded; otherwise the
    score stays the sentinel and the status is not ['Working'].  The table
    of ranked mirrors holds exactly the mirrors with status ['Working'], in
    ascending order of score; the others are listed apart, each with its
    status (or, when no mirror works, all mirrors are listed with the
    outcome of their two checks and nothing is ranked).  For M (connectivity 0.2s, manifest 0.4s) and N (connectivity
    0.1s, manifest failed) the score of M is 0.8, the table is [M] and N is
    listed apart with ['Hub Access Failed']. *)
Theorem registry_score_and_ranking :
  (forall net reg h r h',
     MirrorSelector._test_single_registry net reg h = (Ok r, h') ->
     if MirrorSelector.connectivity_success r && MirrorSelector.hub_success r
     then
       MirrorSelector.total_score r
       = fadd (MirrorSelector.connectivity_time r)
           (fmul_const (MirrorSelector.hub_time r) 1.5)
       /\ MirrorSelector.status r = "Working"
     else
       MirrorSelector.total_score r = float_inf
       /\ MirrorSelector.status r <> "Working")
  /\ (forall results stdin,
        ranked_rows
          (snd (MirrorSelector.display_results_and_choose results stdin))
        = MirrorSelector.working_results results
        /\ (forall r,
              In r (MirrorSelector.working_results results)
              <-> In r results /\ MirrorSelector.status r = "Working")
        /\ StronglySorted
             (fun a b =>
                fle (MirrorSelector.total_score a)
                  (MirrorSelector.total_score b) = true)
             (MirrorSelector.working_results results)
        /\ (MirrorSelector.working_results results <> [] ->
            failed_rows
              (snd (MirrorSelector.display_results_and_choose results stdin))
            = map
                (fun r =>
                   (MirrorSelector.name r, MirrorSelector.mirror r,
                    MirrorSelector.status r))
                (MirrorSelector.failed_results results))
        /\ (MirrorSelector.working_results results = [] ->
            MirrorSelector.display_results_and_choose results stdin
            = (Ok None,
               MirrorSelector.NoWorkingMirrors
               :: map
                    (fun r =>
                       MirrorSelector.SummaryRow (MirrorSelector.name r)
                         (MirrorSelector.mirror r)
                         (MirrorSelector.connectivity_success r)
                         (MirrorSelector.hub_success r))
                    results)))
  /\ (forall net reg_m reg_n M N stdin,
        MirrorSelector.test_all_registries net [reg_m; reg_n] = Ok [M; N] ->
        feq (MirrorSelector.connectivity_time M) (Fin 0.2) = true ->
        MirrorSelector.hub_success M = true ->
        feq (MirrorSelector.hub_time M) (Fin 0.4) = true ->
        feq (MirrorSelector.connectivity_time N) (Fin 0.1) = true ->
        MirrorSelector.hub_success N = false ->
        feq (MirrorSelector.total_score M) (Fin 0.8) = true
        /\ MirrorSelector.working_results [M; N] = [M]
        /\ ranked_rows
             (snd (MirrorSelector.display_results_and_choose [M; N] stdin))
           = [M]
        /\ failed_rows
             (snd (MirrorSelector.display_results_and_choose [M; N] stdin))
           = [(MirrorSelector.name N, MirrorSelector.mirror N,
               "Hub Access Failed")]).
Proof.
  split; [|split].
  - intros net reg h r h' E.
    apply MirrorFacts._test_single_registry_Ok in E.
    destruct E as [_ [_ [_ [reqs [T _]]]]].
    destruct T as [C Ct H Ht S St|C Ct H Ht S St|C Ct H Ht S St];
      rewrite C, H, St; simpl; split;
      try assumption; try reflexivity; discriminate.
  - intros results stdin.
    destruct (display_rows results stdin) as [R F].
    split; [exact R|].
    split; [intros r; apply RankingFacts.working_results_In|].
    split; [|split; [exact F|]].
    2: { unfold MirrorSelector.display_results_and_choose.
         now intros ->. }
    unfold MirrorSelector.working_results.
    pose proof (list_sort_sorted MirrorSelector.total_score
                  (filter MirrorSelector.is_working results)) as S.
    induction S as [|x l S IH G]; constructor; [exact IH|].
    eapply Forall_impl; [|exact G].
    intros y. unfold key_le. simpl.
    destruct (MirrorSelector.total_score x),
      (MirrorSelector.total_score y); simpl; intros ?; q_cases.
  - intros net reg_m reg_n M N stdin E CM HM TM CN HN.
    unfold MirrorSelector.test_all_registries in E.
    destruct (MirrorSelector.test_registries net [reg_m; reg_n] [])
      as [o h'] eqn:R. simpl in E. subst o.
    apply MirrorFacts.test_registries_Ok in R.
    inversion R as [|? ? ? ? PM R']; subst.
    inversion R' as [|? ? ? ? PN _]; subst.
    destruct PM as [h1 [h2 PM]]. destruct PN as [h3 [h4 PN]].
    apply MirrorFacts._test_single_registry_Ok in PM, PN.
    destruct PM as [_ [_ [_ [reqs [TM' _]]]]].
    destruct PN as [_ [_ [_ [reqs' [TN' _]]]]].
    assert (SM : MirrorSelector.status M = "Working"
                 /\ feq (MirrorSelector.total_score M) (Fin 0.8) = true).
    { destruct TM' as [C Ct H Ht S St|C Ct H Ht S St|C Ct H Ht S St];
        try congruence.
      split; [exact St|]. rewrite S.
      destruct (MirrorSelector.connectivity_time M) as [a|]; [|discriminate].
      destruct (MirrorSelector.hub_time M) as [b|]; [|discriminate].
      simpl in *. q_props. apply Qeq_bool_iff. lra. }
    assert (SN : MirrorSelector.status N = "Hub Access Failed").
    { destruct TN' as [C Ct H Ht S St|C Ct H Ht S St|C Ct H Ht S St];
        try congruence.
      rewrite Ct in CN. discriminate. }
    destruct SM as [SM ScM].
    assert (W : MirrorSelector.working_results [M; N] = [M]).
    { unfold MirrorSelector.working_results, MirrorSelector.is_working.
      simpl. now rewrite SM, SN. }
    destruct (display_rows [M; N] stdin) as [Rr Fr].
    rewrite W in Rr, Fr.
    repeat split; try assumption.
    rewrite Fr by discriminate.
    unfold MirrorSelector.failed_results, MirrorSelector.is_working.
    simpl. rewrite SM, SN. simpl. now rewrite SN.
Qed.

(** The two mirrors of the run [two_mirrors]. *)
Lemma registry_score_and_ranking_witness :
  exists M N,
    MirrorSelector.test_all_registries Scenario.two_mirrors
      [Scenario.mirror_m; Scenario.mirror_n] = Ok [M; N]
    /\ feq (MirrorSelector.total_score M) (Fin 0.8) = true
    /\ MirrorSelector.working_results [M; N] = [M]
    /\ failed_rows
         (snd (MirrorSelector.display_results_and_choose [M; N] [Line "q"]))
       = [("Registry_2", "n.example/", "Hub Access Failed")].
Proof.
  destruct (MirrorSelector.test_all_registries Scenario.two_mirrors
              [Scenario.mirror_m; Scenario.mirror_n])
    as [[|M [|N [|X rest]]]|e] eqn:E;
    try (vm_compute in E; discriminate).
  exists M, N. split; [reflexivity|].
  destruct registry_score_and_ranking as [_ [_ S]].
  assert (F : feq (MirrorSelector.connectivity_time M) (Fin 0.2) = true
              /\ MirrorSelector.hub_success M = true
              /\ feq (MirrorSelector.hub_time M) (Fin 0.4) = true
              /\ feq (MirrorSelector.connectivity_time N) (Fin 0.1) = true
              /\ MirrorSelector.hub_success N = false
              /\ MirrorSelector.name N = "Registry_2"
              /\ MirrorSelector.mirror N = "n.example/").
  { vm_compute in E. inversion E; subst M N. vm_compute. tauto. }
  destruct F as [F1 [F2 [F3 [F4 [F5 [F6 F7]]]]]].
  destruct (S _ _ _ M N [Line "q"] E F1 F2 F3 F4 F5) as [S1 [S2 [_ S4]]].
  rewrite S4, F6, F7. repeat split; assumption.
Defined.




End SelectionProperties.

(* ================================================================== *)
(** * Further properties *)
(* ================================================================== *)

Section MoreTesterProperties.
Import Py IoFacts TesterFacts.
Local Open Scope string_scope.
Local Open Scope list_scope.

(** X1.  In every dict [_test_dns_server] returns, each battery has at most
    as many successes as domains, its average is the sentinel exactly when
    it has no success, and otherwise total and average are finite and the
    average is what the division of the total by the number of successes
    gives (lines 100 and 135). *)
Theorem battery_averages :
  forall (self : DnsSelector.DNSSelector) (net : DnsSelector.network)
         (server_name : string) (info : DnsSelector.server_info)
         (h h' : list DnsSelector.request) (r : DnsSelector.dns_result),
    DnsSelector._test_dns_server self net server_name info h = (Ok r, h') ->
    ((DnsSelector.success_count r
      <= List.length (DnsSelector.test_domains self))%nat
     /\ (DnsSelector.avg_time r = float_inf
         <-> DnsSelector.success_count r = O)
     /\ (DnsSelector.success_count r <> O ->
         exists total avg,
           DnsSelector.total_time r = Fin total
           /\ DnsSelector.avg_time r = Fin avg
           /\ float_truediv (DnsSelector.total_time r)
                (DnsSelector.success_count r)
              = Ok (DnsSelector.avg_time r)))
    /\ ((DnsSelector.docker_success_count r
         <= List.length (DnsSelector.docker_domains self))%nat
        /\ (DnsSelector.docker_avg_time r = float_inf
            <-> DnsSelector.docker_success_count r = O)
        /\ (DnsSelector.docker_success_count r <> O ->
            exists total avg,
              DnsSelector.docker_total_time r = Fin total
              /\ DnsSelector.docker_avg_time r = Fin avg
              /\ float_truediv (DnsSelector.docker_total_time r)
                   (DnsSelector.docker_success_count r)
                 = Ok (DnsSelector.docker_avg_time r))).
Proof.
  intros self net server_name info h h' r E.
  pose proof (_test_dns_server_measured _ _ _ _ _ E) as M.
  apply DnsFacts._test_dns_server_Ok in E. destruct E as [T _].
  split.
  - split; [apply (DnsFacts.tested_count T)|].
    split; [|apply (measured_avg M)].
    split.
    + intros A. destruct (DnsSelector.success_count r) eqn:C; [reflexivity|].
      destruct (measured_avg M) as [total [avg [_ [B _]]]];
        [now rewrite C|]. rewrite B in A. discriminate A.
    + intros C. now apply (DnsFacts.tested_none T).
  - split; [apply (DnsFacts.tested_docker_count T)|].
    split; [|apply (measured_docker_avg M)].
    split.
    + intros A.
      destruct (DnsSelector.docker_success_count r) eqn:C; [reflexivity|].
      destruct (measured_docker_avg M) as [total [avg [_ [B _]]]];
        [now rewrite C|]. rewrite B in A. discriminate A.
    + intros C. now apply (DnsFacts.tested_docker_none T).
Qed.

(** Every lookup answers in 0.25s: four general successes, whose average
    is their total divided by 4. *)
Lemma battery_averages_witness :
  exists r,
    fst (DnsSelector._test_dns_server (DnsSelector.init [])
           Scenario.answering "Google"
           {| DnsSelector.info_primary := Some "8.8.8.8";
              DnsSelector.info_secondary := None |} [])
    = Ok r
    /\ DnsSelector.success_count r = 4%nat
    /\ exists total avg,
         DnsSelector.total_time r = Fin total
         /\ DnsSelector.avg_time r = Fin avg
         /\ float_truediv (DnsSelector.total_time r) 4
            = Ok (DnsSelector.avg_time r).
Proof.
  destruct (DnsSelector._test_dns_server (DnsSelector.init [])
              Scenario.answering "Google"
              {| DnsSelector.info_primary := Some "8.8.8.8";
                 DnsSelector.info_secondary := None |} [])
    as [[r|e] h'] eqn:E; [|vm_compute in E; discriminate].
  exists r. split; [reflexivity|].
  assert (C : DnsSelector.success_count r = 4%nat).
  { vm_compute in E. inversion E; subst r. reflexivity. }
  split; [exact C|].
  destruct (battery_averages _ _ _ _ _ E) as [[_ [_ A]] _].
  destruct A as [total [avg [A1 [A2 A3]]]]; [now rewrite C|].
  exists total, avg. rewrite C in A3. repeat split; assumption.
Defined.

(** X2.  In every dict [_test_dns_server] returns, ['working'] is true
    exactly when at least one general lookup and at least half of them
    succeeded, and ['docker_working'] exactly when at least one Docker
    lookup and at least 66 in 100 of them succeeded.  With the domains of
    [__init__] (four general, three Docker) each flag means at least two
    successes. *)
Theorem eligibility_in_counts :
  forall (self : DnsSelector.DNSSelector) (net : DnsSelector.network)
         (server_name : string) (info : DnsSelector.server_info)
         (h h' : list DnsSelector.request) (r : DnsSelector.dns_result),
    DnsSelector._test_dns_server self net server_name info h = (Ok r, h') ->
    (DnsSelector.working r = true
     <-> (1 <= DnsSelector.success_count r
          /\ List.length (DnsSelector.test_domains self)
             <= 2 * DnsSelector.success_count r)%nat)
    /\ (DnsSelector.docker_working r = true
        <-> (1 <= DnsSelector.docker_success_count r
             /\ 66 * List.length (DnsSelector.docker_domains self)
                <= 100 * DnsSelector.docker_success_count r)%nat)
    /\ (forall servers,
          self = DnsSelector.init servers ->
          (DnsSelector.working r = true
           <-> (2 <= DnsSelector.success_count r)%nat)
          /\ (DnsSelector.docker_working r = true
              <-> (2 <= DnsSelector.docker_success_count r)%nat)).
Proof.
  intros self net server_name info h h' r E.
  apply _test_dns_server_measured in E.
  pose proof (measured_working E) as W.
  pose proof (measured_docker_working E) as D.
  assert (G : DnsSelector.working r = true
              <-> (1 <= DnsSelector.success_count r
                   /\ List.length (DnsSelector.test_domains self)
                      <= 2 * DnsSelector.success_count r)%nat).
  { rewrite W, andb_true_iff, negb_true_iff, Nat.eqb_neq, Nat.leb_le. lia. }
  assert (K : DnsSelector.docker_working r = true
              <-> (1 <= DnsSelector.docker_success_count r
                   /\ 66 * List.length (DnsSelector.docker_domains self)
                      <= 100 * DnsSelector.docker_success_count r)%nat).
  { rewrite D, andb_true_iff, negb_true_iff, Nat.eqb_neq, Nat.leb_le. lia. }
  split; [exact G|]. split; [exact K|].
  intros servers ->. rewrite G, K.
  change (List.length (DnsSelector.test_domains (DnsSelector.init servers)))
    with 4%nat.
  change (List.length (DnsSelector.docker_domains (DnsSelector.init servers)))
    with 3%nat.
  lia.
Qed.

(** One general success out of four is not enough, two are. *)
Lemma eligibility_in_counts_witness :
  exists r,
    fst (DnsSelector._test_dns_server (DnsSelector.init [])
           Scenario.answering "Google"
           {| DnsSelector.info_primary := Some "8.8.8.8";
              DnsSelector.info_secondary := None |} [])
    = Ok r
    /\ (DnsSelector.working r = true
        <-> (2 <= DnsSelector.success_count r)%nat).
Proof.
  destruct (DnsSelector._test_dns_server (DnsSelector.init [])
              Scenario.answering "Google"
              {| DnsSelector.info_primary := Some "8.8.8.8";
                 DnsSelector.info_secondary := None |} [])
    as [[r|e] h'] eqn:E; [|vm_compute in E; discriminate].
  exists r. split; [reflexivity|].
  destruct (eligibility_in_counts _ _ _ _ _ E) as [_ [_ A]].
  destruct (A [] eq_refl) as [A1 _]. exact A1.
Defined.

(** X3.  ['docker_details'] holds one entry per Docker domain, in the order
    of [docker_domains]; an entry carries a time exactly when its lookup
    succeeded, and that time is finite; ['docker_success_count'] is the
    number of successful entries and ['docker_total_time'] the sum of their
    times. *)
Theorem docker_details_record :
  forall (self : DnsSelector.DNSSelector) (net : DnsSelector.network)
         (server_name : string) (info : DnsSelector.server_info)
         (h h' : list DnsSelector.request) (r : DnsSelector.dns_result),
    DnsSelector._test_dns_server self net server_name info h = (Ok r, h') ->
    map DnsSelector.detail_domain (DnsSelector.docker_details r)
    = DnsSelector.docker_domains self
    /\ Forall
         (fun d =>
            match DnsSelector.detail_time d with
            | Some t =>
                DnsSelector.detail_success d = true /\ is_finite t = true
            | None => DnsSelector.detail_success d = false
            end)
         (DnsSelector.docker_details r)
    /\ DnsSelector.docker_success_count r
       = List.length
           (filter DnsSelector.detail_success (DnsSelector.docker_details r))
    /\ DnsSelector.docker_total_time r
       = fsum (detail_times (DnsSelector.docker_details r)).
Proof.
  intros self net server_name info h h' r E.
  apply _test_dns_server_measured in E. exact (measured_details E).
Qed.

(** All lookups time out: three entries, none with a time. *)
Lemma docker_details_record_witness :
  exists r,
    fst (DnsSelector._test_dns_server (DnsSelector.init [])
           Scenario.silent "Google"
           {| DnsSelector.info_primary := Some "8.8.8.8";
              DnsSelector.info_secondary := None |} [])
    = Ok r
    /\ map DnsSelector.detail_domain (DnsSelector.docker_details r)
       = ["download.docker.com"; "registry-1.docker.io"; "auth.docker.io"]
    /\ DnsSelector.docker_success_count r
       = List.length
           (filter DnsSelector.detail_success (DnsSelector.docker_details r)).
Proof.
  destruct (DnsSelector._test_dns_server (DnsSelector.init [])
              Scenario.silent "Google"
              {| DnsSelector.info_primary := Some "8.8.8.8";
                 DnsSelector.info_secondary := None |} [])
    as [[r|e] h'] eqn:E; [|vm_compute in E; discriminate].
  exists r. split; [reflexivity|].
  destruct (docker_details_record _ _ _ _ _ E) as [A [_ [B _]]].
  split; assumption.
Defined.

End MoreTesterProperties.

Section PipelineProperties.
Import Py OrderLaws SortFacts RankingFacts SelectionFacts LoopFacts.
Import PipelineFacts.
Local Open Scope string_scope.
Local Open Scope list_scope.

(** X4.  When the DNS selection returns a pair of addresses, it is the
    primary address of a configured server together with that entry's
    secondary address (or the empty string); the tester of that server
    returned, with at least one and at least half of the general lookups
    answered, and the transcript names that server as selected. *)
Theorem selected_server_is_configured :
  forall (self : DnsSelector.DNSSelector)
         (nets : string -> DnsSelector.network) (completion : list nat)
         (stdin : list stdin_event) (p s : string)
         (out : list DnsSelector.line),
    DnsSelector.select_dns_interactive self nets completion stdin
    = (Ok (Some (p, s)), out) ->
    exists server_name info r,
      In (server_name, info) (DnsSelector.dns_servers self)
      /\ DnsSelector.info_primary info = Some p
      /\ s = DnsSelector.get_secondary info
      /\ fst (DnsSelector._test_dns_server self (nets server_name)
                server_name info [])
         = Ok r
      /\ DnsSelector.working r = true
      /\ (1 <= DnsSelector.success_count r)%nat
      /\ (List.length (DnsSelector.test_domains self)
          <= 2 * DnsSelector.success_count r)%nat
      /\ In (DnsSelector.Selected r) out.
Proof.
  intros self nets completion stdin p s out E.
  unfold DnsSelector.select_dns_interactive in E.
  destruct (fst (DnsSelector.test_all_dns_servers self nets completion))
    as [results|e] eqn:T; [|discriminate].
  unfold DnsSelector.choose in E.
  destruct (filter DnsSelector.working results) eqn:F; [discriminate|].
  destruct (DnsSelector.selection_loop
              (DnsSelector.working_servers results) stdin)
    as [o out'] eqn:L.
  inversion E; subst o out. clear E.
  apply selection_loop_Some in L. destruct L as [r [I [P S]]].
  inversion P; subst p s. clear P.
  apply working_servers_In in I. destruct I as [I W].
  destruct (test_all_dns_servers_future _ _ _ _ T I)
    as [server_name [info [C Fu]]].
  destruct (future_of_Ok _ _ _ _ Fu) as [Te M].
  exists server_name, info, r.
  split; [exact C|]. split; [apply (DnsFacts.tested_primary Te)|].
  split; [apply (DnsFacts.tested_secondary Te)|].
  split; [exact Fu|]. split; [exact W|].
  pose proof (TesterFacts.measured_working M) as MW. rewrite W in MW.
  symmetry in MW. apply andb_true_iff in MW. destruct MW as [N H].
  apply negb_true_iff, Nat.eqb_neq in N. apply Nat.leb_le in H.
  split; [lia|]. split; [lia|].
  apply in_or_app. now right.
Qed.

(** Two servers that answer alike; the operator types [1]. *)
Lemma selected_server_is_configured_witness :
  exists server_name info,
    In (server_name, info) (DnsSelector.dns_servers Scenario.twins)
    /\ DnsSelector.info_primary info = Some "10.0.0.1"
    /\ DnsSelector.get_secondary info = "".
Proof.
  assert (E : DnsSelector.select_dns_interactive Scenario.twins
                (fun _ => Scenario.answering) [0; 1]%nat [Line "1"]
              = (Ok (Some ("10.0.0.1", "")),
                 snd (DnsSelector.select_dns_interactive Scenario.twins
                        (fun _ => Scenario.answering) [0; 1]%nat
                        [Line "1"]))).
  { vm_compute. reflexivity. }
  destruct (selected_server_is_configured _ _ _ _ E)
    as [server_name [info [r [I [P [S _]]]]]].
  exists server_name, info. split; [exact I|]. split; [exact P|].
  now symmetry.
Defined.


(** X6.  The number printed before a row of the table is the number that
    selects that row.  In DNS mode typing it returns the addresses of the
    server of the row at once.  In registry mode typing it shows the mirror
    of the row; a following [y] or [yes] returns that mirror, any other
    line prints a message and opens the menu again. *)
Theorem row_number_selects_row :
  forall (ranked : list DnsSelector.dns_result)
         (mirrors : list MirrorSelector.registry_result)
         (s c : ustring) (rest : list stdin_event) (i : nat),
    py_int (lower (strip s)) = Ok (Z.of_nat i) ->
    (forall r docker_ranked,
       In (DnsSelector.TableRow i r) (DnsSelector.report ranked docker_ranked) ->
       DnsSelector.selection_loop ranked (Line s :: rest)
       = (Ok (Some (DnsSelector.primary r, DnsSelector.secondary r)),
          [DnsSelector.Prompt (List.length ranked); DnsSelector.Selected r]))
    /\ (forall m failed,
          In (MirrorSelector.TableRow i m)
            (MirrorSelector.report mirrors failed) ->
          MirrorSelector.choice_loop mirrors (Line s :: Line c :: rest)
          = if MirrorSelector.confirmed (lower (strip c)) then
              (Ok (Some m),
               [MirrorSelector.Menu (List.length mirrors);
                MirrorSelector.Chosen m])
            else
              (fst (MirrorSelector.choice_loop mirrors rest),
               MirrorSelector.Menu (List.length mirrors)
               :: MirrorSelector.Chosen m :: MirrorSelector.SelectionCancelled
               :: snd (MirrorSelector.choice_loop mirrors rest))).
Proof.
  intros ranked mirrors s c rest i P. split.
  - intros r docker_ranked I. apply selection_loop_row with (i := i);
      [|exact P].
    unfold DnsSelector.report in I. apply in_app_or in I.
    destruct I as [I|I].
    + apply in_map_iff in I. destruct I as [[j x] [E I]].
      simpl in E. now inversion E; subst.
    + exfalso. apply in_app_or in I. destruct I as [I|I].
      * apply in_flat_map in I. destruct I as [x [_ I]].
        destruct (DnsSelector.docker_details x);
          [contradiction|destruct I as [I|[]]; discriminate].
      * destruct docker_ranked; [contradiction|].
        destruct I as [I|[]]; discriminate.
  - intros m failed I.
    rewrite (choice_loop_number mirrors s (Line c :: rest) i m);
      [reflexivity| |exact P].
    unfold MirrorSelector.report in I. apply in_app_or in I.
    destruct I as [I|I].
    + apply in_map_iff in I. destruct I as [[j x] [E I]].
      simpl in E. now inversion E; subst.
    + exfalso. apply in_app_or in I. destruct I as [I|I].
      * destruct failed; [contradiction|].
        destruct I as [I|I]; [discriminate|].
        apply in_map_iff in I. destruct I as [x [E _]]. discriminate.
      * destruct mirrors; [contradiction|].
        destruct I as [I|[]]; discriminate.
Qed.

(** Of the ranked servers A and C, the line [2] selects C. *)
Lemma row_number_selects_row_witness :
  DnsSelector.selection_loop [Scenario.server_a; Scenario.server_c]
    [Line " 2 "]
  = (Ok (Some ("10.0.0.3", "")),
     [DnsSelector.Prompt 2; DnsSelector.Selected Scenario.server_c]).
Proof.
  apply (proj1 (row_number_selects_row
                  [Scenario.server_a; Scenario.server_c] [] " 2 " "" []
                  2 eq_refl)
           Scenario.server_c []).
  simpl. right. now left.
Defined.

(** X7.  When the registry selection returns a mirror, that mirror is one of
    the configured ones, under its configured name and with its configured
    ['insecure'] flag; both of its checks succeeded, its status is
    ['Working'] and its score finite; and the operator typed the number of
    its row and then confirmed with [y] or [yes]. *)
Theorem chosen_mirror_is_confirmed :
  forall (net : MirrorSelector.network)
         (registry_mirrors : list MirrorSelector.registry)
         (results : list MirrorSelector.registry_result)
         (stdin : list stdin_event) (sel : MirrorSelector.registry_result)
         (out : list MirrorSelector.line),
    MirrorSelector.test_all_registries net registry_mirrors = Ok results ->
    MirrorSelector.display_results_and_choose results stdin
    = (Ok (Some sel), out) ->
    (exists reg,
       In reg registry_mirrors
       /\ MirrorSelector.name sel = MirrorSelector.reg_name reg
       /\ MirrorSelector.mirror sel = MirrorSelector.reg_mirror reg
       /\ MirrorSelector.insecure sel = MirrorSelector.reg_insecure reg)
    /\ MirrorSelector.connectivity_success sel = true
    /\ MirrorSelector.hub_success sel = true
    /\ MirrorSelector.status sel = "Working"
    /\ is_finite (MirrorSelector.total_score sel) = true
    /\ In (MirrorSelector.Chosen sel) out
    /\ exists pre s c rest i,
         stdin = pre ++ Line s :: Line c :: rest
         /\ py_int (lower (strip s)) = Ok (Z.of_nat i)
         /\ In (MirrorSelector.TableRow i sel) out
         /\ MirrorSelector.confirmed (lower (strip c)) = true.
Proof.
  intros net registry_mirrors results stdin sel out T E.
  unfold MirrorSelector.test_all_registries in T.
  destruct (MirrorSelector.test_registries net registry_mirrors [])
    as [o h'] eqn:R.
  simpl in T. subst o. apply MirrorFacts.test_registries_Ok in R.
  unfold MirrorSelector.display_results_and_choose in E.
  destruct (MirrorSelector.working_results results) as [|b tl] eqn:W;
    [discriminate|].
  rewrite <- W in E.
  destruct (MirrorSelector.choice_loop
              (MirrorSelector.working_results results) stdin)
    as [o out'] eqn:L.
  inversion E; subst o out. clear E.
  apply choice_loop_Some with (n := List.length stdin) in L;
    [|apply Nat.le_refl].
  destruct L as [C [pre [s [c [rest [k [-> [P [K [N Y]]]]]]]]]].
  assert (I : In sel (MirrorSelector.working_results results))
    by (eapply nth_error_In; eassumption).
  apply working_results_In in I. destruct I as [I St].
  destruct (Forall2_In_r sel R I) as [reg [Ir [h [h1 Pr]]]].
  apply MirrorFacts._test_single_registry_Ok in Pr.
  destruct Pr as [En [Em [Ei [reqs [Te _]]]]].
  split; [now exists reg|].
  assert (B : MirrorSelector.connectivity_success sel = true
              /\ MirrorSelector.hub_success sel = true
              /\ is_finite (MirrorSelector.total_score sel) = true).
  { destruct Te as [? ? ? ? ? X|? ? ? ? ? X|Cs Ct Hs Ht Sc X];
      try (rewrite St in X; discriminate).
    split; [exact Cs|]. split; [exact Hs|]. rewrite Sc.
    destruct (MirrorSelector.connectivity_time sel); [|discriminate].
    destruct (MirrorSelector.hub_time sel); [|discriminate].
    reflexivity. }
  destruct B as [B1 [B2 B3]].
  split; [exact B1|]. split; [exact B2|]. split; [exact St|].
  split; [exact B3|].
  split; [apply in_or_app; now right|].
  exists pre, s, c, rest, (Z.to_nat k).
  split; [reflexivity|]. split; [rewrite P; f_equal; lia|].
  split; [|exact Y].
  apply in_or_app. left. unfold MirrorSelector.report.
  apply in_or_app. left. apply in_map_iff.
  exists (Z.to_nat k, sel). split; [reflexivity|].
  rewrite enumerate_eq.
  replace (Z.to_nat k) with (1 + Z.to_nat (k - 1))%nat by lia.
  now apply nth_error_enumerate.
Qed.

(** The run [two_mirrors]; the operator types [1], then [y]. *)
Lemma chosen_mirror_is_confirmed_witness :
  exists reg,
    In reg [Scenario.mirror_m; Scenario.mirror_n]
    /\ MirrorSelector.reg_mirror reg = "https://m.example".
Proof.
  destruct (MirrorSelector.test_all_registries Scenario.two_mirrors
              [Scenario.mirror_m; Scenario.mirror_n])
    as [results|e] eqn:T; [|vm_compute in T; discriminate].
  destruct (MirrorSelector.display_results_and_choose results
              [Line "1"; Line "y"])
    as [[[sel|]|e] out] eqn:D.
  - destruct (chosen_mirror_is_confirmed _ _ _ T D)
      as [[reg [I [_ [M _]]]] _].
    exists reg. split; [exact I|]. rewrite <- M.
    vm_compute in T. inversion T; subst results.
    vm_compute in D. inversion D; subst sel. reflexivity.
  - vm_compute in T. inversion T; subst results.
    vm_compute in D. discriminate.
  - vm_compute in T. inversion T; subst results.
    vm_compute in D. discriminate.
Defined.

(** X8.  The server the DNS report recommends is the first collected
    entry that passes the Docker threshold, in the order of arrival: it is
    taken from the collected list, not from the ranked one, so it need not
    stand in the table at all.  The mirror the registry report names as
    fastest is the first row of its table, and no working mirror has a
    smaller score. *)
Theorem banner_lines :
  (forall results stdin b,
     In (DnsSelector.Recommended b) (snd (DnsSelector.choose results stdin))
     <-> filter DnsSelector.working results <> []
         /\ exists pre post,
              results = pre ++ b :: post
              /\ Forall (fun r => DnsSelector.docker_working r = false) pre
              /\ DnsSelector.docker_working b = true)
  /\ (exists results b,
        forall stdin,
          In (DnsSelector.Recommended b)
            (snd (DnsSelector.choose results stdin))
          /\ forall i,
               ~ In (DnsSelector.TableRow i b)
                   (snd (DnsSelector.choose results stdin)))
  /\ (forall results stdin b,
        In (MirrorSelector.Fastest b)
          (snd (MirrorSelector.display_results_and_choose results stdin))
        <-> exists tl, MirrorSelector.working_results results = b :: tl)
  /\ (forall results b tl r,
        MirrorSelector.working_results results = b :: tl ->
        In r results ->
        MirrorSelector.status r = "Working" ->
        fle (MirrorSelector.total_score b) (MirrorSelector.total_score r)
        = true).
Proof.
  assert (D : forall results stdin b,
            In (DnsSelector.Recommended b)
              (snd (DnsSelector.choose results stdin))
            <-> filter DnsSelector.working results <> []
                /\ exists tl,
                     filter DnsSelector.docker_working results = b :: tl).
  { intros results stdin b. unfold DnsSelector.choose.
    destruct (filter DnsSelector.working results) as [|w ws] eqn:F.
    { simpl. split.
      - intros [I|[]]; discriminate.
      - intros [N _]. now elim N. }
    destruct (DnsSelector.selection_loop
                (DnsSelector.working_servers results) stdin)
      as [o out] eqn:L.
    simpl. unfold DnsSelector.report, DnsSelector.docker_working_servers.
    split.
    - intros I. split; [discriminate|].
      apply in_app_or in I. destruct I as [I|I].
      + apply in_app_or in I. destruct I as [I|I].
        * apply in_map_iff in I. destruct I as [x [E _]]. discriminate.
        * apply in_app_or in I. destruct I as [I|I].
          -- apply in_flat_map in I. destruct I as [x [_ I]].
             destruct (DnsSelector.docker_details x);
               [contradiction|destruct I as [I|[]]; discriminate].
          -- destruct (filter DnsSelector.docker_working results)
               as [|y tl]; [contradiction|].
             destruct I as [I|[]]. inversion I; subst. now exists tl.
      + exfalso.
        apply (selection_loop_no_Recommended
                 (DnsSelector.working_servers results) stdin b).
        now rewrite L.
    - intros [_ [tl E]]. rewrite E.
      apply in_or_app. left. apply in_or_app. right.
      apply in_or_app. right. now left. }
  split; [|split; [|split]].
  - intros results stdin b. rewrite D.
    now rewrite (filter_head DnsSelector.docker_working results b).
  - exists [Scenario.server_b; Scenario.server_c], Scenario.server_b.
    intros stdin. split.
    + apply D. split; [simpl; discriminate|]. now exists [].
    + intros i I. unfold DnsSelector.choose in I. simpl filter in I.
      destruct (DnsSelector.selection_loop
                  (DnsSelector.working_servers
                     [Scenario.server_b; Scenario.server_c]) stdin)
        as [o out] eqn:L.
      simpl in I.
      destruct I as [I|[I|I]]; try discriminate.
      assert (O : out = snd (DnsSelector.selection_loop
                               (DnsSelector.working_servers
                                  [Scenario.server_b; Scenario.server_c])
                               stdin)) by now rewrite L.
      clear L. subst out. revert I.
      generalize (DnsSelector.working_servers
                    [Scenario.server_b; Scenario.server_c]).
      intros ranked. induction stdin as [|[s|] rest IH]; simpl.
      * intros [I|[]]; discriminate.
      * destruct (ustring_eqb (lower (strip s)) "q").
        { intros [I|[I|[]]]; discriminate. }
        destruct (py_int (lower (strip s))) as [k|e'] eqn:P.
        -- destruct ((1 <=? k) && (k <=? Z.of_nat (List.length ranked)))%Z.
           ++ destruct (nth_error ranked (Z.to_nat (k - 1))).
              ** intros [I|[I|[]]]; discriminate.
              ** intros [I|[]]; discriminate.
           ++ destruct (DnsSelector.selection_loop ranked rest) as [r out].
              intros [I|[I|I]]; try discriminate. now apply IH.
        -- pose proof (py_int_Raise _ P) as ->. simpl.
           destruct (DnsSelector.selection_loop ranked rest) as [r out].
           intros [I|[I|I]]; try discriminate. now apply IH.
      * intros [I|[I|[]]]; discriminate.
  - intros results stdin b.
    unfold MirrorSelector.display_results_and_choose.
    destruct (MirrorSelector.working_results results) as [|w ws] eqn:W.
    { simpl. split.
      - intros [I|I]; [discriminate|]. apply in_map_iff in I.
        destruct I as [x [E _]]. discriminate.
      - intros [tl E]. discriminate. }
    destruct (MirrorSelector.choice_loop (w :: ws) stdin) as [o out] eqn:L.
    cbv beta iota delta [snd]. split.
    + intros I. apply in_app_or in I. destruct I as [I|I].
      * unfold MirrorSelector.report in I.
        apply in_app_or in I. destruct I as [I|I].
        { apply in_map_iff in I. destruct I as [x [E _]]. discriminate. }
        apply in_app_or in I. destruct I as [I|I].
        { destruct (MirrorSelector.failed_results results);
            [contradiction|].
          destruct I as [I|I]; [discriminate|].
          apply in_map_iff in I. destruct I as [x [E _]]. discriminate. }
        destruct I as [I|[]]. inversion I; subst. now exists ws.
      * exfalso.
        pose proof (@choice_loop_dialogue (w :: ws) (List.length stdin)
                      stdin (Nat.le_refl _)) as F.
        rewrite L in F. simpl in F. rewrite Forall_forall in F.
        apply (F _ I).
    + intros [tl E]. inversion E; subst.
      apply in_or_app. left. unfold MirrorSelector.report.
      apply in_or_app. right. apply in_or_app. right. now left.
  - intros results b tl r W I St.
    assert (J : In r (MirrorSelector.working_results results))
      by now apply working_results_In.
    pose proof (list_sort_sorted MirrorSelector.total_score
                  (filter MirrorSelector.is_working results)) as S.
    fold (MirrorSelector.working_results results) in S.
    rewrite W in S, J. inversion S as [|? ? _ G]; subst.
    destruct J as [<-|J].
    + destruct (MirrorSelector.total_score b) as [q|]; simpl;
        [|reflexivity].
      apply Qle_bool_iff. apply Qle_refl.
    + rewrite Forall_forall in G. specialize (G r J).
      unfold key_le in G. simpl in G.
      destruct (MirrorSelector.total_score b),
        (MirrorSelector.total_score r); simpl in *; q_cases.
Qed.

End PipelineProperties.

Section RegistryRunProperties.
Import Py MirrorSelector MirrorFacts RegistryRunFacts.
Local Open Scope string_scope.
Local Open Scope list_scope.

(** X9.  [test_all_registries] returns one dict per configured mirror, in
    the order of the configuration, under the configured name, address and
    ['insecure'] flag.  The requests of the run are, mirror after mirror in
    that order, the [/v2/] check and, only when that check succeeded, the
    manifest: between one and two requests per mirror. *)
Theorem registries_tested_in_order :
  forall (net : network) (registry_mirrors : list registry)
         (h h' : list request) (results : list registry_result),
    test_registries net registry_mirrors h = (Ok results, h') ->
    test_all_registries net registry_mirrors
    = fst (test_registries net registry_mirrors [])
    /\ Forall2
         (fun reg r =>
            name r = reg_name reg /\ mirror r = reg_mirror reg
            /\ insecure r = reg_insecure reg)
         registry_mirrors results
    /\ h' = h ++ flat_map
                   (fun r =>
                      connectivity_request (mirror r) 10
                      :: (if connectivity_success r
                          then [hub_request (mirror r) 15] else []))
                   results
    /\ (List.length h' - List.length h
        = List.length registry_mirrors
          + List.length (filter connectivity_success results))%nat.
Proof.
  intros net registry_mirrors h h' results E.
  split; [reflexivity|].
  apply test_registries_history in E. destruct E as [F ->].
  split; [exact F|]. split; [reflexivity|].
  rewrite length_app, Nat.add_comm, Nat.add_sub.
  rewrite (Forall2_length F). clear F.
  induction results as [|r rs IH]; [reflexivity|].
  simpl. destruct (connectivity_success r); simpl; rewrite IH; lia.
Qed.

(** The run [two_mirrors]: both mirrors answer [/v2/], so each is asked
    for the manifest as well. *)
Lemma registries_tested_in_order_witness :
  exists results h',
    test_registries Scenario.two_mirrors
      [Scenario.mirror_m; Scenario.mirror_n] []
    = (Ok results, h')
    /\ map name results = ["Registry_1"; "Registry_2"]
    /\ List.length h' = 4%nat.
Proof.
  destruct (test_registries Scenario.two_mirrors
              [Scenario.mirror_m; Scenario.mirror_n] [])
    as [[results|e] h'] eqn:E; [|vm_compute in E; discriminate].
  exists results, h'. split; [reflexivity|].
  destruct (registries_tested_in_order _ _ _ E) as [_ [F [_ L]]].
  rewrite Nat.sub_0_r in L. rewrite L. clear L F.
  vm_compute in E. inversion E; subst results h'. split; reflexivity.
Defined.

(** X10.  The address a mirror is probed at always starts with [http];
    trailing slashes of the configured address play no part in it; and an
    address that starts with [http] and does not end with a slash is
    probed as it is written. *)
Theorem test_url_normalised :
  forall mirror : string,
    startswith (test_url mirror) "http" = true
    /\ test_url (mirror ++ "/") = test_url mirror
    /\ (startswith mirror "http" = true ->
        rstrip_slash mirror = mirror ->
        test_url mirror = mirror).
Proof.
  intros mirror. unfold test_url. split; [|split].
  - destruct (startswith (rstrip_slash mirror) "http") eqn:S; simpl.
    + exact S.
    + reflexivity.
  - unfold rstrip_slash. now rewrite rstrip_if_snoc.
  - intros S R. rewrite R, S. reflexivity.
Qed.

End RegistryRunProperties.

Section ApplyProperties.
Import Py Sys DnsApply ApplyFacts.
Local Open Scope string_scope.
Local Open Scope list_scope.

(** X11.  [apply_dns_settings] makes its four calls in order (backup of
    [/etc/resolv.conf], writing the new file, copying it over
    [/etc/resolv.conf], removing the new file) and stops at the first that
    fails: it makes one call exactly when the backup fails, two exactly
    when the backup goes through and the write fails, three exactly when
    these two go through and the copy fails, and four exactly when the
    first three go through.  It returns [True] exactly when all four went
    through; it raises exactly when the call it stopped at raised
    something that is not an [Exception], and raises that; in every other
    case it returns [False].  So it overwrites [/etc/resolv.conf] only
    after the backup and the write went through; and when only the last
    call fails, it returns [False] although the new settings are in
    place. *)
Theorem apply_dns_settings_steps :
  forall (sys : system) (primary_dns secondary_dns : string)
         (h : list action),
    let content := resolv_conf_content primary_dns secondary_dns in
    let saved := subprocess_run sys h backup in
    let written :=
      write_text sys (h ++ [Run backup]) "/tmp/resolv.conf.new" content in
    let installed :=
      subprocess_run sys
        (h ++ [Run backup; WriteText "/tmp/resolv.conf.new" content])
        install in
    let removed :=
      subprocess_run sys
        (h ++ [Run backup; WriteText "/tmp/resolv.conf.new" content;
               Run install])
        remove in
    let r := apply_dns_settings sys primary_dns secondary_dns h in
    exists k,
      snd r = h ++ firstn k (steps primary_dns secondary_dns)
      /\ (k = 1%nat <-> ~ succeeded saved)
      /\ (k = 2%nat <-> succeeded saved /\ written <> Returns tt)
      /\ (k = 3%nat
          <-> succeeded saved /\ written = Returns tt
              /\ ~ succeeded installed)
      /\ (k = 4%nat
          <-> succeeded saved /\ written = Returns tt
              /\ succeeded installed)
      /\ (fst r = Returns true
          <-> succeeded saved /\ written = Returns tt
              /\ succeeded installed /\ succeeded removed)
      /\ (forall e,
            fst r = Raises e
            <-> isinstance_Exception e = false
                /\ (saved = Raises e
                    \/ (succeeded saved /\ written = Raises e)
                    \/ (succeeded saved /\ written = Returns tt
                        /\ installed = Raises e)
                    \/ (succeeded saved /\ written = Returns tt
                        /\ succeeded installed /\ removed = Raises e)))
      /\ (succeeded saved -> written = Returns tt -> succeeded installed ->
          forall status,
            removed = Returns status -> status <> 0%Z ->
            fst r = Returns false /\ k = 4%nat).
Proof.
  intros sys p s h content saved written installed removed r.
  assert (Er : r = apply_dns_settings sys p s h) by reflexivity.
  clearbody r.
  unfold apply_dns_settings, try_except, bind in Er. cbv beta in Er.
  fold backup install remove content in Er.
  rewrite run_checked_eq in Er. fold saved in Er.
  unfold write at 1 in Er. fold written in Er.
  replace ((h ++ [Run backup]) ++ [WriteText "/tmp/resolv.conf.new" content])
    with (h ++ [Run backup; WriteText "/tmp/resolv.conf.new" content]) in Er
    by now rewrite <- app_assoc.
  rewrite run_checked_eq in Er. fold installed in Er.
  replace ((h ++ [Run backup; WriteText "/tmp/resolv.conf.new" content])
           ++ [Run install])
    with (h ++ [Run backup; WriteText "/tmp/resolv.conf.new" content;
                Run install]) in Er
    by now rewrite <- app_assoc.
  rewrite run_checked_eq in Er. fold removed in Er.
  replace ((h ++ [Run backup; WriteText "/tmp/resolv.conf.new" content;
                  Run install]) ++ [Run remove])
    with (h ++ steps p s) in Er
    by (unfold steps; fold content; now rewrite <- app_assoc).
  clearbody saved written installed removed.
  unfold succeeded, checked in *.
  destruct saved as [z1|e1];
    [destruct (Z.eqb_spec z1 0) as [->|N1]|];
    [destruct written as [[]|e2];
       [destruct installed as [z3|e3];
          [destruct (Z.eqb_spec z3 0) as [->|N3]|];
          [destruct removed as [z4|e4];
             [destruct (Z.eqb_spec z4 0) as [->|N4]|]| |]|]| |];
    rewrite ?handlers_of_apply in Er;
    try match type of Er with
        | context [isinstance_Exception ?e] =>
            destruct (isinstance_Exception e) eqn:X
        end;
    try (simpl in X; discriminate X);
    subst r; unfold ret; cbn [fst snd];
    [exists 4%nat|exists 4%nat|exists 4%nat|exists 4%nat
    |exists 3%nat|exists 3%nat|exists 3%nat
    |exists 2%nat|exists 2%nat
    |exists 1%nat|exists 1%nat|exists 1%nat];
    (split; [reflexivity|]);
    repeat match goal with
           | |- _ /\ _ => split
           | |- _ <-> _ => split
           | |- forall _, _ => intro
           end;
    try solve [intuition (try lia; try congruence)].
Qed.

(** Without [sudo] rights the backup fails: it is the only call made, and
    the result is [False]. *)
Lemma apply_dns_settings_steps_witness :
  apply_dns_settings Host.without_sudo "10.0.0.1" "" []
  = (Returns false, [Run backup]).
Proof.
  destruct (apply_dns_settings_steps Host.without_sudo "10.0.0.1" "" [])
    as [k [S [K1 [_ [_ [_ [T [R _]]]]]]]].
  cbv zeta in *.
  assert (K : k = 1%nat).
  { apply K1. unfold succeeded. vm_compute. discriminate. }
  subst k.
  destruct (apply_dns_settings Host.without_sudo "10.0.0.1" "" [])
    as [[[|]|e] h'] eqn:E; cbn [fst snd] in *; subst h'.
  - exfalso. destruct (proj1 T eq_refl) as [Q _]. vm_compute in Q.
    discriminate Q.
  - reflexivity.
  - exfalso. destruct (proj1 (R e) eq_refl) as [_ Q]. vm_compute in Q.
    destruct Q as [Q|[[Q _]|[[Q _]|[Q _]]]]; discriminate Q.
Defined.

End ApplyProperties.

Section DnsMainProperties.
Import Py Sys DnsApply DnsMainFacts.
Local Open Scope string_scope.
Local Open Scope list_scope.



End DnsMainProperties.

Section ConfigureProperties.
Import Py Sys MirrorConfigure ConfigureFacts.
Local Open Scope string_scope.
Local Open Scope list_scope.

(** X13.  The new content of [daemon.json] is computed only from a dict;
    anything else [json.load] may give raises [TypeError].  In the new
    dict ['registry-mirrors'] is the list of the selected mirror alone
    (what stood there is replaced); every key other than
    ['registry-mirrors'] and ['insecure-registries'] keeps its value; for
    a mirror that is not insecure ['insecure-registries'] is left as it
    is, for an insecure one a list found there holds the mirror afterwards,
    appended when it was missing, and a missing key becomes the list of
    the mirror alone.  Computing the content again from the new dict gives
    the same dict. *)
Theorem daemon_json_update :
  forall (daemon_config : json)
         (selected_mirror : MirrorSelector.registry_result),
    let mirror := MirrorSelector.mirror selected_mirror in
    ((forall entries, daemon_config <> JDict entries) ->
     update daemon_config selected_mirror = Raises TypeError)
    /\ (forall d',
          update daemon_config selected_mirror = Returns d' ->
          exists entries entries',
            daemon_config = JDict entries
            /\ d' = JDict entries'
            /\ dict_get entries' "registry-mirrors"
               = Some (JList [JString mirror])
            /\ (forall k,
                  k <> "registry-mirrors" -> k <> "insecure-registries" ->
                  dict_get entries' k = dict_get entries k)
            /\ dict_get entries' "insecure-registries"
               = (if MirrorSelector.insecure selected_mirror then
                    Some (insecure_after mirror
                            (dict_get entries "insecure-registries"))
                  else dict_get entries "insecure-registries")
            /\ update d' selected_mirror = Returns d').
Proof.
  intros daemon_config sel mirror. split.
  - apply update_non_dict.
  - intros d' E. now apply update_Returns.
Qed.

(** A configuration with a debug flag and an older mirror; the selected
    mirror is insecure. *)
Lemma daemon_json_update_witness :
  exists entries',
    update
      (JDict [("debug", JBool true);
              ("registry-mirrors", JList [JString "https://old.example"])])
      {| MirrorSelector.name := "Registry_1";
         MirrorSelector.mirror := "https://m.example";
         MirrorSelector.insecure := true;
         MirrorSelector.connectivity_success := true;
         MirrorSelector.connectivity_time := Fin (2 # 10);
         MirrorSelector.hub_success := true;
         MirrorSelector.hub_time := Fin (4 # 10);
         MirrorSelector.total_score := Fin (8 # 10);
         MirrorSelector.status := "Working" |}
    = Returns (JDict entries')
    /\ dict_get entries' "debug" = Some (JBool true)
    /\ dict_get entries' "registry-mirrors"
       = Some (JList [JString "https://m.example"]).
Proof.
  set (sel := {| MirrorSelector.name := "Registry_1";
                 MirrorSelector.mirror := "https://m.example";
                 MirrorSelector.insecure := true;
                 MirrorSelector.connectivity_success := true;
                 MirrorSelector.connectivity_time := Fin (2 # 10);
                 MirrorSelector.hub_success := true;
                 MirrorSelector.hub_time := Fin (4 # 10);
                 MirrorSelector.total_score := Fin (8 # 10);
                 MirrorSelector.status := "Working" |}).
  set (config := JDict [("debug", JBool true);
                        ("registry-mirrors",
                         JList [JString "https://old.example"])]).
  destruct (update config sel) as [d'|e] eqn:E;
    [|vm_compute in E; discriminate].
  destruct (proj2 (daemon_json_update config sel) d' E)
    as [entries [entries' [C [-> [M [K _]]]]]].
  exists entries'. split; [reflexivity|].
  inversion C; subst entries. split; [|exact M].
  rewrite K by discriminate. reflexivity.
Defined.

(** X14.  [_configure_docker_daemon] first reads: [os.path.exists], then
    [json.load] exactly when the file exists.  The configuration it starts
    from is an empty dict when there is no file or its content is not
    JSON, and the content of the file otherwise.  It then makes its four
    calls in order (writing [daemon.json], restarting the daemon, waiting,
    running [docker info]) and stops at the first that fails: it writes
    exactly when the update of the configuration went through, and what it
    writes is the updated configuration, a dict whose ['registry-mirrors']
    is the selected mirror alone; it restarts the daemon exactly when the
    write went through, waits exactly when the restart exited with 0, and
    runs [docker info] exactly when the wait returned; nothing rolls the
    file back when the restart or the check fails.  It returns [True]
    exactly when all four calls were made and [docker info] exited with 0;
    it raises exactly when the step it stopped at raised something that is
    not an [Exception], and raises that; in every other case it returns
    [False].  When [daemon.json] holds valid JSON that is not a dict,
    nothing is written and the result is [False]; when it holds invalid
    JSON, its content is discarded. *)
Theorem configure_daemon_steps :
  forall (sys : system) (path : string)
         (selected_mirror : MirrorSelector.registry_result)
         (h : list action),
    let r := _configure_docker_daemon sys path selected_mirror h in
    let present := path_exists sys h path in
    let loaded := json_load sys (h ++ [PathExists path]) path in
    exists reads k value,
      let before := h ++ reads in
      let dumped := json_dump sys before path value in
      let restarted :=
        subprocess_run sys (before ++ [DumpJson path value]) restart in
      let slept :=
        time_sleep sys (before ++ [DumpJson path value; Run restart]) 5 in
      let verified :=
        subprocess_run sys
          (before ++ [DumpJson path value; Run restart; Sleep 5]) info in
      snd r = before ++ firstn k (installation path value)
      /\ (k <= 4)%nat
      /\ (reads = [PathExists path; LoadJson path] <-> present = Returns true)
      /\ (reads = [PathExists path] <-> present <> Returns true)
      /\ ((1 <= k)%nat ->
          exists config,
            started present loaded config
            /\ update config selected_mirror = Returns value)
      /\ (forall config v,
            started present loaded config ->
            update config selected_mirror = Returns v ->
            (1 <= k)%nat /\ value = v)
      /\ ((1 <= k)%nat ->
          exists entries,
            value = JDict entries
            /\ dict_get entries "registry-mirrors"
               = Some (JList
                         [JString (MirrorSelector.mirror selected_mirror)]))
      /\ ((2 <= k)%nat <-> (1 <= k)%nat /\ dumped = Returns tt)
      /\ ((3 <= k)%nat <-> (2 <= k)%nat /\ restarted = Returns 0%Z)
      /\ (k = 4%nat <-> (3 <= k)%nat /\ slept = Returns tt)
      /\ (fst r = Returns true <-> k = 4%nat /\ verified = Returns 0%Z)
      /\ (forall e,
            fst r = Raises e
            <-> isinstance_Exception e = false
                /\ (present = Raises e
                    \/ (present = Returns true /\ loaded = Raises e)
                    \/ (exists config,
                          started present loaded config
                          /\ update config selected_mirror = Raises e)
                    \/ ((1 <= k)%nat /\ dumped = Raises e)
                    \/ ((2 <= k)%nat /\ restarted = Raises e)
                    \/ ((3 <= k)%nat /\ slept = Raises e)
                    \/ (k = 4%nat /\ verified = Raises e)))
      /\ (present = Returns true ->
          forall config,
            loaded = Returns config ->
            (forall entries, config <> JDict entries) ->
            k = O /\ fst r = Returns false)
      /\ ((1 <= k)%nat ->
          present = Returns true ->
          loaded = Raises JSONDecodeError ->
          update (JDict []) selected_mirror = Returns value).
Proof.
  intros sys path sel h r present loaded.
  assert (Er : r = _configure_docker_daemon sys path sel h) by reflexivity.
  clearbody r.
  rewrite _configure_docker_daemon_handled, read_config_eq in Er.
  fold present loaded in Er. clearbody present loaded.
  assert (From :
            forall reads config,
              r = handled (configure_with sys path sel config (h ++ reads)) ->
              (forall c, started present loaded c <-> c = config) ->
              (forall e, present <> Raises e) ->
              (forall e, present = Returns true -> loaded = Raises e ->
                         isinstance_Exception e = true) ->
              exists k value,
                let before := h ++ reads in
                let dumped := json_dump sys before path value in
                let restarted :=
                  subprocess_run sys (before ++ [DumpJson path value])
                    restart in
                let slept :=
                  time_sleep sys
                    (before ++ [DumpJson path value; Run restart]) 5 in
                let verified :=
                  subprocess_run sys
                    (before ++ [DumpJson path value; Run restart; Sleep 5])
                    info in
                snd r = before ++ firstn k (installation path value)
                /\ (k <= 4)%nat
                /\ ((1 <= k)%nat ->
                    exists config,
                      started present loaded config
                      /\ update config sel = Returns value)
                /\ (forall config v,
                      started present loaded config ->
                      update config sel = Returns v ->
                      (1 <= k)%nat /\ value = v)
                /\ ((1 <= k)%nat ->
                    exists entries,
                      value = JDict entries
                      /\ dict_get entries "registry-mirrors"
                         = Some (JList
                                   [JString (MirrorSelector.mirror sel)]))
                /\ ((2 <= k)%nat <-> (1 <= k)%nat /\ dumped = Returns tt)
                /\ ((3 <= k)%nat
                    <-> (2 <= k)%nat /\ restarted = Returns 0%Z)
                /\ (k = 4%nat <-> (3 <= k)%nat /\ slept = Returns tt)
                /\ (fst r = Returns true
                    <-> k = 4%nat /\ verified = Returns 0%Z)
                /\ (forall e,
                      fst r = Raises e
                      <-> isinstance_Exception e = false
                          /\ (present = Raises e
                              \/ (present = Returns true
                                  /\ loaded = Raises e)
                              \/ (exists config,
                                    started present loaded config
                                    /\ update config sel = Raises e)
                              \/ ((1 <= k)%nat /\ dumped = Raises e)
                              \/ ((2 <= k)%nat /\ restarted = Raises e)
                              \/ ((3 <= k)%nat /\ slept = Raises e)
                              \/ (k = 4%nat /\ verified = Raises e)))).
  { intros reads config -> St Np Nl.
    destruct (configure_with_calls sys path sel config (h ++ reads))
      as [k [value C]].
    cbv zeta in C.
    destruct C as [Bk [Sk [U1 [U2 [K2 [K3 [K4 [T R]]]]]]]].
    exists k, value. cbv zeta.
    split; [exact Sk|]. split; [exact Bk|].
    split.
    { intros K. exists config. split; [now apply St|now apply U1]. }
    split.
    { intros c v Sc. apply St in Sc. subst c. apply U2. }
    split.
    { intros K. destruct (update_Returns _ _ (U1 K))
        as [entries [entries' [_ [-> [G _]]]]].
      now exists entries'. }
    split; [exact K2|]. split; [exact K3|]. split; [exact K4|].
    split; [exact T|].
    intros e. rewrite R. split.
    - intros [X D]. split; [exact X|].
      destruct D as [D|D]; [|tauto].
      right. right. left. exists config. split; [now apply St|exact D].
    - intros [X D]. split; [exact X|].
      destruct D as [D|[[D1 D2]|[[c [Sc D]]|D]]].
      + now elim (Np e).
      + specialize (Nl e D1 D2). congruence.
      + apply St in Sc. subst c. now left.
      + tauto. }
  assert (Stop :
            forall reads e,
              r = handled (Raises e, h ++ reads) ->
              (forall c, ~ started present loaded c) ->
              (forall e', (present = Raises e'
                           \/ (present = Returns true
                               /\ loaded = Raises e'))
                          <-> e' = e) ->
              snd r = (h ++ reads) ++ firstn 0 (installation path JNull)
              /\ (fst r = Returns true -> False)
              /\ (forall e',
                    fst r = Raises e'
                    <-> isinstance_Exception e' = false
                        /\ (present = Raises e'
                            \/ (present = Returns true
                                /\ loaded = Raises e')))).
  { intros reads e -> Ns Ex. unfold handled.
    destruct (isinstance_Exception e) eqn:X; cbn [fst snd].
    - split; [now rewrite app_nil_r|]. split; [discriminate|].
      intros e'. split; [discriminate|].
      intros [X' D]. apply Ex in D. congruence.
    - split; [now rewrite app_nil_r|]. split; [discriminate|].
      intros e'. split.
      + intros Q. inversion Q; subst e'. split; [exact X|].
        now apply Ex.
      + intros [_ D]. apply Ex in D. now subst. }
  destruct present as [[|]|e0].
  - destruct loaded as [config|e1].
    + destruct (From [PathExists path; LoadJson path] config Er)
        as [k [value C]].
      * unfold started. intros c. split.
        -- intros [[Q _]|[[_ Q]|[_ [Q _]]]]; congruence.
        -- intros ->. right. left. now split.
      * discriminate.
      * discriminate.
      * exists [PathExists path; LoadJson path], k, value.
        cbv zeta in *.
        destruct C as [C1 [C2 [C3 [C4 [C5 [C6 [C7 [C8 [C9 C10]]]]]]]]].
        split; [exact C1|]. split; [exact C2|].
        split; [tauto|]. split; [split; [discriminate|congruence]|].
        split; [exact C3|]. split; [exact C4|]. split; [exact C5|].
        split; [exact C6|]. split; [exact C7|]. split; [exact C8|].
        split; [exact C9|]. split; [exact C10|].
        split.
        -- intros _ c Q N. inversion Q; subst c.
           pose proof (update_non_dict sel N) as U.
           assert (K : k = O).
           { destruct k; [reflexivity|].
             destruct (C3 ltac:(lia)) as [c [Sc Uc]].
             unfold started in Sc.
             destruct Sc as [[Q' _]|[[_ Q']|[_ [Q' _]]]]; try discriminate.
             inversion Q'; subst c. congruence. }
           split; [exact K|].
           destruct (fst r) as [[|]|e] eqn:F; [| reflexivity |].
           ++ destruct (proj1 C9 eq_refl) as [K4 _]. lia.
           ++ destruct (proj1 (C10 e) eq_refl) as [X D].
              destruct D as [D|[[_ D]|[[c [Sc D]]|D]]]; try discriminate.
              ** unfold started in Sc.
                 destruct Sc as [[Q' _]|[[_ Q']|[_ [Q' _]]]];
                   try discriminate.
                 inversion Q'; subst c. rewrite U in D.
                 inversion D; subst e. discriminate X.
              ** lia.
        -- intros _ _ Q. discriminate Q.
    + destruct (isinstance_JSONDecodeError e1) eqn:J.
      * assert (e1 = JSONDecodeError) by (destruct e1; now try discriminate).
        subst e1.
        destruct (From [PathExists path; LoadJson path] (JDict []) Er)
          as [k [value C]].
        -- unfold started. intros c. split.
           ++ intros [[Q _]|[[_ Q]|[_ [_ Q]]]]; congruence.
           ++ intros ->. right. right. now repeat split.
        -- discriminate.
        -- intros e _ Q. inversion Q; subst e. reflexivity.
        -- exists [PathExists path; LoadJson path], k, value.
           cbv zeta in *.
           destruct C as [C1 [C2 [C3 [C4 [C5 [C6 [C7 [C8 [C9 C10]]]]]]]]].
           split; [exact C1|]. split; [exact C2|].
           split; [tauto|]. split; [split; [discriminate|congruence]|].
           split; [exact C3|]. split; [exact C4|]. split; [exact C5|].
           split; [exact C6|]. split; [exact C7|]. split; [exact C8|].
           split; [exact C9|]. split; [exact C10|].
           split; [intros _ c Q; discriminate Q|].
           intros K _ _. destruct (C3 K) as [c [Sc Uc]].
           unfold started in Sc.
           destruct Sc as [[Q' _]|[[_ Q']|[_ [_ Q']]]]; try discriminate.
           now subst c.
      * destruct (Stop [PathExists path; LoadJson path] e1 Er)
          as [S1 [S2 S3]].
        -- unfold started. intros c [[Q _]|[[_ Q]|[_ [Q _]]]];
             try discriminate.
           inversion Q; subst e1. discriminate J.
        -- intros e'. split.
           ++ intros [Q|[_ Q]]; [discriminate|]. now inversion Q.
           ++ intros ->. right. now split.
        -- exists [PathExists path; LoadJson path], O, JNull.
           cbv zeta.
           split; [exact S1|]. split; [lia|].
           split; [tauto|]. split; [split; [discriminate|congruence]|].
           split; [lia|].
           split.
           { intros c v Sc. exfalso. revert Sc. unfold started.
             intros [[Q _]|[[_ Q]|[_ [Q _]]]]; try discriminate.
             inversion Q; subst e1. discriminate J. }
           split; [lia|]. split; [lia|]. split; [lia|]. split; [lia|].
           split; [split; [intros Q; now elim S2|lia]|].
           split.
           { intros e. rewrite S3. split.
             - intros [X D]. split; [exact X|]. tauto.
             - intros [X D]. split; [exact X|].
               destruct D as [D|[D|[[c [Sc D]]|D]]]; [tauto|tauto| |lia].
               exfalso. revert Sc. unfold started.
               intros [[Q _]|[[_ Q]|[_ [Q _]]]]; try discriminate.
               inversion Q; subst e1. discriminate J. }
           split; [intros _ c Q; discriminate Q|lia].
  - destruct (From [PathExists path] (JDict []) Er) as [k [value C]].
    + unfold started. intros c. split.
      * intros [[_ Q]|[[Q _]|[Q _]]]; congruence.
      * intros ->. left. now split.
    + discriminate.
    + discriminate.
    + exists [PathExists path], k, value.
      cbv zeta in *.
      destruct C as [C1 [C2 [C3 [C4 [C5 [C6 [C7 [C8 [C9 C10]]]]]]]]].
      split; [exact C1|]. split; [exact C2|].
      split; [split; discriminate|]. split; [split; [discriminate|reflexivity]|].
      split; [exact C3|]. split; [exact C4|]. split; [exact C5|].
      split; [exact C6|]. split; [exact C7|]. split; [exact C8|].
      split; [exact C9|]. split; [exact C10|].
      split; discriminate.
  - destruct (Stop [PathExists path] e0 Er) as [S1 [S2 S3]].
    + unfold started. intros c [[Q _]|[[Q _]|[Q _]]]; discriminate.
    + intros e'. split.
      * intros [Q|[Q _]]; [now inversion Q|discriminate].
      * intros ->. now left.
    + exists [PathExists path], O, JNull. cbv zeta.
      split; [exact S1|]. split; [lia|].
      split; [split; discriminate|].
      split; [split; [discriminate|reflexivity]|].
      split; [lia|].
      split.
      { intros c v Sc. exfalso. revert Sc. unfold started.
        intros [[Q _]|[[Q _]|[Q _]]]; discriminate. }
      split; [lia|]. split; [lia|]. split; [lia|]. split; [lia|].
      split; [split; [intros Q; now elim S2|lia]|].
      split.
      { intros e. rewrite S3. split.
        - intros [X D]. split; [exact X|]. tauto.
        - intros [X D]. split; [exact X|].
          destruct D as [D|[D|[[c [Sc D]]|D]]]; [tauto|tauto| |lia].
          exfalso. revert Sc. unfold started.
          intros [[Q _]|[[Q _]|[Q _]]]; discriminate. }
      split; [discriminate|lia].
Qed.

(** No [daemon.json] yet, every call goes through: one read, then the four
    calls. *)
Lemma configure_daemon_steps_witness :
  exists value,
    snd (_configure_docker_daemon Host.obliging "/etc/docker/daemon.json"
           {| MirrorSelector.name := "Registry_1";
              MirrorSelector.mirror := "https://m.example";
              MirrorSelector.insecure := false;
              MirrorSelector.connectivity_success := true;
              MirrorSelector.connectivity_time := Fin (2 # 10);
              MirrorSelector.hub_success := true;
              MirrorSelector.hub_time := Fin (4 # 10);
              MirrorSelector.total_score := Fin (8 # 10);
              MirrorSelector.status := "Working" |} [])
    = PathExists "/etc/docker/daemon.json"
      :: installation "/etc/docker/daemon.json" value.
Proof.
  set (sel := {| MirrorSelector.name := "Registry_1";
                 MirrorSelector.mirror := "https://m.example";
                 MirrorSelector.insecure := false;
                 MirrorSelector.connectivity_success := true;
                 MirrorSelector.connectivity_time := Fin (2 # 10);
                 MirrorSelector.hub_success := true;
                 MirrorSelector.hub_time := Fin (4 # 10);
                 MirrorSelector.total_score := Fin (8 # 10);
                 MirrorSelector.status := "Working" |}).
  destruct (configure_daemon_steps Host.obliging "/etc/docker/daemon.json"
              sel [])
    as [reads [k [value C]]].
  cbv zeta in C.
  destruct C as [S [_ [_ [R [_ [_ [_ [_ [_ [_ [T _]]]]]]]]]]].
  exists value.
  assert (K : k = 4%nat) by (apply T; reflexivity).
  assert (Q : reads = [PathExists "/etc/docker/daemon.json"])
    by (apply R; discriminate).
  subst k reads. rewrite S. reflexivity.
Defined.

End ConfigureProperties.

Section CommandProperties.
Import Py Sys MirrorConfigure ConfigureFacts CommandFacts.
Local Open Scope string_scope.
Local Open Scope list_scope.

(** X15.  The registry command returns 0 or 1; an exception leaves it only
    if it is neither an [Exception] nor a [KeyboardInterrupt].  Without
    root privileges it returns 1 and calls nothing.  It writes no text
    file; whatever it writes as JSON goes to [/etc/docker/daemon.json], is
    a dict whose ['registry-mirrors'] is the mirror the selection returned,
    alone, and is written only when the tests returned and the selection
    returned a mirror.  It returns 0 only when
    [_configure_docker_daemon] returned [True] for the selected mirror. *)
Theorem registry_main_outcomes :
  forall (geteuid : Z) (started : outcome (list MirrorSelector.registry))
         (net : MirrorSelector.network) (stdin : list stdin_event)
         (sys : system) (h : list action),
    let r := main geteuid started net stdin sys h in
    (forall status, fst r = Returns status -> status = 0%Z \/ status = 1%Z)
    /\ (forall e,
          fst r = Raises e ->
          isinstance_Exception e = false
          /\ isinstance_KeyboardInterrupt e = false)
    /\ (geteuid <> 0%Z -> r = (Returns 1%Z, h))
    /\ (exists acts,
          snd r = h ++ acts
          /\ (forall path content, ~ In (WriteText path content) acts)
          /\ (forall path value,
                In (DumpJson path value) acts ->
                exists registry_mirrors results selected_mirror entries,
                  started = Returns registry_mirrors
                  /\ MirrorSelector.test_all_registries net registry_mirrors
                     = Ok results
                  /\ fst (MirrorSelector.display_results_and_choose results
                            stdin)
                     = Ok (Some selected_mirror)
                  /\ path = "/etc/docker/daemon.json"
                  /\ value = JDict entries
                  /\ dict_get entries "registry-mirrors"
                     = Some (JList
                               [JString
                                  (MirrorSelector.mirror selected_mirror)])))
    /\ (fst r = Returns 0%Z ->
        geteuid = 0%Z
        /\ exists registry_mirrors results selected_mirror before after,
             started = Returns registry_mirrors
             /\ MirrorSelector.test_all_registries net registry_mirrors
                = Ok results
             /\ fst (MirrorSelector.display_results_and_choose results stdin)
                = Ok (Some selected_mirror)
             /\ _configure_docker_daemon sys "/etc/docker/daemon.json"
                  selected_mirror before
                = (Returns true, after)).
Proof.
  intros geteuid started net stdin sys h r.
  assert (Er : r = main geteuid started net stdin sys h) by reflexivity.
  clearbody r. unfold main in Er.
  assert (Sel : forall registry_mirrors selected_mirror,
            selection net registry_mirrors stdin = Some selected_mirror ->
            exists results,
              MirrorSelector.test_all_registries net registry_mirrors
              = Ok results
              /\ fst (MirrorSelector.display_results_and_choose results stdin)
                 = Ok (Some selected_mirror)).
  { intros registry_mirrors selected_mirror. unfold selection.
    destruct (MirrorSelector.test_all_registries net registry_mirrors)
      as [results|e]; [|discriminate].
    destruct (fst (MirrorSelector.display_results_and_choose results stdin))
      as [[s|]|e] eqn:D; try discriminate.
    intros [= ->]. now exists results. }
  destruct (Z.eqb_spec geteuid 0) as [G|G]; cbn [negb] in Er;
    cbv beta iota in Er.
  2: { subst r. simpl.
       split; [intros ? [= <-]; now right|]. split; [discriminate|].
       split; [reflexivity|].
       split; [|discriminate].
       exists []. split; [now rewrite app_nil_r|].
       split; intros ? ? []. }
  unfold try_except, bind, lift in Er.
  destruct started as [registry_mirrors|e0].
  2: { assert (Q : r = if isinstance_KeyboardInterrupt e0
                       then (Returns 1%Z, h)
                       else if isinstance_Exception e0
                            then (Returns 1%Z, h) else (Raises e0, h)).
       { subst r. simpl.
         destruct (isinstance_KeyboardInterrupt e0); [reflexivity|].
         now destruct (isinstance_Exception e0). }
       clear Er.
       destruct (isinstance_KeyboardInterrupt e0) eqn:K;
         [|destruct (isinstance_Exception e0) eqn:X]; subst r; simpl;
         (split; [intros ? Q; inversion Q; now right|]);
         (split; [intros ? Q; inversion Q; subst; now split|]);
         (split; [intros N; contradiction|]);
         (split; [|discriminate]);
         exists []; (split; [now rewrite app_nil_r|]);
         split; intros ? ? []. }
  cbv beta iota in Er.
  pose proof (traces_run_selection sys net registry_mirrors
                "/etc/docker/daemon.json" stdin h) as T.
  destruct T as [acts [Sa Fa]].
  assert (W : (forall path content, ~ In (WriteText path content) acts)
              /\ (forall path value,
                    In (DumpJson path value) acts ->
                    exists mirrors results selected_mirror entries,
                      Returns registry_mirrors = Returns mirrors
                      /\ MirrorSelector.test_all_registries net mirrors
                         = Ok results
                      /\ fst (MirrorSelector.display_results_and_choose
                                results stdin)
                         = Ok (Some selected_mirror)
                      /\ path = "/etc/docker/daemon.json"
                      /\ value = JDict entries
                      /\ dict_get entries "registry-mirrors"
                         = Some (JList
                                   [JString
                                      (MirrorSelector.mirror
                                         selected_mirror)]))).
  { rewrite Forall_forall in Fa. split.
    - intros path content I. apply Fa in I.
      destruct (selection net registry_mirrors stdin); exact I.
    - intros path value I. apply Fa in I.
      destruct (selection net registry_mirrors stdin) as [sel|] eqn:Se;
        [|contradiction].
      destruct (Sel _ _ Se) as [results [Tr Dr]].
      destruct I as [-> [entries [-> Gm]]].
      now exists registry_mirrors, results, sel, entries. }
  destruct (run_selection sys net registry_mirrors "/etc/docker/daemon.json"
              stdin h) as [[success|e] h1] eqn:RS; simpl in Sa; subst h1.
  - destruct success; subst r; simpl.
    + split; [intros ? [= <-]; now left|]. split; [discriminate|].
      split; [intros N; contradiction|].
      split; [now exists acts|].
      intros _. split; [exact G|].
      destruct (run_selection_true _ _ _ _ _ _ RS)
        as [sel [before [after [Se C]]]].
      destruct (Sel _ _ Se) as [results [Tr Dr]].
      now exists registry_mirrors, results, sel, before, after.
    + split; [intros ? [= <-]; now right|]. split; [discriminate|].
      split; [intros N; contradiction|].
      split; [now exists acts|discriminate].
  - assert (Q : r = if isinstance_KeyboardInterrupt e
                    then (Returns 1%Z, h ++ acts)
                    else if isinstance_Exception e
                         then (Returns 1%Z, h ++ acts)
                         else (Raises e, h ++ acts)).
    { subst r. simpl.
      destruct (isinstance_KeyboardInterrupt e); [reflexivity|].
      now destruct (isinstance_Exception e). }
    clear Er.
    destruct (isinstance_KeyboardInterrupt e) eqn:K;
      [|destruct (isinstance_Exception e) eqn:X]; subst r; simpl;
      (split; [intros ? Q; inversion Q; now right|]);
      (split; [intros ? Q; inversion Q; subst; now split|]);
      (split; [intros N; contradiction|]);
      (split; [now exists acts|discriminate]).
Qed.

(** X16.  The check of lines 341-346 catches [CalledProcessError] only.
    When [docker --version] exits with a non-zero status, [run_selection]
    returns [False] after that one call.  When running it raises anything
    else (as [FileNotFoundError] when Docker is not installed),
    [run_selection] does not return: the exception goes on to [main], which
    returns 1 if it is an [Exception]. *)
Theorem docker_prerequisites :
  forall (sys : system) (net : MirrorSelector.network)
         (registry_mirrors : list MirrorSelector.registry)
         (path : string) (stdin : list stdin_event) (h : list action),
    let version := subprocess_run sys h ["docker"; "--version"] in
    let after := h ++ [Run ["docker"; "--version"]] in
    (forall status,
       version = Returns status -> status <> 0%Z ->
       run_selection sys net registry_mirrors path stdin h
       = (Returns false, after))
    /\ (forall e,
          version = Raises e -> isinstance_CalledProcessError e = false ->
          run_selection sys net registry_mirrors path stdin h
          = (Raises e, after)
          /\ (isinstance_Exception e = true ->
              main 0 (Returns registry_mirrors) net stdin sys h
              = (Returns 1%Z, after))).
Proof.
  intros sys net registry_mirrors path stdin h version after.
  subst version after. split.
  - intros status V N.
    unfold run_selection, bind, try_except, run_checked, bind, run.
    rewrite V. destruct (Z.eqb_spec status 0) as [E|_]; [contradiction|].
    reflexivity.
  - intros e V C.
    assert (R : forall p,
              run_selection sys net registry_mirrors p stdin h
              = (Raises e, h ++ [Run ["docker"; "--version"]])).
    { intros p.
      unfold run_selection, bind, try_except, run_checked, bind, run.
      rewrite V. simpl. now rewrite C. }
    split; [apply R|].
    intros X. unfold main. change (negb (0 =? 0)%Z) with false.
    cbv beta iota. unfold try_except, bind, lift. cbv beta iota.
    rewrite R. simpl.
    destruct (isinstance_KeyboardInterrupt e); [reflexivity|].
    now rewrite X.
Qed.

(** A system without the [docker] executable. *)
Lemma docker_prerequisites_witness :
  main 0 (Returns [Scenario.mirror_m]) Scenario.two_mirrors [] 
    Host.without_docker []
  = (Returns 1%Z, [Run ["docker"; "--version"]]).
Proof.
  apply (proj2 (docker_prerequisites Host.without_docker
                  Scenario.two_mirrors [Scenario.mirror_m]
                  "/etc/docker/daemon.json" [] [])
           (Builtin OSError) eq_refl eq_refl).
  reflexivity.
Defined.

End CommandProperties.

Section RegistryFileProperties.
Import Py RegistryFile RegistryFileFacts.
Local Open Scope string_scope.
Local Open Scope list_scope.

(** X17.  The blocks [_load_registry_config] hands to [json.loads] are the
    runs of lines of the file that stand between separators, a separator
    being a line that, once stripped, is empty or starts with [#]: each
    block is one run, its lines stripped and each followed by a newline,
    and the blocks come in the order of the file.  A separator always ends
    the block before it (the runs of two parts joined by a separator are
    the runs of the first followed by the runs of the second), lines
    without a separator between them share one block, and no block is
    empty. *)
Theorem json_blocks_are_runs :
  forall content : ustring,
    json_blocks content = map joined (runs (map strip (split_lines content)))
    /\ Forall (fun block => block <> []) (json_blocks content)
    /\ (forall a sep b,
          separates sep = true -> runs (a ++ sep :: b) = runs a ++ runs b)
    /\ (forall a,
          a <> [] -> Forall (fun l => separates l = false) a ->
          runs a = [a])
    /\ runs [] = [].
Proof.
  intros content. split; [apply json_blocks_runs|].
  split; [|split; [apply runs_app|split; [apply runs_free|reflexivity]]].
  rewrite json_blocks_runs. apply Forall_map.
  eapply Forall_impl; [|apply runs_kept].
  intros run [N _]. now apply joined_nonempty.
Qed.

(** A file of two objects under a comment each, the first on two lines,
    with an empty line before the second comment: two blocks. *)
Lemma json_blocks_are_runs_witness :
  json_blocks
    (("# first" : ustring) ++ [nl] ++ ("  {" : ustring) ++ [nl]
     ++ ("}" : ustring) ++ [nl] ++ [nl] ++ ("#second" : ustring) ++ [nl]
     ++ ("{}" : ustring))
  = [("{" : ustring) ++ [nl] ++ ("}" : ustring) ++ [nl];
     ("{}" : ustring) ++ [nl]].
Proof.
  rewrite (proj1 (json_blocks_are_runs _)). vm_compute. reflexivity.
Defined.

End RegistryFileProperties.
